(** * Live PA Audio Analyzer V3.0: analysis and diagnostic engine

    A shallow embedding of the decision logic of [pa_analyzer_v3_final.py]:
    instrumentation parsing ([InstrumentSeparator._parse_lineup]), the history
    store ([AudioDatabase]), session matching ([ComparisonAnalyzer]), the
    frequency-band summary and dynamics of [V2Analyzer], and the per-stem
    diagnosis of [InstrumentAnalyzer].

    Conventions of the embedding.
    - A Python [str] is the list of its Unicode code points ([pystr]); the
      literals of the source are written as UTF-8 string literals and decoded
      with [u].
    - A Python [float] that is only compared and added is a rational ([Q]);
      the dynamics, which need [log10], are stated over the real numbers.
      NaN and the infinities are outside the model.
    - A Python [dict] is an association list in insertion order.
    - The numeric kernels of numpy, scipy and librosa (STFT, filters, onset
      detection) are not part of the program text and appear as inputs. *)

From Stdlib Require Import List String Ascii Bool Arith NArith ZArith QArith.
From Stdlib Require Import Qabs Lia Lqa Lra Permutation Sorted DecimalString.
From Stdlib Require Import Reals.
Import ListNotations.

Set Implicit Arguments.
Open Scope string_scope.
Open Scope list_scope.

(* ================================================================== *)
(** * Part I. Definitions                                               *)
(* ================================================================== *)

(** ** Python strings *)

Module PyStr.

Definition pystr := list N.

(** Bytes of a literal. *)
Fixpoint bytes_of (s : string) : list N :=
  match s with
  | EmptyString => []
  | String c s' => N_of_ascii c :: bytes_of s'
  end.

(** UTF-8 decoding: [pending] continuation bytes are still expected and
    [acc] holds the bits read so far. *)
Fixpoint utf8_go (pending : nat) (acc : N) (bs : list N) : list N :=
  match bs with
  | [] => []
  | b :: bs' =>
    match pending with
    | O =>
        if (b <? 128)%N then b :: utf8_go 0 0%N bs'
        else if (b <? 224)%N then utf8_go 1 (b - 192)%N bs'
        else if (b <? 240)%N then utf8_go 2 (b - 224)%N bs'
        else utf8_go 3 (b - 240)%N bs'
    | S O => (acc * 64 + (b - 128))%N :: utf8_go 0 0%N bs'
    | S k => utf8_go k (acc * 64 + (b - 128))%N bs'
    end
  end.

Definition u (s : string) : pystr := utf8_go 0 0%N (bytes_of s).

Definition eqb (a b : pystr) : bool :=
  if list_eq_dec N.eq_dec a b then true else false.

(** [a.startswith(p)] *)
Fixpoint startswith (p a : pystr) : bool :=
  match p, a with
  | [], _ => true
  | _ :: _, [] => false
  | x :: p', y :: a' => (x =? y)%N && startswith p' a'
  end.

(** [needle in hay] *)
Fixpoint contains (needle hay : pystr) : bool :=
  startswith needle hay ||
  match hay with
  | [] => false
  | _ :: hay' => contains needle hay'
  end.

(** [s.replace(old, new)] for a non-empty [old]: leftmost non-overlapping
    occurrences; [skip] counts the code points of a match still to drop. *)
Fixpoint replace_from (old new : pystr) (skip : nat) (s : pystr) : pystr :=
  match s with
  | [] => []
  | c :: s' =>
    match skip with
    | S k => replace_from old new k s'
    | O =>
        if startswith old s
        then new ++ replace_from old new (List.length old - 1) s'
        else c :: replace_from old new 0 s'
    end
  end.

Definition replace (old new s : pystr) : pystr := replace_from old new 0 s.

(** [s.split(sep)] for a one-character separator: never returns []. *)
Fixpoint split (sep : N) (s : pystr) : list pystr :=
  match s with
  | [] => [[]]
  | c :: s' =>
    if (c =? sep)%N then [] :: split sep s'
    else match split sep s' with
         | [] => [[c]]
         | w :: ws => (c :: w) :: ws
         end
  end.

(** [str.isspace] on one code point. *)
Definition isspace (c : N) : bool :=
  ((9 <=? c) && (c <=? 13) || (28 <=? c) && (c <=? 32) ||
   (c =? 133) || (c =? 160) || (c =? 5760) ||
   (8192 <=? c) && (c <=? 8202) || (c =? 8232) || (c =? 8233) ||
   (c =? 8239) || (c =? 8287) || (c =? 12288))%N.

Fixpoint lstrip (s : pystr) : pystr :=
  match s with
  | [] => []
  | c :: s' => if isspace c then lstrip s' else s
  end.

Definition strip (s : pystr) : pystr := rev (lstrip (rev (lstrip s))).

(** [s.lower()]: the ASCII letters; kana, CJK and digits have no case.
    Cased letters outside ASCII are outside the model. *)
Definition lower_char (c : N) : N :=
  if ((65 <=? c) && (c <=? 90))%N then (c + 32)%N else c.

Definition lower (s : pystr) : pystr := map lower_char s.

(** The empty string. *)
Definition blank : pystr := [].

(** [x in l] for a list of strings. *)
Definition mem (x : pystr) (l : list pystr) : bool := existsb (eqb x) l.

End PyStr.

(** ** InstrumentSeparator *)

Module InstrumentSeparator.
Import PyStr.

(** The alias table of [_parse_lineup], in the order it is written. *)
Definition mapping : list (pystr * pystr) :=
  [ (u "ボーカル", u "vocal");
    (u "ヴォーカル", u "vocal");
    (u "vo", u "vocal");
    (u "キック", u "kick");
    (u "バスドラ", u "kick");
    (u "bd", u "kick");
    (u "スネア", u "snare");
    (u "sn", u "snare");
    (u "sd", u "snare");
    (u "ハイハット", u "hihat");
    (u "ハット", u "hihat");
    (u "hh", u "hihat");
    (u "タム", u "tom");
    (u "ベース", u "bass");
    (u "ベ", u "bass");
    (u "ba", u "bass");
    (u "エレキギター", u "e_guitar");
    (u "ギター", u "e_guitar");
    (u "エレキ", u "e_guitar");
    (u "eg", u "e_guitar");
    (u "gt", u "e_guitar");
    (u "アコギ", u "a_guitar");
    (u "アコースティックギター", u "a_guitar");
    (u "ag", u "a_guitar");
    (u "キーボード", u "keyboard");
    (u "キーボ", u "keyboard");
    (u "kb", u "keyboard");
    (u "key", u "keyboard");
    (u "シンセ", u "synth");
    (u "シンセサイザー", u "synth");
    (u "syn", u "synth") ].

(** The condition of the inner loop:
    [jp_name.lower() in item or eng_name in item]. *)
Definition alias_matches (item : pystr) (entry : pystr * pystr) : bool :=
  contains (lower (fst entry)) item || contains (snd entry) item.

(** The inner [for ... in mapping.items()] with its [break]: the tag of the
    first entry that matches. *)
Definition first_match (table : list (pystr * pystr)) (item : pystr)
  : option pystr :=
  option_map snd (find (alias_matches item) table).

(** One iteration of the outer loop on the accumulated [instruments]. *)
Definition parse_item (table : list (pystr * pystr))
  (instruments : list pystr) (raw : pystr) : list pystr :=
  let item := lower (strip raw) in
  match item with
  | [] => instruments
  | _ =>
    match first_match table item with
    | Some eng_name =>
        if mem eng_name instruments then instruments
        else instruments ++ [eng_name]
    | None => instruments
    end
  end.

Definition split_items (text : pystr) : list pystr :=
  split 44%N (replace (u "、") (u ",") (replace [10%N] (u ",") text)).

Definition parse_with (table : list (pystr * pystr)) (text : pystr)
  : list pystr :=
  fold_left (parse_item table) (split_items text) [].

Definition _parse_lineup (text : pystr) : list pystr := parse_with mapping text.

(** The closed tag vocabulary: the values of the alias table. *)
Definition canonical_tags : list pystr :=
  [ u "vocal"; u "kick"; u "snare"; u "hihat"; u "tom"; u "bass";
    u "e_guitar"; u "a_guitar"; u "keyboard"; u "synth" ].

End InstrumentSeparator.

(** ** Stable sort

    [list.sort] is stable, also with [reverse=True]: elements with equal keys
    keep their order.  [before x y] reads "[x] does not sort after [y]"; an
    element is placed in front of the first element it does not sort after. *)

Module PySort.

Section Sort.
Variable A : Type.
Variable before : A -> A -> bool.

Fixpoint insert (x : A) (l : list A) : list A :=
  match l with
  | [] => [x]
  | y :: l' => if before x y then x :: y :: l' else y :: insert x l'
  end.

Definition sort (l : list A) : list A := fold_right insert [] l.

End Sort.

End PySort.

(** ** AudioDatabase *)

Module AudioDatabase.
Import PyStr.

(** The [metadata] dict built by [main]; a key read with [.get] may be
    absent. *)
Record Metadata := mkMetadata {
  analysis_name : option pystr;
  venue : option pystr;
  venue_capacity : option Z;
  stage_volume : option pystr;
  mixer : option pystr;
  pa_system : option pystr;
  band_lineup : option pystr;
  notes : option pystr
}.

(** The scalar results and the band list that [V2Analyzer.analyze] leaves in
    [self.results] (the arrays kept for plotting are not listed). *)
Record V2Results := mkV2Results {
  r_stereo_width : Q;
  r_correlation : Q;
  r_peak_db : Q;
  r_rms_db : Q;
  r_crest_factor : Q;
  r_dynamic_range : Q;
  r_band_energies : list Q;
  r_avg_onset : Q;
  r_max_onset : Q;
  r_onset_density : Q;
  r_very_low_rms : Q;
  r_sub_bass_ratio : Q
}.

(** A value stored under a key: a number or a sequence of numbers. *)
Inductive value :=
| VNum (q : Q)
| VSeq (l : list Q).

(** [self.results] as the dict it is. *)
Definition results_items (r : V2Results) : list (pystr * value) :=
  [ (u "stereo_width", VNum (r_stereo_width r));
    (u "correlation", VNum (r_correlation r));
    (u "peak_db", VNum (r_peak_db r));
    (u "rms_db", VNum (r_rms_db r));
    (u "crest_factor", VNum (r_crest_factor r));
    (u "dynamic_range", VNum (r_dynamic_range r));
    (u "band_energies", VSeq (r_band_energies r));
    (u "avg_onset", VNum (r_avg_onset r));
    (u "max_onset", VNum (r_max_onset r));
    (u "onset_density", VNum (r_onset_density r));
    (u "very_low_rms", VNum (r_very_low_rms r));
    (u "sub_bass_ratio", VNum (r_sub_bass_ratio r)) ].

(** A stored per-instrument diagnosis, as [_calculate_trend] reads it. *)
Record PastDiagnosis := mkPastDiagnosis {
  p_rms_db : option Q;
  p_freq_bands : option (list (pystr * Q))
}.

(** [entry['analysis']] *)
Record Analysis := mkAnalysis {
  rms_db : Q;
  peak_db : Q;
  stereo_width : Q;
  crest_factor : Q;
  band_energies : list Q;
  instruments : list (pystr * PastDiagnosis)
}.

(** The numeric keys of [entry['analysis']]. *)
Definition analysis_items (a : Analysis) : list (pystr * value) :=
  [ (u "rms_db", VNum (rms_db a));
    (u "peak_db", VNum (peak_db a));
    (u "stereo_width", VNum (stereo_width a));
    (u "crest_factor", VNum (crest_factor a));
    (u "band_energies", VSeq (band_energies a)) ].

Record Equipment := mkEquipment {
  e_mixer : option pystr;
  e_pa_system : option pystr
}.

Record Entry := mkEntry {
  id : pystr;
  timestamp : pystr;
  metadata : Metadata;
  analysis : Analysis;
  equipment : Equipment
}.

(** [d.get(k)] on an association list. *)
Fixpoint get {V : Type} (k : pystr) (d : list (pystr * V)) : option V :=
  match d with
  | [] => None
  | (k', v) :: d' => if eqb k k' then Some v else get k d'
  end.

(** [==] on two values that are a [str] or [None]. *)
Definition opt_str_eqb (a b : option pystr) : bool :=
  match a, b with
  | None, None => true
  | Some x, Some y => eqb x y
  | _, _ => false
  end.

(** [d.get('venue_capacity', 0)] *)
Definition capacity (m : Metadata) : Z :=
  match venue_capacity m with Some c => c | None => 0%Z end.

(** The score computed in the loop of [find_similar]. *)
Definition score (current_metadata : Metadata) (entry : Entry) : Z :=
  let s0 := 0%Z in
  let s1 :=
    if (Z.abs (capacity current_metadata - capacity (metadata entry)) <? 50)%Z
    then (s0 + 30)%Z else s0 in
  let s2 :=
    if opt_str_eqb (mixer current_metadata) (e_mixer (equipment entry))
    then (s1 + 40)%Z else s1 in
  let s3 :=
    if opt_str_eqb (pa_system current_metadata) (e_pa_system (equipment entry))
    then (s2 + 30)%Z else s2 in
  s3.

(** [similar.sort(key=lambda x: x['score'], reverse=True)] compares the
    [score] of the pairs. *)
Definition score_geb (x y : Entry * Z) : bool := (snd y <=? snd x)%Z.

Definition find_similar (history : list Entry) (current_metadata : Metadata)
  (limit : nat) : list Entry :=
  let similar := map (fun entry => (entry, score current_metadata entry)) history in
  let similar := PySort.sort score_geb similar in
  map fst (filter (fun s => (20 <? snd s)%Z) (firstn limit similar)).

(** The store: the file [audio_history.json], when it exists, and the list
    [self.history].  The text codec of the [json] module is an input. *)
Section Store.
Variable file_text : Type.
Variable json_dump : list Entry -> file_text.
Variable json_load : file_text -> option (list Entry).

Record DB := mkDB {
  db_file : option file_text;
  history : list Entry
}.

(** [load]: an unreadable file leaves an empty history. *)
Definition load (db : DB) : DB :=
  match db_file db with
  | Some t =>
      match json_load t with
      | Some h => mkDB (db_file db) h
      | None => mkDB (db_file db) []
      end
  | None => db
  end.

(** [__init__] on the current content of the disk. *)
Definition init (disk : option file_text) : DB := load (mkDB disk []).

Definition save (db : DB) : DB :=
  mkDB (Some (json_dump (history db))) (history db).

(** [add_entry]; [now_id] and [now_iso] are the two readings of the clock. *)
Definition add_entry (db : DB) (analysis_result : V2Results)
  (md : Metadata) (now_id now_iso : pystr) : DB * pystr :=
  let entry :=
    mkEntry now_id now_iso md
      (mkAnalysis (r_rms_db analysis_result)
                  (r_peak_db analysis_result)
                  (r_stereo_width analysis_result)
                  (r_crest_factor analysis_result)
                  (r_band_energies analysis_result)
                  [])
      (mkEquipment (mixer md) (pa_system md)) in
  (save (mkDB (db_file db) (history db ++ [entry])), id entry).

End Store.

End AudioDatabase.

(** ** The round trip through the history store, as the specification
    words it *)

Module HistorySpec.
Import PyStr AudioDatabase.

(** The floating tolerance of the specification. *)
Definition tolerance : Q := 1 # 1000000.

(** Two stored values agree within the tolerance. *)
Definition close (a b : value) : Prop :=
  match a, b with
  | VNum x, VNum y => Qabs (x - y) <= tolerance
  | VSeq l1, VSeq l2 => Forall2 (fun x y => Qabs (x - y) <= tolerance) l1 l2
  | _, _ => False
  end.

(** The key [k] of the results is reproduced by the reloaded entry. *)
Definition reproduced (r : V2Results) (e : Entry) (k : pystr) : Prop :=
  forall v, get k (results_items r) = Some v ->
  exists v', get k (analysis_items (analysis e)) = Some v' /\ close v v'.

(** The keys that the literal of [add_entry] copies. *)
Definition persisted_keys : list pystr :=
  [ u "rms_db"; u "peak_db"; u "stereo_width"; u "crest_factor";
    u "band_energies" ].

(** The reopened store after one [add_entry]: a new [AudioDatabase] on the
    file that [add_entry] wrote. *)
Definition reopen_after_add (file_text : Type)
  (json_dump : list Entry -> file_text)
  (json_load : file_text -> option (list Entry))
  (db : DB file_text) (r : V2Results) (md : Metadata) (now_id now_iso : pystr)
  : DB file_text :=
  init json_load (db_file (fst (add_entry json_dump db r md now_id now_iso))).

End HistorySpec.

(** ** ComparisonAnalyzer *)

Module ComparisonAnalyzer.
Import PyStr.
Import AudioDatabase.

Inductive match_type := exact_match | similar | different.

(** The score accumulated by [_get_match_type] before it classifies. *)
Definition match_score (current_metadata past_metadata : Metadata)
  (past_equipment : Equipment) : Z :=
  let s0 := 0%Z in
  let current_capacity := capacity current_metadata in
  let past_capacity := capacity past_metadata in
  let s1 :=
    if (Z.abs (current_capacity - past_capacity) <? 50)%Z
    then (s0 + 30)%Z else s0 in
  let s2 :=
    if opt_str_eqb (mixer current_metadata) (e_mixer past_equipment)
    then (s1 + 40)%Z else s1 in
  let s3 :=
    if opt_str_eqb (pa_system current_metadata) (e_pa_system past_equipment)
    then (s2 + 30)%Z else s2 in
  s3.

Definition classify (score : Z) : match_type :=
  if (80 <=? score)%Z then exact_match
  else if (50 <=? score)%Z then similar
  else different.

Definition _get_match_type (current_metadata past_metadata : Metadata)
  (past_equipment : Equipment) : match_type :=
  classify (match_score current_metadata past_metadata past_equipment).

End ComparisonAnalyzer.

(** ** Comparisons on rationals *)

Module PyNum.

(** [x < y] *)
Definition Qltb (x y : Q) : bool := negb (Qle_bool y x).

End PyNum.

(** ** V2Analyzer: frequency balance *)

Module V2Analyzer.
Import PyStr.
Import PyNum.

Definition bands : list (Q * Q * pystr) :=
  [ (20, 80, u "Sub Bass");
    (80, 250, u "Bass");
    (250, 500, u "Low-Mid");
    (500, 2000, u "Mid");
    (2000, 4000, u "High-Mid");
    (4000, 8000, u "Presence");
    (8000, 16000, u "Brilliance") ]%Q.

(** [(freqs >= low_freq) & (freqs < high_freq)] *)
Definition band_mask (low_freq high_freq : Q) (freqs : list Q) : list bool :=
  map (fun f => Qle_bool low_freq f && Qltb f high_freq) freqs.

(** [np.any(mask)] *)
Definition np_any (mask : list bool) : bool := existsb (fun b => b) mask.

(** [a[mask]] for a boolean mask as long as [a]. *)
Fixpoint select (a : list Q) (mask : list bool) : list Q :=
  match a, mask with
  | x :: a', b :: mask' => if b then x :: select a' mask' else select a' mask'
  | _, _ => []
  end.

Definition Qsum (l : list Q) : Q := fold_right Qplus 0%Q l.

(** [np.mean] *)
Definition np_mean (l : list Q) : Q :=
  (Qsum l / inject_Z (Z.of_nat (List.length l)))%Q.

(** The body of the loop of [_analyze_frequency] for one band. *)
Definition band_energy (avg_spectrum freqs : list Q) (band : Q * Q * pystr) : Q :=
  let '(low_freq, high_freq, _) := band in
  let mask := band_mask low_freq high_freq freqs in
  if np_any mask then np_mean (select avg_spectrum mask) else (-100)%Q.

(** [self.results['band_energies']] from the time-averaged spectrum in dB and
    the bin frequencies, both of length [1 + n_fft/2]. *)
Definition band_energies (avg_spectrum freqs : list Q) : list Q :=
  map (band_energy avg_spectrum freqs) bands.

(** The reading of the specification: the bins that fall inside the band,
    their mean, and -100 for a band without bins. *)
Definition spec_bins_in_band (avg_spectrum freqs : list Q) (low high : Q)
  : list Q :=
  map snd
    (filter (fun p => Qle_bool low (fst p) && Qltb (fst p) high)
            (combine freqs avg_spectrum)).

Definition spec_band_value (avg_spectrum freqs : list Q) (low high : Q) : Q :=
  match spec_bins_in_band avg_spectrum freqs low high with
  | [] => (-100)%Q
  | bins => np_mean bins
  end.

End V2Analyzer.

(** ** Dynamic range, over the reals *)

Module Dynamics.

Local Open Scope R_scope.

Definition Rleb (x y : R) : bool := if Rle_dec x y then true else false.

Definition log10 (x : R) : R := ln x / ln 10.

(** [20 * np.log10(rms_frames + 1e-10)] *)
Definition frames_db (rms_frames : list R) : list R :=
  map (fun x => 20 * log10 (x + / 10 ^ 10)) rms_frames.

(** [np.percentile(a, q)] for a whole percentage [q <= 100] and a non-empty
    [a], with the default linear interpolation: position [q/100 * (n-1)] in
    the sorted data. *)
Definition percentile (a : list R) (q : nat) : R :=
  let sorted := PySort.sort Rleb a in
  let n := List.length sorted in
  let num := (q * (n - 1))%nat in
  let lo := (num / 100)%nat in
  let hi := Nat.min (lo + 1) (n - 1) in
  let frac := INR (num mod 100) / 100 in
  nth lo sorted 0 + frac * (nth hi sorted 0 - nth lo sorted 0).

(** [V2Analyzer._analyze_dynamics]: the percentiles of the frames in dB. *)
Definition mix_dynamic_range (rms_frames : list R) : R :=
  let rms_db_frames := frames_db rms_frames in
  percentile rms_db_frames 95 - percentile rms_db_frames 5.

(** [InstrumentAnalyzer.analyze_instrument]: the percentiles of the frames
    as [librosa.feature.rms] returns them. *)
Definition stem_dynamic_range (rms_frames : list R) : R :=
  percentile rms_frames 95 - percentile rms_frames 5.

End Dynamics.

(** ** InstrumentAnalyzer *)

Module InstrumentAnalyzer.
Import PyStr.
Import PyNum.

(** *** Exceptions and calls *)

Inductive exn := TypeError | AttributeError | KeyError.

Inductive result (A : Type) :=
| Ok (a : A)
| Raise (e : exn).

Arguments Ok {A} a.
Arguments Raise {A} e.

Definition bind {A B : Type} (r : result A) (k : A -> result B) : result B :=
  match r with
  | Ok a => k a
  | Raise e => Raise e
  end.

Notation "x <- r ;; k" := (bind r (fun x => k))
  (at level 61, r at next level, right associativity).

(** A method call [self.f(a1, ..., an)]: the positional arguments are bound
    to the parameters that [def f(self, p1, ..., pm)] lists after [self];
    when the numbers differ Python raises [TypeError] and the body does not
    run. *)
Definition call {A : Type} (params args : list string) (body : result A)
  : result A :=
  if Nat.eqb (List.length args) (List.length params) then body
  else Raise TypeError.

(** [d[k]] *)
Definition getitem (k : pystr) (d : list (pystr * Q)) : result Q :=
  match AudioDatabase.get k d with
  | Some v => Ok v
  | None => Raise KeyError
  end.

(** [d.get(k, default)] *)
Definition get_default (k : pystr) (default : Q) (d : list (pystr * Q)) : Q :=
  match AudioDatabase.get k d with
  | Some v => v
  | None => default
  end.

(** [d[k] = v] on a dict in insertion order. *)
Fixpoint setitem {V : Type} (k : pystr) (v : V) (d : list (pystr * V))
  : list (pystr * V) :=
  match d with
  | [] => [(k, v)]
  | (k', v') :: d' =>
      if eqb k k' then (k', v) :: d' else (k', v') :: setitem k v d'
  end.

(** *** Data *)

Inductive severity := critical | important | optional.

Inductive trend_status := improving | degrading | stable.

(** A console profile of [EquipmentSpecsSearcher]; the default profile has
    neither capability key. *)
Record MixerSpecs := mkMixerSpecs {
  m_name : pystr;
  has_de_esser : option bool;
  has_dynamic_eq : option bool
}.

(** A loudspeaker profile; [kick_hpf] is
    [recommendations.get('kick_hpf', '')]. *)
Record PASpecs := mkPASpecs {
  pa_name : pystr;
  low_extension : option Z;
  eq_compensation : list pystr;
  kick_hpf : pystr
}.

(** Truth value of [specs.get(key)]. *)
Definition truthy (o : option bool) : bool :=
  match o with
  | Some true => true
  | _ => false
  end.

(** What numpy and librosa measure on one stem: [len(audio)], the levels in
    dB (with their floor at -100), the percentile difference of the frame
    RMS, the mean onset strength, the two energy ratios, and
    [20 * log10(mean(spectrum[mask]) + 1e-10)] for the mask of the bins in
    [low, high). *)
Record Stem := mkStem {
  samples : nat;
  stem_rms_db : Q;
  stem_peak_db : Q;
  stem_dynamic_range : Q;
  stem_onset_strength : Q;
  stem_harmonic_ratio : Q;
  stem_percussive_ratio : Q;
  band_db : Z -> Z -> Q
}.

Record Trend := mkTrend {
  rms_change : Q;
  status : trend_status;
  clarity_change : option Q
}.

(** An entry of the vocal problem list.  The [detail] and
    [scientific_basis] texts, which are only displayed, are left out. *)
Record Problem := mkProblem {
  p_severity : severity;
  category : pystr;
  problem : pystr;
  score : Q
}.

(** The two shapes of the dicts in an [issues] list. *)
Inductive Issue :=
| VocalProblem (p : Problem)
| PlainIssue (s : severity) (what : pystr).

Record Approach := mkApproach {
  method : pystr;
  steps : list pystr
}.

(** A recommendation: the vocal ones carry [approaches], the others
    [steps]; a key that the dict does not have is empty here.  The
    [pros], [cons], [difficulty] and [expected_results] texts are left
    out. *)
Record Recommendation := mkRec {
  priority : severity;
  title : pystr;
  approaches : list Approach;
  rec_steps : list pystr;
  mixer_specific : option (pystr * list pystr);
  trend_note : option pystr
}.

(** The dict a per-instrument method returns.  A good point is kept by its
    text without the formatted level. *)
Record Detail := mkDetail {
  d_freq_bands : list (pystr * Q);
  d_good_points : list pystr;
  d_issues : list Issue;
  d_recommendations : list Recommendation
}.

(** The dict [analysis] of [analyze_instrument]; [freq_bands] exists only
    after [analysis.update(detail)]. *)
Record Analysis := mkAnalysis {
  name : pystr;
  rms_db : Q;
  peak_db : Q;
  crest_factor : Q;
  dynamic_range : Q;
  onset_strength : Q;
  harmonic_ratio : Q;
  percussive_ratio : Q;
  level_vs_mix : Q;
  trend : option Trend;
  freq_bands : option (list (pystr * Q));
  good_points : list pystr;
  issues : list Issue;
  recommendations : list Recommendation
}.

Definition set_trend (a : Analysis) (t : option Trend) : Analysis :=
  mkAnalysis (name a) (rms_db a) (peak_db a) (crest_factor a)
    (dynamic_range a) (onset_strength a) (harmonic_ratio a)
    (percussive_ratio a) (level_vs_mix a) t (freq_bands a)
    (good_points a) (issues a) (recommendations a).

(** [analysis.update(detail)] *)
Definition update (a : Analysis) (d : Detail) : Analysis :=
  mkAnalysis (name a) (rms_db a) (peak_db a) (crest_factor a)
    (dynamic_range a) (onset_strength a) (harmonic_ratio a)
    (percussive_ratio a) (level_vs_mix a) (trend a)
    (Some (d_freq_bands d)) (d_good_points d) (d_issues d)
    (d_recommendations d).

(** [analysis['recommendations'].append(r)] *)
Definition append_recommendation (a : Analysis) (r : Recommendation)
  : Analysis :=
  mkAnalysis (name a) (rms_db a) (peak_db a) (crest_factor a)
    (dynamic_range a) (onset_strength a) (harmonic_ratio a)
    (percussive_ratio a) (level_vs_mix a) (trend a) (freq_bands a)
    (good_points a) (issues a) (recommendations a ++ [r]).

(** The fields of [self]. *)
Record Engine := mkEngine {
  stems : list (pystr * Stem);
  overall_rms : Q;
  mixer_specs : option MixerSpecs;
  pa_specs : option PASpecs;
  past_analyses : list AudioDatabase.Entry
}.

(** *** Trend *)

(** [_find_past_analysis]: the first stored diagnosis of the instrument (a
    stored diagnosis is a non-empty dict). *)
Fixpoint _find_past_analysis (past : list AudioDatabase.Entry)
  (instrument_name : pystr) : option AudioDatabase.PastDiagnosis :=
  match past with
  | [] => None
  | e :: past' =>
      match AudioDatabase.get instrument_name
              (AudioDatabase.instruments (AudioDatabase.analysis e)) with
      | Some p => Some p
      | None => _find_past_analysis past' instrument_name
      end
  end.

Definition _calculate_trend (current : Analysis)
  (past : AudioDatabase.PastDiagnosis) : Trend :=
  let rms_change :=
    (rms_db current -
     match AudioDatabase.p_rms_db past with
     | Some r => r
     | None => rms_db current
     end)%Q in
  let status :=
    if Qltb 2 (Qabs rms_change)
    then (if Qltb 0 rms_change then improving else degrading)
    else stable in
  let clarity_change :=
    match AudioDatabase.p_freq_bands past, freq_bands current with
    | Some past_bands, Some current_bands =>
        Some (get_default (u "clarity") 0 current_bands -
              get_default (u "clarity") 0 past_bands)%Q
    | _, _ => None
    end in
  mkTrend rms_change status clarity_change.

(** [_get_trend_note] *)
Definition _get_trend_note (trend : option Trend) : option pystr :=
  match trend with
  | None => None
  | Some t =>
      match status t with
      | improving => Some (u "📈 前回から改善傾向 - 現在の方向性を維持推奨")
      | degrading => Some (u "📉 前回から悪化 - 早急な対応推奨")
      | stable => None
      end
  end.

(** *** Vocal: problems *)

Definition cat_balance : pystr := u "周波数バランス".
Definition cat_dynamics : pystr := u "ダイナミクス".
Definition cat_level : pystr := u "音量バランス".

Definition problem_clarity : pystr := u "明瞭度が低い".
Definition problem_boxiness : pystr := u "こもりが強い".
Definition problem_sibilance : pystr := u "歯擦音が過多（s/sh/ch音が刺さる）".
Definition problem_overcompressed : pystr := u "ボーカルが過圧縮".
Definition problem_too_dynamic : pystr := u "ボーカルのダイナミクスが広すぎ".
Definition problem_buried : pystr := u "ボーカルが埋もれている".
Definition problem_too_loud : pystr := u "ボーカルが大きすぎ".

(** The five rules of [_detect_vocal_problems], in the order they append. *)
Definition discover_vocal_problems (clarity body sibilance crest level : Q)
  : list Problem :=
  (if Qltb clarity (-30)
   then [mkProblem (if Qltb clarity (-35) then critical else important)
                   cat_balance problem_clarity (Qabs (clarity + 25))]
   else [])
  ++
  (if Qltb (clarity + 8) body
   then [mkProblem important cat_balance problem_boxiness (body - clarity)]
   else [])
  ++
  (if Qltb (clarity + 5) sibilance
   then [mkProblem important cat_balance problem_sibilance
                   (sibilance - clarity)]
   else [])
  ++
  (if Qltb crest 6
   then [mkProblem critical cat_dynamics problem_overcompressed
                   (Qabs (crest - 9))]
   else if Qltb 15 crest
   then [mkProblem important cat_dynamics problem_too_dynamic (crest - 12)]
   else [])
  ++
  (if Qltb level (-8)
   then [mkProblem important cat_level problem_buried (Qabs (level + 4))]
   else if Qltb (-1) level
   then [mkProblem important cat_level problem_too_loud (Qabs (level + 4))]
   else []).

(** [key=lambda x: x.get('score', 0), reverse=True] *)
Definition score_before (x y : Problem) : bool := Qle_bool (score y) (score x).

Definition _detect_vocal_problems (freq_bands : list (pystr * Q))
  (base_analysis : Analysis) (venue_capacity : Z) (stage_volume : pystr)
  : result (list Problem) :=
  clarity <- getitem (u "clarity") freq_bands ;;
  body <- getitem (u "body") freq_bands ;;
  sibilance <- getitem (u "sibilance") freq_bands ;;
  presence <- getitem (u "presence") freq_bands ;;
  Ok (PySort.sort score_before
        (discover_vocal_problems clarity body sibilance
           (crest_factor base_analysis) (level_vs_mix base_analysis))).

(** [_detect_vocal_strengths] *)
Definition _detect_vocal_strengths (freq_bands : list (pystr * Q))
  (base_analysis : Analysis) : list pystr :=
  let clarity := get_default (u "clarity") (-40) freq_bands in
  let air := get_default (u "air") (-45) freq_bands in
  let crest := crest_factor base_analysis in
  (if Qltb (-25) clarity then [u "明瞭度が優秀"]
   else if Qltb (-28) clarity then [u "明瞭度が良好"]
   else [])
  ++ (if Qltb (-30) air then [u "空気感が豊か"] else [])
  ++ (if Qle_bool 8 crest && Qle_bool crest 12
      then [u "ダイナミクスが理想的"] else []).

(** *** Vocal: settings texts *)

Definition _get_vocal_clarity_eq_basic (venue_capacity : Z)
  (stage_volume : pystr) : list pystr :=
  let is_small := (venue_capacity <? 200)%Z in
  let has_stage := mem stage_volume [u "high"; u "medium"] in
  if is_small && has_stage
  then [ u "⚠️ 小会場+生音大 → フィードバック注意";
      blank;
      u "PEQ Band 1: 3.2kHz, Q=3.0, +2.5dB（ナロー・慎重に）";
      u "PEQ Band 2: 5kHz, Q=2.0, +1.5dB";
      blank;
      u "段階的に上げる（+0.5dBずつ）" ]
  else [ u "PEQ Band 1: 2.5kHz, Q=1.5, +3.0dB（明瞭度中心）";
      u "PEQ Band 2: 5kHz, Q=2.0, +2.0dB（プレゼンス）";
      u "PEQ Band 3: 8kHz, Shelving, +1.5dB（空気感）" ].

Definition _get_vocal_clarity_eq_comp (self : Engine) (venue_capacity : Z)
  (stage_volume : pystr) : list pystr :=
  let steps := [ u "【ステップ1: HPF】";
      u "HPF: 80Hz, 18dB/oct";
      blank;
      u "【ステップ2: 整理EQ】";
      u "PEQ: 250Hz, Q=2.5, -2.0dB（こもり予防）";
      blank;
      u "【ステップ3: Compressor】" ] in
  let steps :=
    match mixer_specs self with
    | Some specs =>
        if contains (u "CL") (m_name specs)
        then steps ++ [ u "Type: Comp260（VCA・透明）";
      u "Threshold: -18dB";
      u "Ratio: 4:1";
      u "Attack: 10ms";
      u "Release: Auto";
      u "Make-up: +3dB" ]
        else steps ++ [ u "Threshold: -18dB";
      u "Ratio: 4:1";
      u "Attack: 10-15ms";
      u "Release: 100-150ms";
      u "Make-up: +3dB" ]
    | None => steps
    end in
  steps ++ [ blank;
      u "【ステップ4: 明瞭度EQ】";
      u "PEQ: 3kHz, Q=1.5, +3.0dB";
      u "PEQ: 5kHz, Q=2.0, +2.0dB";
      blank;
      u "順番重要: HPF → 整理EQ → Comp → 明瞭度EQ" ].

Definition _get_vocal_clarity_dynamic_eq : list pystr :=
  [ u "【Dynamic EQ - 周波数依存ダイナミクス処理】";
      blank;
      u "Band 1: 250Hz（こもり除去）";
      u "- Threshold: -20dB";
      u "- Gain: -3dB";
      u "- Q: 2.0";
      u "- Attack: 30ms";
      u "→ 大きい音のみカット";
      blank;
      u "Band 2: 3kHz（明瞭度向上）";
      u "- Threshold: -25dB";
      u "- Gain: +4dB";
      u "- Q: 1.5";
      u "- Attack: 10ms";
      u "→ 明瞭度を動的にブースト";
      blank;
      u "💡 利点: 静かな部分は自然、大きい部分で効果発揮" ].

Definition _get_vocal_pa_adjustment (specs : PASpecs) : list pystr :=
  let steps := [ u "【" ++ pa_name specs ++ u " システム調整】"; blank ] in
  let steps :=
    match eq_compensation specs with
    | [] => steps
    | comps =>
        steps ++ [u "推奨システムEQ:"]
              ++ map (fun comp => u "- " ++ comp) comps ++ [blank]
    end in
  steps ++ [ u "💡 システムチューニング:";
      u "1. Smaart等でRTA測定";
      u "2. 2-4kHz帯域確認";
      u "3. システムEQで補正";
      blank;
      u "利点: 全チャンネルに効果、ソース非破壊" ].

Definition _get_deesser_settings_detailed : list pystr :=
  [ u "【De-Esser設定】";
      blank;
      u "Frequency: 6.5kHz（または6-7.5kHzで聴いて調整）";
      u "Threshold: 歯擦音が出るレベルより-3dB";
      u "Range/Gain: -3〜-6dB";
      u "Attack: 1ms（速く）";
      u "Release: 50ms";
      blank;
      u "💡 調整方法:";
      u "1. Frequencyソロで聴く";
      u "2. 歯擦音がピークの周波数を特定";
      u "3. Thresholdを歯擦音が光るまで下げる";
      u "4. Rangeで削減量調整";
      blank;
      u "⚠️ やりすぎると「しゅ」が「う」に聴こえる" ].

Definition _get_vocal_compressor_settings (specs : option MixerSpecs)
  : list pystr :=
  if match specs with
     | Some s => contains (u "CL") (m_name s)
     | None => false
     end
  then [ u "【Yamaha CL - Comp260推奨】";
      blank;
      u "Type: Comp260（VCA・透明度最高）";
      u "Threshold: -18dB";
      u "Ratio: 4:1";
      u "Attack: 10ms";
      u "- 速すぎる(<5ms): アタック潰れる";
      u "- 遅すぎる(>20ms): ピーク通過";
      u "Release: Auto（楽曲テンポ追従）";
      u "Knee: Soft（自然）";
      u "Make-up Gain: +3〜+4dB";
      blank;
      u "目標ゲインリダクション: 4-6dB";
      u "目標Crest Factor: 8-10dB" ]
  else [ u "【汎用コンプレッサー設定】";
      blank;
      u "Threshold: -18dB";
      u "Ratio: 3:1〜4:1";
      u "Attack: 10-15ms";
      u "Release: 100-150ms（または Auto）";
      u "Knee: Soft";
      u "Make-up Gain: +3dB";
      blank;
      u "調整方法:";
      u "1. Bypassと比較";
      u "2. GR 4-6dB目安";
      u "3. 音量安定、表現力維持を確認" ].

(** *** Vocal: recommendations *)

Definition title_clarity : pystr := u "🎤 ボーカル明瞭度向上".
Definition title_boxiness : pystr := u "🧹 こもり除去".
Definition title_sibilance : pystr := u "✂️ 歯擦音コントロール".
Definition title_dynamics : pystr := u "📊 ダイナミクス最適化".

Definition method_de_esser : pystr := u "De-Esser（推奨）".
Definition method_manual_eq : pystr := u "マニュアルEQカット".
Definition method_microphone : pystr := u "マイク技術的対策".

Definition clarity_approaches (self : Engine) (venue_capacity : Z)
  (stage_volume : pystr) : list Approach :=
  [ mkApproach (u "EQ処理（基本）")
      (_get_vocal_clarity_eq_basic venue_capacity stage_volume);
    mkApproach (u "EQ + Compressor（推奨）")
      (_get_vocal_clarity_eq_comp self venue_capacity stage_volume) ]
  ++ (match mixer_specs self with
      | Some specs =>
          if truthy (has_dynamic_eq specs)
          then [mkApproach (u "Dynamic EQ（上級）")
                  _get_vocal_clarity_dynamic_eq]
          else []
      | None => []
      end)
  ++ (match pa_specs self with
      | Some specs =>
          [mkApproach (u "PAシステム調整") (_get_vocal_pa_adjustment specs)]
      | None => []
      end).

Definition boxiness_approaches : list Approach :=
  [ mkApproach (u "ターゲットEQカット") [ u "PEQ: 400Hz, Q=1.0, -2.5dB（広めにカット）";
      u "または";
      u "PEQ: 600Hz, Q=2.0, -3.0dB（ピンポイント）";
      blank;
      u "💡 両方試して耳で判断" ];
    mkApproach (u "HPF + 中域シェイピング") [ u "HPF: 100Hz, 12dB/oct（低域整理）";
      u "PEQ: 250Hz, Q=1.5, -2.0dB（泥除去）";
      u "PEQ: 800Hz, Q=2.5, -2.5dB（こもり除去）";
      u "PEQ: 3kHz, Q=1.5, +2.0dB（明瞭度補償）" ] ].

Definition sibilance_approaches (self : Engine) : list Approach :=
  (match mixer_specs self with
   | Some specs =>
       if truthy (has_de_esser specs)
       then [mkApproach method_de_esser _get_deesser_settings_detailed]
       else []
   | None => []
   end)
  ++ [ mkApproach method_manual_eq [ u "PEQ: 6kHz, Q=3.0, -2.0dB";
      u "または";
      u "PEQ: 7kHz, Q=2.5, -2.5dB";
      blank;
      u "⚠️ -3dB超えると暗くなる注意" ];
       mkApproach method_microphone [ u "💡 マイク選択:";
      u "- SM58系: 歯擦音控えめ";
      u "- コンデンサー: 歯擦音強調";
      blank;
      u "💡 マイク距離:";
      u "- 近接: 低域↑ 歯擦音↓";
      u "- 遠距離: 低域↓ 歯擦音↑";
      blank;
      u "💡 角度調整:";
      u "- 正面: 歯擦音強";
      u "- やや下向き: 歯擦音弱" ] ].

Definition dynamics_approaches (self : Engine)
  (freq_bands : list (pystr * Q)) : list Approach :=
  let crest := get_default (u "crest_factor") 10 freq_bands in
  if Qltb crest 6
  then [mkApproach (u "コンプレッサー緩和") [ u "現在のCompressor設定確認:";
      u "- Threshold: 上げる（-15dB → -10dB）";
      u "- Ratio: 下げる（6:1 → 3:1）";
      u "- Attack: 遅く（5ms → 15ms）";
      blank;
      u "目標: Crest Factor 8-12dB" ]]
  else [mkApproach (u "コンプレッサー適切設定")
          (_get_vocal_compressor_settings (mixer_specs self))].

(** The test that makes the loop [continue] on the trend: it reads
    [clarity_change] of the trend record, for the frequency-balance
    category only. *)
Definition skipped_on_trend (trend : option Trend) (cat : pystr) : bool :=
  match trend with
  | Some t =>
      eqb cat cat_balance &&
      Qltb 2 (match clarity_change t with Some c => c | None => 0 end)
  | None => false
  end.

(** The [if ... elif ...] chain on the problem text and the category: the
    recommendation appended for a problem that is not skipped, if any. *)
Definition recommendation_for (self : Engine) (freq_bands : list (pystr * Q))
  (trend : option Trend) (venue_capacity : Z) (stage_volume : pystr)
  (p : Problem) : option Recommendation :=
  if contains (u "明瞭度") (problem p) then
    Some (mkRec (p_severity p) title_clarity
            (clarity_approaches self venue_capacity stage_volume) [] None
            (_get_trend_note trend))
  else if contains (u "こもり") (problem p) then
    Some (mkRec (p_severity p) title_boxiness boxiness_approaches [] None
            (_get_trend_note trend))
  else if contains (u "歯擦音") (problem p) then
    Some (mkRec (p_severity p) title_sibilance (sibilance_approaches self)
            [] None None)
  else if contains (u "ダイナミクス") (category p) then
    Some (mkRec (p_severity p) title_dynamics
            (dynamics_approaches self freq_bands) [] None None)
  else None.

(** One iteration of [for problem in problems[:3]] on the pair
    ([recommendations], [addressed_categories]). *)
Definition recommend_step (self : Engine) (freq_bands : list (pystr * Q))
  (trend : option Trend) (venue_capacity : Z) (stage_volume : pystr)
  (st : list Recommendation * list pystr) (p : Problem)
  : list Recommendation * list pystr :=
  let '(recommendations, addressed_categories) := st in
  if skipped_on_trend trend (category p) then st
  else if mem (category p) addressed_categories then st
  else
    let addressed_categories := addressed_categories ++ [category p] in
    match recommendation_for self freq_bands trend venue_capacity
            stage_volume p with
    | Some r => (recommendations ++ [r], addressed_categories)
    | None => (recommendations, addressed_categories)
    end.

Definition _generate_vocal_recommendations (self : Engine)
  (problems : list Problem) (freq_bands : list (pystr * Q))
  (trend : option Trend) (venue_capacity : Z) (stage_volume : pystr)
  : list Recommendation :=
  fst (fold_left
         (recommend_step self freq_bands trend venue_capacity stage_volume)
         (firstn 3 problems) ([], [])).

(** *** Vocal *)

Definition vocal_bands : list (pystr * (Z * Z)) :=
  [ (u "fundamental", (150, 400));
    (u "body", (400, 1000));
    (u "clarity", (2000, 4000));
    (u "presence", (4000, 6000));
    (u "sibilance", (6000, 8000));
    (u "air", (8000, 12000)) ]%Z.

(** The loop that fills [detail['freq_bands']]. *)
Definition band_levels (audio : Stem) (bands : list (pystr * (Z * Z)))
  : list (pystr * Q) :=
  map (fun b => (fst b, band_db audio (fst (snd b)) (snd (snd b)))) bands.

Definition sig_analyze_vocal : list string :=
  ["audio"; "spectrum"; "freqs"; "venue_capacity"; "stage_volume";
   "base_analysis"].

Definition _analyze_vocal (self : Engine) (audio : Stem)
  (venue_capacity : Z) (stage_volume : pystr) (base_analysis : Analysis)
  : result Detail :=
  let freq_bands := band_levels audio vocal_bands in
  problems <- _detect_vocal_problems freq_bands base_analysis
                venue_capacity stage_volume ;;
  Ok (mkDetail freq_bands
        (_detect_vocal_strengths freq_bands base_analysis)
        (map VocalProblem problems)
        (_generate_vocal_recommendations self problems freq_bands
           (trend base_analysis) venue_capacity stage_volume)).

(** *** Kick *)

(** [str(n)] for the integers printed into the texts. *)
Definition str_of_nat (n : nat) : pystr :=
  bytes_of (NilEmpty.string_of_uint (Nat.to_uint n)).

Definition _get_kick_hpf_freq (self : Engine) : nat :=
  match pa_specs self with
  | None => 35
  | Some specs =>
      let pa_name := lower (pa_name specs) in
      let low_ext :=
        match low_extension specs with Some e => e | None => 50%Z end in
      if contains (u "d&b") pa_name || (low_ext <=? 45)%Z then 35
      else if contains (u "jbl") pa_name || (low_ext <=? 50)%Z then 30
      else 40
  end%nat.

Definition _get_pa_kick_notes (self : Engine) : list pystr :=
  match pa_specs self with
  | None => [u "  一般的なPAシステムを想定"]
  | Some specs =>
      match kick_hpf specs with
      | [] => [u "  " ++ pa_name specs ++ u "の特性に最適化"]
      | notes => [u "  " ++ notes]
      end
  end.

Definition _get_mixer_hpf_steps (self : Engine) (instrument : pystr)
  (freq : nat) : option (pystr * list pystr) :=
  match mixer_specs self with
  | None => None
  | Some specs =>
      Some (m_name specs,
            [ u "1. " ++ instrument ++ u "チャンネルを選択";
              u "2. [EQ]ボタン";
              u "3. HPF: " ++ str_of_nat freq ++ u "Hz, 24dB/oct";
              u "4. HPF ONを確認" ])
  end.

Definition sig_analyze_kick : list string :=
  ["audio"; "spectrum"; "freqs"; "base_analysis"].

(** The recommendation of the subsonic rule.  Its text reads
    [self.pa_specs.get("name", "PA")], which fails on [None]. *)
Definition kick_hpf_recommendation (self : Engine) : result Recommendation :=
  let hpf_freq := _get_kick_hpf_freq self in
  match pa_specs self with
  | None => Raise AttributeError
  | Some specs =>
      Ok (mkRec critical (u "HPF設定（必須）") []
            ([ u "HPF: " ++ str_of_nat hpf_freq ++ u "Hz, 24dB/oct";
               blank;
               u "【効果】";
               u "  - ヘッドルーム +2〜3dB確保";
               u "  - PAシステムの保護";
               u "  - タイトな低域";
               blank;
               u "【" ++ pa_name specs ++ u "考慮】" ]
             ++ _get_pa_kick_notes self)
            (_get_mixer_hpf_steps self (u "kick") hpf_freq)
            None)
  end.

Definition _analyze_kick (self : Engine) (audio : Stem)
  (base_analysis : Analysis) : result Detail :=
  let subsonic := band_db audio 20 40 in
  let fundamental := band_db audio 40 80 in
  let attack := band_db audio 60 100 in
  let body := band_db audio 100 200 in
  let boxiness := band_db audio 200 400 in
  let click := band_db audio 2000 5000 in
  let freq_bands :=
    [ (u "subsonic", subsonic); (u "fundamental", fundamental);
      (u "attack", attack); (u "body", body); (u "boxiness", boxiness);
      (u "click", click) ] in
  let good_points :=
    (if Qltb (-25) attack then [u "パンチ・アタックが良好"] else [])
    ++ (if Qltb (-40) click then [u "ビーター音が明瞭"] else []) in
  subsonic_part <-
    (if Qltb (-45) subsonic
     then r <- kick_hpf_recommendation self ;;
          Ok ([PlainIssue critical (u "サブソニック成分が多い")], [r])
     else Ok ([], [])) ;;
  let boxiness_part :=
    if Qltb (fundamental + 5) boxiness
    then ([PlainIssue important (u "ボワつきが強い")],
          [mkRec important (u "ボワつき除去") [] [ u "PEQ: 250Hz, Q=3.0, -3.0dB";
      blank;
      u "効果: タイトなキック" ] None None])
    else ([], []) in
  let punch_part :=
    if Qltb attack (fundamental - 5)
    then [mkRec important (u "パンチ強化") [] [ u "PEQ: 70Hz, Q=1.2, +4.0dB（基音強調）";
      u "PEQ: 3kHz, Q=2.0, +2.0dB（ビーター音）";
      blank;
      u "Compressor:";
      u "  Threshold: -15dB, Ratio: 3:1";
      u "  Attack: 20ms（アタック保持）";
      u "  Release: 150ms";
      blank;
      u "Gate（オプション）:";
      u "  Attack: 0.1ms, Release: 150ms" ] None None]
    else [] in
  Ok (mkDetail freq_bands good_points
        (fst subsonic_part ++ fst boxiness_part)
        (snd subsonic_part ++ snd boxiness_part ++ punch_part)).

(** *** Snare, bass, hi-hat, tom, guitars, keys *)

Definition sig_analyze_snare : list string := ["audio"; "spectrum"; "freqs"].

Definition _analyze_snare (self : Engine) (audio : Stem) : result Detail :=
  let body := band_db audio 200 400 in
  let fatness := band_db audio 400 800 in
  let attack := band_db audio 2000 5000 in
  let crack := band_db audio 3000 6000 in
  let snappy := band_db audio 6000 10000 in
  Ok (mkDetail
        [ (u "body", body); (u "fatness", fatness); (u "attack", attack);
          (u "crack", crack); (u "snappy", snappy) ]
        ((if Qltb (-30) crack then [u "クラック音が明瞭"] else [])
         ++ (if Qltb (-35) snappy then [u "スナッピーが鮮明"] else []))
        []
        ((if Qltb attack (-35)
          then [mkRec important (u "スネアのアタック強化") []
                  [ u "PEQ: 3.5kHz, Q=2.0, +3.0dB（クラック強調）";
      u "PEQ: 7kHz, Q=1.5, +2.0dB（スナッピー）";
      blank;
      u "Compressor:";
      u "  Threshold: -12dB, Ratio: 4:1";
      u "  Attack: 5ms（速めでパンチ）";
      u "  Release: 100ms";
      blank;
      u "Gate:";
      u "  Threshold: 調整";
      u "  Attack: 0.1ms, Release: 80ms" ] None None]
          else [])
         ++ (if Qltb body (-40)
             then [mkRec optional (u "ボディ強化") []
                     [ u "PEQ: 250Hz, Q=1.5, +2.5dB";
      blank;
      u "効果: 太いスネアサウンド" ] None None]
             else []))).

Definition sig_analyze_bass : list string := ["audio"; "spectrum"; "freqs"].

Definition _analyze_bass (self : Engine) (audio : Stem) : result Detail :=
  let fundamental := band_db audio 80 200 in
  let harmonic := band_db audio 200 800 in
  let attack := band_db audio 1000 3000 in
  let brightness := band_db audio 3000 6000 in
  Ok (mkDetail
        [ (u "fundamental", fundamental); (u "harmonic", harmonic);
          (u "attack", attack); (u "brightness", brightness) ]
        ((if Qltb (-25) fundamental then [u "基音が豊か"] else [])
         ++ (if Qltb (-40) attack then [u "アタックが明瞭"] else []))
        []
        ((if Qltb harmonic (fundamental - 10)
          then [mkRec important (u "ベースの聴こえやすさ向上") []
                  [ u "PEQ: 400Hz, Q=1.5, +3.0dB（倍音強調）";
      u "PEQ: 2kHz, Q=2.0, +2.0dB（アタック）";
      blank;
      u "効果: 小型スピーカーでも聴こえるベース" ] None None]
          else [])
         ++ (if Qltb (harmonic + 15) fundamental
             then [mkRec important (u "低域の整理") []
                     [ u "PEQ: 120Hz, Q=2.0, -2.5dB（余分な低域カット）";
      blank;
      u "Compressor:";
      u "  Threshold: -15dB, Ratio: 3:1";
      u "  Attack: 30ms（アタック保持）";
      u "  Release: 200ms" ] None None]
             else []))).

Definition sig_analyze_hihat : list string := ["audio"; "spectrum"; "freqs"].

Definition _analyze_hihat (self : Engine) (audio : Stem) : result Detail :=
  let brightness := band_db audio 6000 10000 in
  let air := band_db audio 10000 16000 in
  Ok (mkDetail
        [ (u "brightness", brightness); (u "air", air) ]
        (if Qltb (-30) brightness then [u "明るさが十分"] else [])
        []
        [mkRec optional (u "ハイハットの調整") [] [ u "HPF: 300Hz, 12dB/oct（低域除去）";
      u "PEQ: 8kHz, Q=1.5, +1〜2dB（明るさ調整）";
      blank;
      u "Compressor（軽め）:";
      u "  Threshold: -10dB, Ratio: 2:1" ] None None]).

Definition sig_analyze_tom : list string := ["audio"; "spectrum"; "freqs"].

Definition _analyze_tom (self : Engine) (audio : Stem) : result Detail :=
  Ok (mkDetail [] [] []
        [mkRec optional (u "タムの調整") [] [ u "HPF: 60Hz, 12dB/oct";
      u "PEQ: 150Hz, Q=1.5, +3dB（ボディ）";
      u "PEQ: 2.5kHz, Q=2.0, +2dB（アタック）";
      blank;
      u "Gate:";
      u "  Threshold: 調整";
      u "  Attack: 0.5ms, Release: 200ms" ] None None]).

Definition sig_analyze_guitar : list string :=
  ["name"; "audio"; "spectrum"; "freqs"].

Definition _analyze_guitar (self : Engine) (name : pystr) (audio : Stem)
  : result Detail :=
  let is_electric := eqb name (u "e_guitar") in
  let body := band_db audio 200 800 in
  let presence := band_db audio 2000 5000 in
  let brightness := band_db audio 5000 10000 in
  Ok (mkDetail
        [ (u "body", body); (u "presence", presence);
          (u "brightness", brightness) ]
        (if Qltb (-30) presence then [u "プレゼンスが良好"] else [])
        []
        (if is_electric
         then [mkRec important (u "エレキギターの調整") []
                 [ u "HPF: 80Hz, 12dB/oct";
      u "PEQ: 2.5kHz, Q=2.0, +2〜3dB（ボーカルとの棲み分け）";
      u "  ※ボーカルは3.2kHz強調なので干渉回避";
      blank;
      u "Compressor:";
      u "  Threshold: -12dB, Ratio: 3:1";
      u "  Attack: 15ms, Release: 150ms" ] None None]
         else [mkRec optional (u "アコギの調整") []
                 [ u "HPF: 80Hz, 12dB/oct";
      u "PEQ: 3kHz, Q=1.5, +2dB（明るさ）";
      u "PEQ: 8kHz, Q=2.0, +1.5dB（空気感）" ] None None])).

Definition sig_analyze_keys : list string :=
  ["name"; "audio"; "spectrum"; "freqs"].

Definition _analyze_keys (self : Engine) (name : pystr) (audio : Stem)
  : result Detail :=
  Ok (mkDetail [] [] []
        [mkRec optional (name ++ u "の調整") [] [ u "HPF: 60Hz, 12dB/oct";
      u "PEQ: ボーカル/ギターとの周波数帯域を確認";
      u "  必要に応じてスペースを空ける" ] None None]).

(** *** The per-stem analysis *)

(** The [if name == ... elif ...] chain of [analyze_instrument]; each branch
    lists the arguments of its call. *)
Definition dispatch (self : Engine) (name : pystr) (audio : Stem)
  (venue_capacity : Z) (stage_volume : pystr) (analysis : Analysis)
  : result Analysis :=
  if eqb name (u "vocal") then
    d <- call sig_analyze_vocal
           ["audio"; "spectrum"; "freqs"; "venue_capacity"; "stage_volume";
            "analysis"]
           (_analyze_vocal self audio venue_capacity stage_volume analysis) ;;
    Ok (update analysis d)
  else if eqb name (u "kick") then
    d <- call sig_analyze_kick ["audio"; "spectrum"; "freqs"; "analysis"]
           (_analyze_kick self audio analysis) ;;
    Ok (update analysis d)
  else if eqb name (u "snare") then
    d <- call sig_analyze_snare ["audio"; "spectrum"; "freqs"; "analysis"]
           (_analyze_snare self audio) ;;
    Ok (update analysis d)
  else if eqb name (u "bass") then
    d <- call sig_analyze_bass ["audio"; "spectrum"; "freqs"; "analysis"]
           (_analyze_bass self audio) ;;
    Ok (update analysis d)
  else if eqb name (u "hihat") then
    d <- call sig_analyze_hihat ["audio"; "spectrum"; "freqs"; "analysis"]
           (_analyze_hihat self audio) ;;
    Ok (update analysis d)
  else if eqb name (u "tom") then
    d <- call sig_analyze_tom ["audio"; "spectrum"; "freqs"; "analysis"]
           (_analyze_tom self audio) ;;
    Ok (update analysis d)
  else if mem name [u "e_guitar"; u "a_guitar"] then
    d <- call sig_analyze_guitar
           ["name"; "audio"; "spectrum"; "freqs"; "analysis"]
           (_analyze_guitar self name audio) ;;
    Ok (update analysis d)
  else if mem name [u "keyboard"; u "synth"] then
    d <- call sig_analyze_keys
           ["name"; "audio"; "spectrum"; "freqs"; "analysis"]
           (_analyze_keys self name audio) ;;
    Ok (update analysis d)
  else Ok analysis.

Definition analyze_instrument (self : Engine) (name : pystr) (audio : Stem)
  (venue_capacity : Z) (stage_volume : pystr) : result Analysis :=
  let rms_db := stem_rms_db audio in
  let peak_db := stem_peak_db audio in
  let crest_factor := (peak_db - rms_db)%Q in
  let analysis :=
    mkAnalysis name rms_db peak_db crest_factor (stem_dynamic_range audio)
      (stem_onset_strength audio) (stem_harmonic_ratio audio)
      (stem_percussive_ratio audio) (rms_db - overall_rms self)%Q
      None None [] [] [] in
  let analysis :=
    match _find_past_analysis (past_analyses self) name with
    | Some past_analysis =>
        set_trend analysis (Some (_calculate_trend analysis past_analysis))
    | None => set_trend analysis None
    end in
  dispatch self name audio venue_capacity stage_volume analysis.

(** *** Relationships between instruments *)

Definition fundamental_of (a : Analysis) : Q :=
  match freq_bands a with
  | Some bands => get_default (u "fundamental") (-100) bands
  | None => (-100)%Q
  end.

Definition clarity_of (a : Analysis) : Q :=
  match freq_bands a with
  | Some bands => get_default (u "clarity") (-100) bands
  | None => (-100)%Q
  end.

Definition _analyze_relationships (analyses : list (pystr * Analysis))
  : list (pystr * Analysis) :=
  let analyses :=
    match AudioDatabase.get (u "kick") analyses,
          AudioDatabase.get (u "bass") analyses with
    | Some kick, Some bass =>
        let kick_fund := fundamental_of kick in
        let bass_fund := fundamental_of bass in
        if Qltb (Qabs (kick_fund - bass_fund)) 3
           && Qltb (-100) kick_fund && Qltb (-100) bass_fund
        then setitem (u "kick")
               (append_recommendation kick
                  (mkRec important (u "ベースとの周波数棲み分け") []
                     [ u "【キック側】";
      u "  PEQ: 65Hz, Q=1.2, +4dB（キック強調）";
      u "  PEQ: 90Hz, Q=3.0, -4dB（ベース帯域カット）";
      blank;
      u "【ベース側】";
      u "  PEQ: 90Hz, Q=1.0, +3dB（ベース強調）";
      u "  PEQ: 65Hz, Q=3.0, -4dB（キック帯域カット）";
      blank;
      u "理論: 各楽器に専用周波数を割り当て" ] None None))
               analyses
        else analyses
    | _, _ => analyses
    end in
  match AudioDatabase.get (u "vocal") analyses,
        AudioDatabase.get (u "e_guitar") analyses with
  | Some vocal, Some e_guitar =>
      if Qltb (clarity_of vocal) (-30)
      then setitem (u "e_guitar")
             (append_recommendation e_guitar
                (mkRec important (u "ボーカルスペース確保") []
                   [ u "PEQ: 3.2kHz, Q=2.0, -2.5dB";
      u "  ボーカルの明瞭度帯域を空ける";
      blank;
      u "効果: ボーカルの明瞭度向上" ] None None))
             analyses
      else analyses
  | _, _ => analyses
  end.

(** *** analyze_all *)

(** The loop over [self.stems.items()]: the first exception ends it. *)
Fixpoint analyze_stems (self : Engine) (todo : list (pystr * Stem))
  (venue_capacity : Z) (stage_volume : pystr)
  (analyses : list (pystr * Analysis)) : result (list (pystr * Analysis)) :=
  match todo with
  | [] => Ok analyses
  | (name, audio) :: todo' =>
      if (0 <? samples audio)%nat then
        a <- analyze_instrument self name audio venue_capacity stage_volume ;;
        analyze_stems self todo' venue_capacity stage_volume
          (setitem name a analyses)
      else
        analyze_stems self todo' venue_capacity stage_volume analyses
  end.

Definition analyze_all (self : Engine) (venue_capacity : Z)
  (stage_volume : pystr) : result (list (pystr * Analysis)) :=
  analyses <- analyze_stems self (stems self) venue_capacity stage_volume [] ;;
  Ok (_analyze_relationships analyses).

End InstrumentAnalyzer.

(** ** The trend rule, as the specification words it *)

Module DiagnosisSpec.
Import InstrumentAnalyzer.

(** "For categories with improving trend, generation is skipped": a
    diagnosis whose trend status is improving carries no recommendation. *)
Definition improving_skips_generation (a : Analysis) : Prop :=
  forall t, trend a = Some t -> status t = improving -> recommendations a = [].

End DiagnosisSpec.

(** ** Sample data *)

Module Samples.
Import PyStr AudioDatabase InstrumentAnalyzer.

(** A store whose file holds the document itself. *)
Definition plain_db : DB (list Entry) := mkDB None [].

Definition sample_results : V2Results :=
  mkV2Results 25 (9 # 10) (-3) (-18) 15 12 [-30; -20; -22; -25; -28; -35; -40]
    3 9 2 (1 # 100) (-10).

Definition sample_metadata : Metadata :=
  mkMetadata (Some (u "soundcheck")) (Some (u "hall")) (Some 150%Z)
    (Some (u "medium")) (Some (u "CL5")) (Some (u "d&b")) (Some (u "vo"))
    None.

(** Nine bins, 0 Hz to 10 kHz, and a spectrum in dB over them. *)
Definition sample_freqs : list Q :=
  [0; 50; 100; 300; 1000; 3000; 5000; 9000; 10000].

Definition sample_spectrum : list Q :=
  [-60; -20; -24; -30; -28; -35; -40; -50; -52].

(** A vocal stem with a weak 2-4 kHz band (-36 dB) and nothing else out of
    range: RMS -22 dB, peak -12 dB. *)
Definition weak_vocal : Stem :=
  mkStem 1000 (-22) (-12) (1 # 10) 2 (7 # 10) (3 # 10)
    (fun low high => if (low =? 2000)%Z then -36 else -32).

(** A vocal stem whose 6-8 kHz band (-20 dB) stands 8 dB over the 2-4 kHz
    band (-28 dB). *)
Definition sibilant_vocal : Stem :=
  mkStem 1000 (-22) (-12) (1 # 10) 2 (7 # 10) (3 # 10)
    (fun low high =>
       if (low =? 6000)%Z then -20
       else if (low =? 2000)%Z then -28 else -29).

(** A stem for the drums. *)
Definition drum_hit : Stem :=
  mkStem 1000 (-20) (-6) (2 # 10) 5 (2 # 10) (8 # 10)
    (fun low high => -30).

(** The profile of [_get_known_mixer_specs] for a Behringer X32. *)
Definition x32 : MixerSpecs :=
  mkMixerSpecs (u "Behringer X32") (Some false) (Some false).

Definition d_and_b : PASpecs :=
  mkPASpecs (u "d&b Audiotechnik") (Some 45%Z)
    [ u "2.5kHz Q=2.0 -1.5dB（システムピーク補正）";
      u "100Hz Q=1.0 +1dB（低域補強）" ]
    (u "35Hz推奨（d&bは低域特性良好）").

(** An earlier session whose entry holds a vocal diagnosis 4 dB quieter, with
    a 2-4 kHz band 1 dB lower. *)
Definition earlier_session : Entry :=
  mkEntry (u "20231201_200000") (u "2023-12-01T20:00:00") sample_metadata
    (AudioDatabase.mkAnalysis (-19) (-4) 24 15 [-30; -20; -22; -25; -28; -35; -40]
       [ (u "vocal",
          mkPastDiagnosis (Some (-26)) (Some [(u "clarity", -37)])) ])
    (mkEquipment (Some (u "CL5")) (Some (u "d&b"))).

Definition vocal_session : Engine :=
  mkEngine [(u "vocal", weak_vocal)] (-18) (Some x32) (Some d_and_b)
    [earlier_session].

Definition sibilant_session : Engine :=
  mkEngine [(u "vocal", sibilant_vocal)] (-18) (Some x32) (Some d_and_b) [].

Definition snare_session : Engine :=
  mkEngine [(u "snare", drum_hit)] (-18) (Some x32) (Some d_and_b) [].

(** Two more stored sessions: another console in a hall of 400, and nothing
    in common with [sample_metadata]. *)
Definition other_console_session : Entry :=
  mkEntry (u "20231101_200000") (u "2023-11-01T20:00:00")
    (mkMetadata None (Some (u "arena")) (Some 400%Z) None (Some (u "X32"))
       (Some (u "d&b")) None None)
    (AudioDatabase.mkAnalysis (-17) (-3) 30 14 [] [])
    (mkEquipment (Some (u "X32")) (Some (u "d&b"))).

Definition unrelated_session : Entry :=
  mkEntry (u "20231001_200000") (u "2023-10-01T20:00:00")
    (mkMetadata None (Some (u "club")) (Some 800%Z) None (Some (u "SQ5"))
       (Some (u "JBL")) None None)
    (AudioDatabase.mkAnalysis (-16) (-2) 35 14 [] [])
    (mkEquipment (Some (u "SQ5")) (Some (u "JBL"))).

Definition vocal_kick_session : Engine :=
  mkEngine [(u "vocal", weak_vocal); (u "kick", drum_hit)] (-18) (Some x32)
    (Some d_and_b) [].

End Samples.

(** ** A session that got clearer *)

Module TrendSamples.
Import PyStr AudioDatabase InstrumentAnalyzer.

(** An earlier session whose stored vocal diagnosis was 4 dB quieter
    (-26 dB against -22 dB) with a 2-4 kHz band 9 dB lower (-45 dB against
    -36 dB) than [Samples.weak_vocal]. *)
Definition muffled_session : Entry :=
  mkEntry (u "20231115_200000") (u "2023-11-15T20:00:00")
    Samples.sample_metadata
    (AudioDatabase.mkAnalysis (-19) (-4) 24 15
       [-30; -20; -22; -25; -28; -35; -40]
       [ (u "vocal",
          mkPastDiagnosis (Some (-26)) (Some [(u "clarity", -45)])) ])
    (mkEquipment (Some (u "CL5")) (Some (u "d&b"))).

Definition clearer_vocal_session : Engine :=
  mkEngine [(u "vocal", Samples.weak_vocal)] (-18) (Some Samples.x32)
    (Some Samples.d_and_b) [muffled_session].

End TrendSamples.

(** ** InstrumentSeparator.separate *)

Module Separation.
Import PyStr.

Section Separate.
(** The stem type and the ten filter chains, which are inputs. *)
Variable A : Type.
Variable _extract_vocal _extract_kick _extract_snare _extract_hihat : A.
Variable _extract_tom _extract_bass _extract_e_guitar _extract_a_guitar : A.
Variable _extract_keyboard _extract_synth : A.

(** One iteration of the loop of [separate]. *)
Definition separate_step (stems : list (pystr * A)) (instrument : pystr)
  : list (pystr * A) :=
  if eqb instrument (u "vocal") then
    InstrumentAnalyzer.setitem (u "vocal") _extract_vocal stems
  else if eqb instrument (u "kick") then
    InstrumentAnalyzer.setitem (u "kick") _extract_kick stems
  else if eqb instrument (u "snare") then
    InstrumentAnalyzer.setitem (u "snare") _extract_snare stems
  else if eqb instrument (u "hihat") then
    InstrumentAnalyzer.setitem (u "hihat") _extract_hihat stems
  else if eqb instrument (u "tom") then
    InstrumentAnalyzer.setitem (u "tom") _extract_tom stems
  else if eqb instrument (u "bass") then
    InstrumentAnalyzer.setitem (u "bass") _extract_bass stems
  else if eqb instrument (u "e_guitar") then
    InstrumentAnalyzer.setitem (u "e_guitar") _extract_e_guitar stems
  else if eqb instrument (u "a_guitar") then
    InstrumentAnalyzer.setitem (u "a_guitar") _extract_a_guitar stems
  else if eqb instrument (u "keyboard") then
    InstrumentAnalyzer.setitem (u "keyboard") _extract_keyboard stems
  else if eqb instrument (u "synth") then
    InstrumentAnalyzer.setitem (u "synth") _extract_synth stems
  else stems.

Definition separate (instruments : list pystr) : list (pystr * A) :=
  fold_left separate_step instruments [].

End Separate.

(** The tags whose analysis method takes one parameter less than the
    dispatcher passes. *)
Definition unsupported_tags : list pystr :=
  [ u "snare"; u "bass"; u "hihat"; u "tom"; u "e_guitar"; u "a_guitar";
    u "keyboard"; u "synth" ].

End Separation.

(** ** More sample data *)

Module PipelineSamples.
Import PyStr InstrumentAnalyzer Samples.

(** The stems of the line-up text "ボーカル、スネア", with the sample stems for
    every filter chain. *)
Definition vocal_snare_stems : list (pystr * Stem) :=
  Separation.separate weak_vocal drum_hit drum_hit drum_hit drum_hit drum_hit
    drum_hit drum_hit drum_hit drum_hit
    (InstrumentSeparator._parse_lineup (u "ボーカル、スネア")).

Definition vocal_snare_session : Engine :=
  mkEngine vocal_snare_stems (-18) (Some x32) (Some d_and_b) [].

End PipelineSamples.

(** ** Reading a vocal diagnosis *)

Module VocalReading.
Import PyStr PyNum InstrumentAnalyzer.

(** The problems and the band dict of a vocal stem. *)
Definition vocal_levels (audio : Stem) : list (pystr * Q) :=
  band_levels audio vocal_bands.

Definition vocal_problems (self : Engine) (audio : Stem) : list Problem :=
  PySort.sort score_before
    (discover_vocal_problems (band_db audio 2000 4000)
       (band_db audio 400 1000) (band_db audio 6000 8000)
       (stem_peak_db audio - stem_rms_db audio)
       (stem_rms_db audio - overall_rms self)).

Definition is_dynamics (r : Recommendation) : bool :=
  eqb (title r) title_dynamics.

Definition is_balance (r : Recommendation) : bool :=
  mem (title r) [title_clarity; title_boxiness; title_sibilance].

(** The state of the generation loop holds at most one recommendation for
    the dynamics and one for the frequency balance, each only once its
    category is marked. *)
Definition counted (st : list Recommendation * list pystr) : Prop :=
  (In cat_dynamics (snd st) \/ filter is_dynamics (fst st) = []) /\
  (In cat_balance (snd st) \/ filter is_balance (fst st) = []) /\
  (List.length (filter is_dynamics (fst st)) <= 1)%nat /\
  (List.length (filter is_balance (fst st)) <= 1)%nat /\
  Forall (fun r => is_dynamics r || is_balance r = true) (fst st).

End VocalReading.

(** ** More of AudioDatabase *)

Module HistoryQueries.
Import PyStr AudioDatabase.

(** [a <= b] on strings: the order of the code points, the shorter string
    first when it is a prefix. *)
Fixpoint str_leb (a b : pystr) : bool :=
  match a, b with
  | [], _ => true
  | _ :: _, [] => false
  | x :: a', y :: b' =>
      if (x <? y)%N then true
      else if (y <? x)%N then false
      else str_leb a' b'
  end.

(** [key=lambda x: x['timestamp'], reverse=True] *)
Definition newer_first (x y : Entry) : bool :=
  str_leb (timestamp y) (timestamp x).

(** [get_recent(n)]: [sorted(...)[:n]]. *)
Definition get_recent (history : list Entry) (n : nat) : list Entry :=
  firstn n (PySort.sort newer_first history).

(** The entries that qualify for [find_similar], best score first. *)
Definition ranked_similar (history : list Entry) (current_metadata : Metadata)
  : list Entry :=
  map fst
    (filter (fun s => (20 <? snd s)%Z)
       (PySort.sort score_geb
          (map (fun entry => (entry, score current_metadata entry)) history))).

(** One call of [add_entry] with its arguments. *)
Record AddCall := mkAddCall {
  call_results : V2Results;
  call_metadata : Metadata;
  call_id : pystr;
  call_time : pystr
}.

(** The entry that a call stores. *)
Definition entry_of (c : AddCall) : Entry :=
  mkEntry (call_id c) (call_time c) (call_metadata c)
    (mkAnalysis (r_rms_db (call_results c)) (r_peak_db (call_results c))
       (r_stereo_width (call_results c)) (r_crest_factor (call_results c))
       (r_band_energies (call_results c)) [])
    (mkEquipment (mixer (call_metadata c)) (pa_system (call_metadata c))).

Section Calls.
Variable file_text : Type.
Variable json_dump : list Entry -> file_text.

(** A run of [add_entry] calls on one store. *)
Definition add_all (db : DB file_text) (calls : list AddCall) : DB file_text :=
  fold_left
    (fun d c =>
       fst (add_entry json_dump d (call_results c) (call_metadata c)
              (call_id c) (call_time c)))
    calls db.

End Calls.

End HistoryQueries.

Module HistorySamples.
Import PyStr AudioDatabase HistoryQueries.

Definition first_call : AddCall :=
  mkAddCall Samples.sample_results Samples.sample_metadata
    (u "20240101_120000") (u "2024-01-01T12:00:00").

Definition second_call : AddCall :=
  mkAddCall Samples.sample_results Samples.sample_metadata
    (u "20240102_210000") (u "2024-01-02T21:00:00").

End HistorySamples.

Module StoredSamples.
Import PyStr AudioDatabase HistoryQueries InstrumentAnalyzer.

(** The engine as [main] builds it after two stored sessions: the past
    analyses are the similar sessions of the store. *)
Definition session_after_two_calls : Engine :=
  mkEngine [(u "vocal", Samples.weak_vocal)] (-18) (Some Samples.x32)
    (Some Samples.d_and_b)
    (find_similar
       (history
          (add_all (fun h : list Entry => h) Samples.plain_db
             [HistorySamples.first_call; HistorySamples.second_call]))
       Samples.sample_metadata 5).

End StoredSamples.

(** ** ComparisonAnalyzer: the comparison with the past entries *)

Module Comparison.
Import PyStr AudioDatabase ComparisonAnalyzer PyNum.

(** [not s] for a value that is a [str] or [None]. *)
Definition is_empty (s : option pystr) : bool :=
  match s with
  | None => true
  | Some [] => true
  | Some (_ :: _) => false
  end.

Definition mixer_tiers : list (pystr * Q) :=
  [ (u "cl", 1); (u "ql", 8 # 10); (u "sq", 7 # 10); (u "x32", 5 # 10) ].

(** One round of the loop over [mixer_tiers.items()]: the pair is
    [(current_tier, past_tier)]. *)
Definition tier_step (current_mixer past_mixer : pystr) (tiers : Q * Q)
  (item : pystr * Q) : Q * Q :=
  let '(key, value) := item in
  let current_tier :=
    if contains key (lower current_mixer) then value else fst tiers in
  let past_tier :=
    if contains key (lower past_mixer) then value else snd tiers in
  (current_tier, past_tier).

Definition _get_mixer_correction (current_mixer past_mixer : option pystr)
  : Q :=
  match current_mixer, past_mixer with
  | Some c, Some p =>
      if is_empty current_mixer || is_empty past_mixer then 0
      else if eqb c p then 0
      else
        let tiers :=
          fold_left (tier_step c p) mixer_tiers (5 # 10, 5 # 10) in
        (fst tiers - snd tiers) * 2
  | _, _ => 0
  end.

(** [l[i] = v] for an index in range. *)
Definition assign (i : nat) (v : Q) (l : list Q) : list Q :=
  firstn i l ++ v :: skipn (S i) l.

Definition _get_pa_corrections (current_pa past_pa : option pystr)
  : list Q :=
  let corrections := repeat 0 7 in
  match current_pa, past_pa with
  | Some c, Some p =>
      if is_empty current_pa || is_empty past_pa || eqb c p
      then corrections
      else
        let current_brightness :=
          if contains (u "jbl") (lower c) then 2 else 0 in
        let past_brightness :=
          if contains (u "jbl") (lower p) then 2 else 0 in
        let brightness_diff := current_brightness - past_brightness in
        let corrections :=
          assign 5 (- brightness_diff * (15 # 10)) corrections in
        let corrections := assign 6 (- brightness_diff * 2) corrections in
        corrections
  | _, _ => corrections
  end.

(** [comparison['metrics']] *)
Record RmsMetric := mkRmsMetric {
  current : Q;
  past_raw : Q;
  past_corrected : Q;
  difference : Q;
  correction_applied : Q
}.

Record WidthMetric := mkWidthMetric {
  w_current : Q;
  w_past : Q;
  w_difference : Q
}.

Record FrequencyBalance := mkFrequencyBalance {
  differences : list Q;
  pa_correction_applied : bool
}.

Record Metrics := mkMetrics {
  rms : RmsMetric;
  m_stereo_width : WidthMetric;
  frequency_balance : option FrequencyBalance
}.

(** An insight: its 'type', its 'severity' and what its message prints. *)
Inductive insight_type := improvement | regression | stable | info | change.

Inductive insight_severity := good | warning | note.

Inductive message :=
| level_up (rms_diff : Q)
| level_down (rms_diff : Q)
| level_same (rms_diff : Q)
| level_corrected (rms_diff correction : Q)
| width_changed (width_diff : Q)
| band_changed (band_name : pystr) (diff : Q).

Record Insight := mkInsight {
  i_type : insight_type;
  i_message : message;
  i_severity : insight_severity
}.

(** The comparison dict; the three display texts of the past venue and
    equipment are left out. *)
Record Comparison := mkComparison {
  past_id : pystr;
  past_date : pystr;
  c_match_type : match_type;
  metrics : Metrics;
  insights : list Insight
}.

Definition band_names : list pystr :=
  [ u "Sub Bass"; u "Bass"; u "Low-Mid"; u "Mid"; u "High-Mid";
    u "Presence"; u "Brilliance" ].

(** The loop [for i, diff in enumerate(band_diffs)] from index [i] on;
    [None] is the [IndexError] of [band_names[i]]. *)
Fixpoint band_insights (i : nat) (band_diffs : list Q)
  : option (list Insight) :=
  match band_diffs with
  | [] => Some []
  | diff :: rest =>
      if Qltb 6 (Qabs diff) then
        match nth_error band_names i with
        | Some name =>
            option_map
              (cons (mkInsight change (band_changed name diff) note))
              (band_insights (S i) rest)
        | None => None
        end
      else band_insights (S i) rest
  end.

(** The insights on the level, read from the match type and the 'rms'
    metric. *)
Definition level_insights (t : match_type) (m : RmsMetric) : list Insight :=
  let rms_diff := difference m in
  match t with
  | exact_match =>
      if Qltb 2 rms_diff
      then [mkInsight improvement (level_up rms_diff) good]
      else if Qltb rms_diff (-2)
      then [mkInsight regression (level_down rms_diff) warning]
      else [mkInsight stable (level_same rms_diff) note]
  | _ =>
      let correction := correction_applied m in
      if negb (Qeq_bool correction 0)
      then [mkInsight info (level_corrected rms_diff correction) note]
      else []
  end.

Definition width_insights (m : WidthMetric) : list Insight :=
  let width_diff := w_difference m in
  if Qltb 10 (Qabs width_diff)
  then [mkInsight change (width_changed width_diff) note]
  else [].

Definition _generate_insights (t : match_type) (m : Metrics)
  : option (list Insight) :=
  let insights := level_insights t (rms m) ++ width_insights (m_stereo_width m) in
  match frequency_balance m with
  | Some fb =>
      option_map (app insights) (band_insights 0 (differences fb))
  | None => Some insights
  end.

(** The loop [for i in range(len(current_bands))]; both lists have the same
    length where it runs. *)
Fixpoint band_diffs_from (pa_corrections current_bands past_bands : list Q)
  : list Q :=
  match current_bands, past_bands with
  | cb :: current_bands', pb :: past_bands' =>
      let correction :=
        match pa_corrections with c :: _ => c | [] => 0 end in
      let past_corrected := pb + correction in
      (cb - past_corrected)
        :: band_diffs_from (tl pa_corrections) current_bands' past_bands'
  | _, _ => []
  end.

Definition _compare_with_entry (current : V2Results)
  (current_metadata : Metadata) (past_entry : Entry) : option Comparison :=
  let past_analysis := analysis past_entry in
  let past_metadata := metadata past_entry in
  let past_equipment := equipment past_entry in
  let t := _get_match_type current_metadata past_metadata past_equipment in
  let current_rms := r_rms_db current in
  let past_rms := rms_db past_analysis in
  let rms_correction :=
    _get_mixer_correction (mixer current_metadata)
      (e_mixer past_equipment) in
  let past_rms_corrected := past_rms + rms_correction in
  let rms_diff := current_rms - past_rms_corrected in
  let rms_metric :=
    mkRmsMetric current_rms past_rms past_rms_corrected rms_diff
      rms_correction in
  let current_width := r_stereo_width current in
  let past_width := stereo_width past_analysis in
  let width_diff := current_width - past_width in
  let width_metric := mkWidthMetric current_width past_width width_diff in
  let current_bands := r_band_energies current in
  let past_bands := band_energies past_analysis in
  let balance :=
    if Nat.eqb (List.length current_bands) (List.length past_bands)
       && Nat.ltb 0 (List.length current_bands)
    then
      let pa_corrections :=
        _get_pa_corrections (pa_system current_metadata)
          (e_pa_system past_equipment) in
      Some (mkFrequencyBalance
              (band_diffs_from pa_corrections current_bands past_bands)
              (existsb (fun c => negb (Qeq_bool c 0)) pa_corrections))
    else None in
  let m := mkMetrics rms_metric width_metric balance in
  option_map
    (mkComparison (id past_entry) (timestamp past_entry) t m)
    (_generate_insights t m).

(** [compare_all]: a comparison dict is never empty, so each one is
    appended. *)
Fixpoint compare_all (current : V2Results) (current_metadata : Metadata)
  (past_entries : list Entry) : option (list Comparison) :=
  match past_entries with
  | [] => Some []
  | entry :: rest =>
      match _compare_with_entry current current_metadata entry with
      | Some comp =>
          option_map (cons comp) (compare_all current current_metadata rest)
      | None => None
      end
  end.

End Comparison.

Module ComparisonReading.
Import Comparison.

(** The insights that judge the level: better, worse or the same. *)
Definition is_verdict (i : Insight) : bool :=
  match i_type i with
  | improvement | regression | stable => true
  | info | change => false
  end.

End ComparisonReading.

(** ** V2Analyzer: the advice on the whole mix *)

Module MixAdvice.
Import PyStr PyNum AudioDatabase.
Import InstrumentAnalyzer.

(** What a good point says; the arguments are the values that its text
    prints. *)
Inductive point :=
| correlation_excellent (correlation : Q)
| correlation_fine (correlation : Q)
| crest_ideal (crest_factor : Q)
| crest_fine (crest_factor : Q)
| transients_fine (avg_onset : Q)
| width_fits_small (stereo_width : Q) (venue_capacity : Z)
| width_fits_large (stereo_width : Q) (venue_capacity : Z)
| mid_energy_fine (mid_energy : Q).

(** [impact] is the number of stars. *)
Record GoodPoint := mkGoodPoint {
  g_category : pystr;
  g_point : point;
  g_impact : nat
}.

(** What follows the header of [comp_suggestion]. *)
Inductive compressor := comp260 | vintage_opto | general_settings | header_only.

(** What an item of the recommendations says. *)
Inductive issue :=
| correlation_low (correlation : Q)
| width_too_wide (stereo_width : Q) (venue_capacity : Z)
| width_too_narrow (stereo_width : Q) (venue_capacity : Z)
| level_low (rms_db : Q) (comp_suggestion : compressor)
| subsonic_found (hpf_freq : Z) (hpf_reason : option (pystr * Z))
| sub_bass_excess (sub_bass mid : Q)
| clarity_band_low (high_mid mid : Q)
| over_compressed (crest_factor : Q).

Record Advice := mkAdvice {
  a_category : pystr;
  a_issue : issue;
  a_impact : nat
}.

Record Recommendations := mkRecommendations {
  r_critical : list Advice;
  r_important : list Advice;
  r_optional : list Advice
}.

Definition cat_stereo : pystr := u "ステレオイメージ".
Definition cat_dynamics : pystr := u "ダイナミクス".
Definition cat_transients : pystr := u "トランジェント".
Definition cat_balance : pystr := u "周波数バランス".
Definition cat_loudness : pystr := u "音圧・ラウドネス".
Definition cat_subsonic : pystr := u "サブソニック（HPF）".

(** The text after the header of the compressor advice. *)
Definition comp_suggestion_for (mixer_specs : option MixerSpecs)
  : compressor :=
  match mixer_specs with
  | Some specs =>
      let mixer_name := m_name specs in
      if contains (u "Yamaha CL") mixer_name then comp260
      else if contains (u "X32") mixer_name then vintage_opto
      else header_only
  | None => general_settings
  end.

(** The master high-pass frequency and its reason. *)
Definition master_hpf (pa_specs : option PASpecs)
  : Z * option (pystr * Z) :=
  match pa_specs with
  | Some specs =>
      let pa_name := pa_name specs in
      let low_ext :=
        match low_extension specs with Some e => e | None => 50%Z end in
      if (low_ext <=? 45)%Z then (35%Z, Some (pa_name, low_ext))
      else if (low_ext <=? 50)%Z then (40%Z, Some (pa_name, low_ext))
      else (50%Z, Some (pa_name, low_ext))
  | None => (35%Z, None)
  end.

Definition good_points_of (results : V2Results) (venue_capacity : Z)
  : list GoodPoint :=
  let correlation := r_correlation results in
  let crest_factor := r_crest_factor results in
  let avg_onset := r_avg_onset results in
  let stereo_width := r_stereo_width results in
  let band_energies := r_band_energies results in
  (if Qltb (95 # 100) correlation
   then [mkGoodPoint cat_stereo (correlation_excellent correlation) 5]
   else if Qltb (85 # 100) correlation
   then [mkGoodPoint cat_stereo (correlation_fine correlation) 4]
   else [])
  ++ (if Qle_bool 10 crest_factor && Qle_bool crest_factor 14
      then [mkGoodPoint cat_dynamics (crest_ideal crest_factor) 5]
      else if Qle_bool 8 crest_factor && Qltb crest_factor 10
      then [mkGoodPoint cat_dynamics (crest_fine crest_factor) 4]
      else [])
  ++ (if Qltb 2 avg_onset
      then [mkGoodPoint cat_transients (transients_fine avg_onset) 4]
      else [])
  ++ (if (venue_capacity <? 200)%Z
         && (Qle_bool 15 stereo_width && Qle_bool stereo_width 25)
      then [mkGoodPoint cat_stereo
              (width_fits_small stereo_width venue_capacity) 4]
      else if (200 <=? venue_capacity)%Z
              && (Qle_bool 30 stereo_width && Qle_bool stereo_width 50)
      then [mkGoodPoint cat_stereo
              (width_fits_large stereo_width venue_capacity) 4]
      else [])
  ++ (if (7 <=? List.length band_energies)%nat
      then
        let mid_energy := nth 3 band_energies 0 in
        if Qltb (-30) mid_energy
        then [mkGoodPoint cat_balance (mid_energy_fine mid_energy) 4]
        else []
      else []).

(** The appends to [recommendations['critical']], in their order. *)
Definition critical_of (results : V2Results) (venue_capacity : Z)
  (mixer_specs : option MixerSpecs) (pa_specs : option PASpecs)
  : list Advice :=
  let correlation := r_correlation results in
  let crest_factor := r_crest_factor results in
  let stereo_width := r_stereo_width results in
  let rms_db := r_rms_db results in
  (if Qltb correlation (7 # 10)
   then [mkAdvice cat_stereo (correlation_low correlation) 5]
   else [])
  ++ (if (venue_capacity <? 200)%Z && Qltb 35 stereo_width
      then [mkAdvice cat_stereo
              (width_too_wide stereo_width venue_capacity) 5]
      else [])
  ++ (if Qltb rms_db (-20)
      then [mkAdvice cat_loudness
              (level_low rms_db (comp_suggestion_for mixer_specs)) 5]
      else [])
  ++ (if Qltb (1 # 1000) (r_very_low_rms results)
      then
        let '(hpf_freq, hpf_reason) := master_hpf pa_specs in
        [mkAdvice cat_subsonic (subsonic_found hpf_freq hpf_reason) 5]
      else [])
  ++ (if Qltb crest_factor 6
      then [mkAdvice cat_dynamics (over_compressed crest_factor) 5]
      else []).

(** The appends to [recommendations['important']], in their order. *)
Definition important_of (results : V2Results) (venue_capacity : Z)
  : list Advice :=
  let stereo_width := r_stereo_width results in
  let band_energies := r_band_energies results in
  (if (venue_capacity <? 200)%Z && Qltb 35 stereo_width
   then []
   else if (500 <=? venue_capacity)%Z && Qltb stereo_width 25
   then [mkAdvice cat_stereo
           (width_too_narrow stereo_width venue_capacity) 3]
   else [])
  ++ (if (7 <=? List.length band_energies)%nat
      then
        let sub_bass := nth 0 band_energies 0 in
        let mid := nth 3 band_energies 0 in
        let high_mid := nth 4 band_energies 0 in
        (if Qltb (mid + 12) sub_bass
         then [mkAdvice cat_balance (sub_bass_excess sub_bass mid) 4]
         else [])
        ++ (if Qltb high_mid (mid - 10)
            then [mkAdvice cat_balance (clarity_band_low high_mid mid) 4]
            else [])
      else []).

(** [generate_v2_recommendations]: the results are those of [analyze], the
    capacity is [self.venue_capacity]; the solution, basis and reference
    texts are fixed by the issue and are left out. *)
Definition generate_v2_recommendations (results : V2Results)
  (venue_capacity : Z) (mixer_specs : option MixerSpecs)
  (pa_specs : option PASpecs) : list GoodPoint * Recommendations :=
  (good_points_of results venue_capacity,
   mkRecommendations
     (critical_of results venue_capacity mixer_specs pa_specs)
     (important_of results venue_capacity)
     []).

End MixAdvice.

Module MixAdviceReading.
Import MixAdvice.

(** The measure that a good point or an item is about. *)
Inductive measure := phase | width | crest | transients | balance | level
                     | subsonic.

Definition measure_of_point (p : point) : measure :=
  match p with
  | correlation_excellent _ | correlation_fine _ => phase
  | crest_ideal _ | crest_fine _ => crest
  | transients_fine _ => transients
  | width_fits_small _ _ | width_fits_large _ _ => width
  | mid_energy_fine _ => balance
  end.

Definition measure_of_issue (i : issue) : measure :=
  match i with
  | correlation_low _ => phase
  | width_too_wide _ _ | width_too_narrow _ _ => width
  | level_low _ _ => level
  | subsonic_found _ _ => subsonic
  | sub_bass_excess _ _ | clarity_band_low _ _ => balance
  | over_compressed _ => crest
  end.

End MixAdviceReading.

Module MixAdviceSamples.
Import PyStr AudioDatabase InstrumentAnalyzer MixAdvice.

(** Results with a loud sub bass (0 dB against a mid band at -25 dB), a low
    level and some energy under 40 Hz. *)
Definition boomy_results : V2Results :=
  mkV2Results 25 (9 # 10) (-3) (-24) 15 12 [0; -20; -22; -25; -28; -35; -40]
    3 9 2 (1 # 100) 20.

Definition praised_balance : GoodPoint :=
  mkGoodPoint cat_balance (mid_energy_fine (-25)) 4.

Definition blamed_balance : Advice :=
  mkAdvice cat_balance (sub_bass_excess 0 (-25)) 4.

End MixAdviceSamples.

(** ** EquipmentSpecsSearcher *)

Module EquipmentSpecsSearcher.
Import PyStr AudioDatabase InstrumentAnalyzer.

(** [s.upper()]: the ASCII letters, as for [lower]. *)
Definition upper_char (c : N) : N :=
  if ((97 <=? c) && (c <=? 122))%N then (c - 32)%N else c.

Definition upper (s : pystr) : pystr := map upper_char s.

(** [any(keyword in name for keyword in keywords)] *)
Definition any_in (keywords : list pystr) (name : pystr) : bool :=
  existsb (fun keyword => contains keyword name) keywords.

(** [_get_known_mixer_specs]: the keys that the analyzers read. *)
Definition _get_known_mixer_specs (mixer_name : pystr) : MixerSpecs :=
  let name_upper := upper mixer_name in
  if contains (u "CL5") name_upper || contains (u "CL3") name_upper
     || contains (u "CL1") name_upper
  then mkMixerSpecs (u "Yamaha CL Series") (Some true) (Some true)
  else if contains (u "QL5") name_upper || contains (u "QL1") name_upper
  then mkMixerSpecs (u "Yamaha QL Series") (Some true) (Some false)
  else if contains (u "X32") name_upper
  then mkMixerSpecs (u "Behringer X32") (Some false) (Some false)
  else if contains (u "SQ") name_upper
  then mkMixerSpecs (u "Allen & Heath SQ Series") (Some true) (Some false)
  else mkMixerSpecs mixer_name None None.

(** [self.cache] after [__init__]. *)
Definition new_cache {V : Type} : list (pystr * V) := [].

(** [search_mixer_specs].  The name [web_search] is bound nowhere in the
    module, so each call of it raises [NameError], which the bare [except]
    around it swallows: [search_results] stays empty and the assignment to
    the cache under [if search_results] is not reached.  The cache is read
    here as the method reads it. *)
Definition search_mixer_specs (cache : list (pystr * MixerSpecs))
  (mixer_name : pystr) : option MixerSpecs :=
  match mixer_name with
  | [] => None
  | _ =>
      let cache_key := strip (lower mixer_name) in
      match get cache_key cache with
      | Some specs => Some specs
      | None => Some (_get_known_mixer_specs mixer_name)
      end
  end.

Definition keywords_d_and_b : list pystr :=
  [ u "d&b";
      u "d&amp;b";
      u "db audio";
      u "audiotechnik";
      u "v-series";
      u "v series";
      u "j-series";
      u "j series";
      u "ksl";
      u "gsl";
      u "sl-series";
      u "sl series";
      u "y-series";
      u "y series";
      u "e-series";
      u "e series" ].

Definition keywords_jbl : list pystr :=
  [ u "jbl";
      u "vtx";
      u "vrx";
      u "prx";
      u "srx";
      u "vertec";
      u "professional" ].

Definition keywords_l_acoustics : list pystr :=
  [ u "l-acoustics";
      u "l acoustics";
      u "kara";
      u "arcs";
      u "syva";
      u "a-series";
      u "a series";
      u "k1";
      u "k2";
      u "v-dosc";
      u "sb" ].

Definition keywords_meyer : list pystr :=
  [ u "meyer";
      u "leopard";
      u "lyon";
      u "mica";
      u "ultra";
      u "mina";
      u "leo" ].

Definition keywords_ev : list pystr :=
  [ u "electro-voice";
      u "ev";
      u "x-line";
      u "xline";
      u "x-array";
      u "xarray";
      u "xlc";
      u "etx" ].

Definition keywords_qsc : list pystr :=
  [ u "qsc";
      u "k-series";
      u "k series";
      u "kw";
      u "ks" ].

Definition keywords_nexo : list pystr :=
  [ u "nexo";
      u "geo";
      u "ps";
      u "id" ].

Definition keywords_yamaha : list pystr :=
  [ u "nexo";
      u "dxr";
      u "dsr";
      u "dbr";
      u "cbr";
      u "dzr" ].

(** [_get_known_pa_specs]: the keys that the analyzers read; a profile
    without 'eq_compensation' has the empty list. *)
Definition _get_known_pa_specs (pa_name : pystr) : PASpecs :=
  let name_lower := lower pa_name in
  if any_in keywords_d_and_b name_lower
  then mkPASpecs (u "d&b Audiotechnik") (Some 45%Z)
         [ u "2.5kHz Q=2.0 -1.5dB（システムピーク補正）";
      u "100Hz Q=1.0 +1dB（低域補強）" ]
         (u "35Hz推奨（d&bは低域特性良好）")
  else if any_in keywords_jbl name_lower
  then mkPASpecs (u "JBL Professional") (Some 50%Z)
         [ u "8kHz Q=1.5 -2dB（高域抑制推奨）";
      u "80Hz Q=1.0 +1.5dB（低域強化）" ]
         (u "30-35Hz推奨（JBLは30Hzまで対応）")
  else if any_in keywords_l_acoustics name_lower
  then mkPASpecs (u "L-Acoustics") (Some 50%Z)
         [ u "ほぼフラット、補正最小限でOK";
      u "必要に応じて80Hz Q=1.0 +1dB" ]
         (u "35Hz推奨")
  else if any_in keywords_meyer name_lower
  then mkPASpecs (u "Meyer Sound") (Some 48%Z) [] (u "35Hz推奨")
  else if any_in keywords_ev name_lower
  then mkPASpecs (u "Electro-Voice") (Some 55%Z) [] (u "40Hz推奨")
  else if any_in keywords_qsc name_lower
  then mkPASpecs (u "QSC") (Some 55%Z) [] (u "40Hz推奨")
  else if any_in keywords_nexo name_lower
  then mkPASpecs (u "NEXO") (Some 50%Z) [] (u "35Hz推奨")
  else if any_in keywords_yamaha name_lower
  then mkPASpecs (u "YAMAHA (PA)") (Some 55%Z) [] (u "40Hz推奨")
  else mkPASpecs pa_name (Some 50%Z) [] (u "40Hz推奨（標準設定）").

(** [search_pa_specs]: the cache is read and never written. *)
Definition search_pa_specs (cache : list (pystr * PASpecs))
  (pa_name : pystr) : option PASpecs :=
  match pa_name with
  | [] => None
  | _ =>
      let cache_key := strip (lower pa_name) in
      match get cache_key cache with
      | Some specs => Some specs
      | None => Some (_get_known_pa_specs pa_name)
      end
  end.

End EquipmentSpecsSearcher.

(** ** The equipment step of [main] *)

Module Session.
Import PyStr AudioDatabase InstrumentAnalyzer EquipmentSpecsSearcher.

(** Phase 1 of [main]: a new searcher, and a search for each name that was
    entered. *)
Definition mixer_specs_for (mixer_name : pystr) : option MixerSpecs :=
  match mixer_name with
  | [] => None
  | _ => search_mixer_specs new_cache mixer_name
  end.

Definition pa_specs_for (pa_system : pystr) : option PASpecs :=
  match pa_system with
  | [] => None
  | _ => search_pa_specs new_cache pa_system
  end.

(** The engine that [main] builds for the stems of a session. *)
Definition engine_for (stems : list (pystr * Stem)) (overall_rms : Q)
  (mixer_name pa_system : pystr) (past : list Entry) : Engine :=
  mkEngine stems overall_rms (mixer_specs_for mixer_name)
    (pa_specs_for pa_system) past.

End Session.

(** ** V2Analyzer: levels and stereo image, over the reals *)

Module MixLevels.
Import Dynamics.

Local Open Scope R_scope.

Definition Rltb (x y : R) : bool := if Rlt_dec x y then true else false.

Definition Rsum (l : list R) : R := fold_right Rplus 0 l.

(** [np.mean] of a non-empty array. *)
Definition mean (a : list R) : R := Rsum a / INR (List.length a).

(** [np.sqrt(np.mean(a**2))] *)
Definition root_mean_square (a : list R) : R :=
  sqrt (mean (map (fun x => x ^ 2) a)).

(** [np.max] of a non-empty array. *)
Definition np_max (a : list R) : R :=
  match a with
  | [] => 0
  | x :: a' => fold_left Rmax a' x
  end.

(** [_analyze_dynamics]: the peak and RMS level in dB and the crest
    factor. *)
Definition peak_db (y_mono : list R) : R :=
  let peak_linear := np_max (map Rabs y_mono) in
  if Rltb 0 peak_linear then 20 * log10 peak_linear else -100.

Definition rms_db (y_mono : list R) : R :=
  let rms := root_mean_square y_mono in
  if Rltb 0 rms then 20 * log10 rms else -100.

Definition crest_factor (y_mono : list R) : R :=
  peak_db y_mono - rms_db y_mono.

(** [_analyze_stereo_image]: the two channels have the same length. *)
Definition mid (left right : list R) : list R :=
  map (fun p => (fst p + snd p) / 2) (combine left right).

Definition side (left right : list R) : list R :=
  map (fun p => (fst p - snd p) / 2) (combine left right).

Definition stereo_width (left right : list R) : R :=
  let mid_rms := root_mean_square (mid left right) in
  let side_rms := root_mean_square (side left right) in
  side_rms / (mid_rms + / 10 ^ 10) * 100.

End MixLevels.

(** ** AudioDatabase: conversion of NumPy values *)

Module Serializable.
Import PyStr.

(** The values that the conversion tells apart.  An [np.ndarray] is given
    by what its [tolist()] returns: for a numeric array a Python number
    (no dimension) or Python numbers nested in lists by the dimensions, and
    for an array of objects the objects themselves.  [NpFloat] is an [np.float32] or [np.float64],
    [NpInt] an [np.int32] or [np.int64], and [NpScalar] any other NumPy
    scalar ([np.int16], [np.float16], [np.bool_], ...).  The keys of a dict
    are values too.  [PyOther] is an object of any other type with the
    values it holds: a tuple, a set, a frozenset. *)
#[warnings="-register-all"]
Inductive pyval :=
| NdArray (tolist : pyval)
| NpFloat (q : Q)
| NpInt (z : Z)
| NpScalar (q : Q)
| PyFloat (q : Q)
| PyInt (z : Z)
| PyBool (b : bool)
| PyText (s : pystr)
| PyNone
| PyDict (items : list (pyval * pyval))
| PyList (items : list pyval)
| PyOther (held : list pyval).

Fixpoint _convert_to_serializable (obj : pyval) : pyval :=
  match obj with
  | NdArray tolist => tolist
  | NpFloat q => PyFloat q
  | NpInt z => PyInt z
  | PyDict items =>
      PyDict
        (map (fun kv => match kv with
                        | (k, v) => (k, _convert_to_serializable v)
                        end) items)
  | PyList items => PyList (map _convert_to_serializable items)
  | _ => obj
  end.

(** The value holds no NumPy value at any depth. *)
Fixpoint plain (obj : pyval) : bool :=
  match obj with
  | NdArray _ | NpFloat _ | NpInt _ | NpScalar _ => false
  | PyDict items =>
      forallb (fun kv => match kv with (k, v) => plain k && plain v end)
        items
  | PyList items => forallb plain items
  | PyOther held => forallb plain held
  | _ => true
  end.

(** The NumPy values of the value are all within reach of the conversion:
    they are arrays without NumPy objects, or floats and integers of the
    four types, and they stand as the value itself, as an item of a list or
    as a value of a dict, at any depth.  A NumPy scalar of another type, a
    NumPy value as a key of a dict, inside an array of objects, or inside
    an object of another type is out of reach. *)
Fixpoint within_reach (obj : pyval) : bool :=
  match obj with
  | NdArray tolist => plain tolist
  | NpFloat _ | NpInt _ => true
  | NpScalar _ => false
  | PyDict items =>
      forallb (fun kv => match kv with
                         | (k, v) => plain k && within_reach v
                         end) items
  | PyList items => forallb within_reach items
  | PyOther held => forallb plain held
  | _ => true
  end.

(** The arrays that the conversion meets are numeric: their [tolist()]
    holds no NumPy value. *)
Fixpoint arrays_numeric (obj : pyval) : bool :=
  match obj with
  | NdArray tolist => plain tolist
  | PyDict items =>
      forallb (fun kv => match kv with (_, v) => arrays_numeric v end) items
  | PyList items => forallb arrays_numeric items
  | _ => true
  end.

End Serializable.

(* ================================================================== *)
(** * Part II. Properties                                               *)
(* ================================================================== *)

(** ** Python strings *)

Module PyStrFacts.
Import PyStr.

Lemma eqb_eq (a b : pystr) : eqb a b = true <-> a = b.
Proof.
  unfold eqb. destruct (list_eq_dec N.eq_dec a b); split; congruence.
Qed.

Lemma eqb_refl (a : pystr) : eqb a a = true.
Proof. now apply eqb_eq. Qed.

Lemma mem_In (x : pystr) (l : list pystr) : mem x l = true <-> In x l.
Proof.
  unfold mem. rewrite existsb_exists. split.
  - intros [y [Hy Heq]]. apply eqb_eq in Heq. now subst.
  - intros H. exists x. split; [assumption | apply eqb_refl].
Qed.

Lemma mem_false (x : pystr) (l : list pystr) : mem x l = false <-> ~ In x l.
Proof.
  rewrite <- mem_In. destruct (mem x l); split; congruence.
Qed.

(** Replacing a one-character pattern works character by character. *)
Lemma replace_char_cons (c x : N) (new s : pystr) :
  replace [c] new (x :: s) =
  (if (c =? x)%N then new else [x]) ++ replace [c] new s.
Proof.
  unfold replace. cbn [replace_from startswith List.length Nat.sub].
  rewrite andb_true_r. destruct (c =? x)%N; reflexivity.
Qed.




End PyStrFacts.

(** ** Instrumentation parsing *)

Module InstrumentSeparatorFacts.
Import PyStr PyStrFacts InstrumentSeparator.


(** A token leaves the list as it is or appends one tag, the tag of the first
    alias that matches, when the list does not hold it yet. *)
Lemma parse_item_cases (table : list (pystr * pystr)) (acc : list pystr)
  (raw : pystr) :
  parse_item table acc raw = acc \/
  exists tag,
    first_match table (lower (strip raw)) = Some tag /\
    ~ In tag acc /\
    parse_item table acc raw = acc ++ [tag].
Proof.
  unfold parse_item.
  destruct (lower (strip raw)) as [|c item] eqn:E; [now left|].
  destruct (first_match table (c :: item)) as [tag|]; [|now left].
  destruct (mem tag acc) eqn:M; [now left|].
  right. exists tag. repeat split. now apply mem_false.
Qed.

Lemma parse_item_NoDup (table : list (pystr * pystr)) (acc : list pystr)
  (raw : pystr) :
  NoDup acc -> NoDup (parse_item table acc raw).
Proof.
  intros H. destruct (parse_item_cases table acc raw) as [-> | [tag [_ [Hn ->]]]].
  - assumption.
  - apply NoDup_rev in H. rewrite <- (rev_involutive (acc ++ [tag])).
    apply NoDup_rev. rewrite rev_app_distr. cbn.
    constructor; [|assumption]. now rewrite <- in_rev.
Qed.

Lemma first_match_in_table (table : list (pystr * pystr)) (item tag : pystr) :
  first_match table item = Some tag -> In tag (map snd table).
Proof.
  unfold first_match.
  destruct (find (alias_matches item) table) as [e|] eqn:F; [|discriminate].
  intros [= <-]. apply find_some in F. apply in_map. tauto.
Qed.

Lemma parse_item_incl (table : list (pystr * pystr)) (acc : list pystr)
  (raw : pystr) (tags : list pystr) :
  incl (map snd table) tags -> incl acc tags ->
  incl (parse_item table acc raw) tags.
Proof.
  intros Ht Ha.
  destruct (parse_item_cases table acc raw) as [-> | [tag [Hm [_ ->]]]].
  - assumption.
  - apply incl_app; [assumption|].
    intros x [<- | []]. apply Ht. eapply first_match_in_table; eassumption.
Qed.

Lemma fold_parse_NoDup (table : list (pystr * pystr)) (items : list pystr) :
  forall acc, NoDup acc -> NoDup (fold_left (parse_item table) items acc).
Proof.
  induction items as [|raw items IH]; intros acc H; cbn; [assumption|].
  apply IH. now apply parse_item_NoDup.
Qed.

Lemma fold_parse_incl (table : list (pystr * pystr)) (tags items : list pystr) :
  incl (map snd table) tags ->
  forall acc, incl acc tags -> incl (fold_left (parse_item table) items acc) tags.
Proof.
  intros Ht. induction items as [|raw items IH]; intros acc H; cbn; [assumption|].
  apply IH. now apply parse_item_incl.
Qed.


Lemma incl_by_mem (l1 l2 : list pystr) :
  forallb (fun x => mem x l2) l1 = true -> incl l1 l2.
Proof.
  rewrite forallb_forall. intros H x Hx. apply mem_In. now apply H.
Qed.

Lemma mapping_values_canonical : incl (map snd mapping) canonical_tags.
Proof. apply incl_by_mem. vm_compute. reflexivity. Qed.

(** The vocabulary has no other tag than the values of the table. *)
Lemma canonical_values_mapping : incl canonical_tags (map snd mapping).
Proof. apply incl_by_mem. vm_compute. reflexivity. Qed.




End InstrumentSeparatorFacts.

(** ** Stable sort *)

Module PySortFacts.
Import PySort.

Lemma StronglySorted_impl {A : Type} (R R' : A -> A -> Prop) (l : list A) :
  (forall a b, R a b -> R' a b) -> StronglySorted R l -> StronglySorted R' l.
Proof.
  intros H. induction 1 as [|a l Hs IH Hall]; constructor; [assumption|].
  eapply Forall_impl; [|exact Hall]. intros b. apply H.
Qed.

Section SortFacts.
Variable A : Type.
Variable before : A -> A -> bool.

Lemma insert_perm (x : A) (l : list A) :
  Permutation (x :: l) (insert before x l).
Proof.
  induction l as [|y l IH]; cbn; [reflexivity|].
  destruct (before x y); [reflexivity|].
  rewrite perm_swap. now apply perm_skip.
Qed.

Lemma sort_perm (l : list A) : Permutation l (sort before l).
Proof.
  induction l as [|x l IH]; cbn; [constructor|].
  rewrite <- insert_perm. now apply perm_skip.
Qed.

Lemma sort_In (l : list A) (x : A) : In x (sort before l) <-> In x l.
Proof.
  split; apply Permutation_in; [symmetry|]; apply sort_perm.
Qed.

(** Stability: the elements of one class of the order, any two of which may
    stand in either order, come out in the order they went in. *)
Lemma insert_filter (p : A -> bool) (x : A) (l : list A) :
  (forall a b, p a = true -> p b = true -> before a b = true) ->
  filter p (insert before x l) = filter p (x :: l).
Proof.
  intros Hp. induction l as [|y l IH]; [reflexivity|].
  cbn [insert]. destruct (before x y) eqn:B; [reflexivity|].
  cbn [filter] in *. rewrite IH.
  destruct (p x) eqn:Px, (p y) eqn:Py; try reflexivity.
  rewrite (Hp x y Px Py) in B. discriminate.
Qed.

Lemma sort_stable (p : A -> bool) (l : list A) :
  (forall a b, p a = true -> p b = true -> before a b = true) ->
  filter p (sort before l) = filter p l.
Proof.
  intros Hp. induction l as [|x l IH]; [reflexivity|].
  cbn [sort fold_right]. rewrite insert_filter by assumption.
  cbn [filter]. fold (sort before l). now rewrite IH.
Qed.

Hypothesis before_total : forall a b, before a b = true \/ before b a = true.
Hypothesis before_trans :
  forall a b c, before a b = true -> before b c = true -> before a c = true.

Lemma insert_sorted (x : A) (l : list A) :
  StronglySorted (fun a b => before a b = true) l ->
  StronglySorted (fun a b => before a b = true) (insert before x l).
Proof.
  induction 1 as [|y l Hs IH Hall]; cbn.
  - repeat constructor.
  - destruct (before x y) eqn:B.
    + constructor; [now constructor|].
      constructor; [assumption|].
      eapply Forall_impl; [|exact Hall]. intros z Hz. eauto.
    + constructor; [assumption|].
      apply (Permutation_Forall (insert_perm x l)).
      constructor; [|assumption].
      destruct (before_total x y) as [H|H]; congruence.
Qed.

Lemma sort_sorted (l : list A) :
  StronglySorted (fun a b => before a b = true) (sort before l).
Proof.
  induction l as [|x l IH]; cbn; [constructor | now apply insert_sorted].
Qed.

End SortFacts.

End PySortFacts.

(** ** Matching of sessions *)

Module MatchFacts.
Import PyStr PyStrFacts AudioDatabase ComparisonAnalyzer.

Lemma opt_str_eqb_eq (a b : option pystr) : opt_str_eqb a b = true <-> a = b.
Proof.
  destruct a as [x|], b as [y|]; cbn; try (split; congruence).
  rewrite eqb_eq. split; congruence.
Qed.

Lemma score_is_match_score (cur : Metadata) (e : Entry) :
  score cur e = match_score cur (metadata e) (equipment e).
Proof. reflexivity. Qed.

Lemma find_similar_sound (history : list Entry) (cur : Metadata) (limit : nat)
  (e : Entry) :
  In e (find_similar history cur limit) ->
  In e history /\ (20 < score cur e)%Z.
Proof.
  unfold find_similar. rewrite in_map_iff.
  intros [[e' s] [<- H]]. cbn [fst]. apply filter_In in H.
  destruct H as [H Hs]. cbn [snd] in Hs.
  assert (Hin : In (e', s) (map (fun entry => (entry, score cur entry)) history)).
  { apply (PySortFacts.sort_In score_geb).
    rewrite <- (firstn_skipn limit). apply in_or_app. now left. }
  apply in_map_iff in Hin. destruct Hin as [e0 [[= <- <-] Hin]].
  split; [assumption | now apply Z.ltb_lt].
Qed.

Example find_similar_ranks_and_filters :
  find_similar
    [Samples.unrelated_session; Samples.other_console_session;
     Samples.earlier_session]
    Samples.sample_metadata 3
  = [Samples.earlier_session; Samples.other_console_session]
  /\ map (score Samples.sample_metadata)
       [Samples.unrelated_session; Samples.other_console_session;
        Samples.earlier_session]
     = [0; 30; 100]%Z.
Proof. split; vm_compute; reflexivity. Qed.

(** C6. The score of a historical entry is 30 for venue capacities less
    than 50 apart (the 'venue_capacity' of the current form and of the
    entry's metadata, an absent one counting as 0), plus 40 for the same
    console name, plus 30 for the same PA name,
    in the history search and in the comparison alike; the match type is
    exact_match from 80, similar from 50 and different below; three matches
    give 100 and exact_match, no match gives 0, and the similar-sessions
    result holds only entries of the history whose score exceeds 20. *)
Theorem match_score_and_type (cur : Metadata) (entry : Entry) :
  let near :=
    (Z.abs
       (match venue_capacity cur with Some c => c | None => 0 end
        - match venue_capacity (metadata entry) with
          | Some c => c
          | None => 0
          end) <? 50)%Z in
  let same_console := opt_str_eqb (mixer cur) (e_mixer (equipment entry)) in
  let same_pa := opt_str_eqb (pa_system cur) (e_pa_system (equipment entry)) in
  let s := match_score cur (metadata entry) (equipment entry) in
  let t := _get_match_type cur (metadata entry) (equipment entry) in
  (s = (if near then 30 else 0) + (if same_console then 40 else 0)
       + (if same_pa then 30 else 0))%Z
  /\ score cur entry = s
  /\ (forall a b,
        venue_capacity cur = Some a ->
        venue_capacity (metadata entry) = Some b ->
        (near = true <-> (Z.abs (a - b) < 50)%Z))
  /\ (forall b,
        venue_capacity cur = None ->
        venue_capacity (metadata entry) = Some b ->
        (near = true <-> (Z.abs b < 50)%Z))
  /\ (same_console = true <-> mixer cur = e_mixer (equipment entry))
  /\ (same_pa = true <-> pa_system cur = e_pa_system (equipment entry))
  /\ (t = exact_match <-> (80 <= s)%Z)
  /\ (t = similar <-> (50 <= s < 80)%Z)
  /\ (t = different <-> (s < 50)%Z)
  /\ (near && same_console && same_pa = true -> s = 100%Z /\ t = exact_match)
  /\ (near || same_console || same_pa = false -> s = 0%Z /\ t = different)
  /\ (forall history limit,
        (s <= 20)%Z -> ~ In entry (find_similar history cur limit))
  /\ (forall history limit e,
        In e (find_similar history cur limit) ->
        In e history /\ (20 < score cur e)%Z).
Proof.
  cbv zeta.
  change (match venue_capacity cur with Some c => c | None => 0%Z end)
    with (capacity cur).
  change (match venue_capacity (metadata entry) with
          | Some c => c
          | None => 0%Z
          end)
    with (capacity (metadata entry)).
  assert (Hs : (match_score cur (metadata entry) (equipment entry) =
                (if (Z.abs (capacity cur - capacity (metadata entry)) <? 50)%Z
                 then 30 else 0)
                + (if opt_str_eqb (mixer cur) (e_mixer (equipment entry))
                   then 40 else 0)
                + (if opt_str_eqb (pa_system cur) (e_pa_system (equipment entry))
                   then 30 else 0))%Z).
  { unfold match_score.
    destruct (Z.abs _ <? 50)%Z, (opt_str_eqb (mixer cur) _),
             (opt_str_eqb (pa_system cur) _); reflexivity. }
  split; [exact Hs|].
  split; [reflexivity|].
  split.
  { intros a b Ha Hb. unfold capacity. rewrite Ha, Hb. apply Z.ltb_lt. }
  split.
  { intros b Ha Hb. unfold capacity. rewrite Ha, Hb.
    rewrite Z.sub_0_l, Z.abs_opp. apply Z.ltb_lt. }
  split; [apply opt_str_eqb_eq|].
  split; [apply opt_str_eqb_eq|].
  assert (Hout : forall history limit,
             (match_score cur (metadata entry) (equipment entry) <= 20)%Z ->
             ~ In entry (find_similar history cur limit)).
  { intros history limit Hle Hin. apply find_similar_sound in Hin.
    rewrite score_is_match_score in Hin. lia. }
  assert (Hin : forall history limit e,
             In e (find_similar history cur limit) ->
             In e history /\ (20 < score cur e)%Z).
  { intros history limit e. apply find_similar_sound. }
  revert Hout. unfold _get_match_type, classify. rewrite Hs. intros Hout.
  destruct (Z.abs _ <? 50)%Z, (opt_str_eqb (mixer cur) _),
           (opt_str_eqb (pa_system cur) _); cbn in *;
    repeat (split; [first [ discriminate | lia | reflexivity
                          | intros; exfalso; (discriminate || lia)
                          | intros; split; (reflexivity || lia)
                          | split; intros; first [discriminate | lia | reflexivity] ]|]);
    first [exact Hin | split; [exact Hout | exact Hin]].
Qed.

End MatchFacts.

(** ** The history store *)

Module HistoryFacts.
Import PyStr PyStrFacts AudioDatabase HistorySpec Samples.

Lemma close_refl (v : value) : close v v.
Proof.
  assert (H0 : forall x : Q, Qabs (x - x) <= tolerance).
  { intros x. setoid_replace (x - x) with 0 by ring. discriminate. }
  destruct v as [x | l]; cbn; [apply H0|].
  induction l; constructor; [apply H0 | assumption].
Qed.

(** The analysis of a stored entry answers the five persisted keys with the
    values of the results, and no other key. *)
Lemma analysis_of_results (r : V2Results) (k : pystr) :
  let a := mkAnalysis (r_rms_db r) (r_peak_db r) (r_stereo_width r)
             (r_crest_factor r) (r_band_energies r) [] in
  get k (analysis_items a) =
  if mem k persisted_keys then get k (results_items r) else None.
Proof.
  cbv zeta. unfold analysis_items, results_items, persisted_keys.
  cbn [get mem existsb rms_db peak_db stereo_width crest_factor band_energies].
  destruct (eqb k (u "rms_db")) eqn:E1.
  { apply eqb_eq in E1. subst k. reflexivity. }
  destruct (eqb k (u "peak_db")) eqn:E2.
  { apply eqb_eq in E2. subst k. reflexivity. }
  destruct (eqb k (u "stereo_width")) eqn:E3.
  { apply eqb_eq in E3. subst k. reflexivity. }
  destruct (eqb k (u "crest_factor")) eqn:E4.
  { apply eqb_eq in E4. subst k. reflexivity. }
  destruct (eqb k (u "band_energies")) eqn:E5.
  { apply eqb_eq in E5. subst k. reflexivity. }
  reflexivity.
Qed.

Section RoundTrip.
Variable file_text : Type.
Variable json_dump : list Entry -> file_text.
Variable json_load : file_text -> option (list Entry).

(** What the [json] module promises for the documents written here. *)
Hypothesis load_dump : forall h, json_load (json_dump h) = Some h.

Lemma reopen_history (db : DB file_text) (r : V2Results) (md : Metadata)
  (now_id now_iso : pystr) :
  history (reopen_after_add json_dump json_load db r md now_id now_iso) =
  history db ++
  [ mkEntry now_id now_iso md
      (mkAnalysis (r_rms_db r) (r_peak_db r) (r_stereo_width r)
         (r_crest_factor r) (r_band_energies r) [])
      (mkEquipment (mixer md) (pa_system md)) ].
Proof.
  unfold reopen_after_add, add_entry, init, load, save. cbn.
  now rewrite load_dump.
Qed.

(** C4, as amended. After [add_entry] and a reload of the file, the history
    is the former history followed by one entry with the returned id; that
    entry reproduces rms_db, peak_db, stereo_width, crest_factor and
    band_energies of the results within the tolerance (they are equal), and
    holds no other key of the results. *)
Theorem persisted_fields_round_trip (db : DB file_text) (r : V2Results)
  (md : Metadata) (now_id now_iso : pystr) :
  exists e,
    history (reopen_after_add json_dump json_load db r md now_id now_iso)
      = history db ++ [e]
    /\ id e = snd (add_entry json_dump db r md now_id now_iso)
    /\ (forall k, In k persisted_keys -> reproduced r e k)
    /\ (forall k, In k persisted_keys ->
          get k (analysis_items (analysis e)) = get k (results_items r))
    /\ (forall k, ~ In k persisted_keys ->
          get k (analysis_items (analysis e)) = None).
Proof.
  eexists. split; [apply reopen_history|].
  split; [reflexivity|].
  unfold reproduced. cbn [analysis].
  split; [|split].
  - intros k Hk v Hv. exists v. split; [|apply close_refl].
    rewrite analysis_of_results. apply mem_In in Hk. now rewrite Hk.
  - intros k Hk. rewrite analysis_of_results. apply mem_In in Hk.
    now rewrite Hk.
  - intros k Hk. rewrite analysis_of_results. apply mem_false in Hk.
    now rewrite Hk.
Qed.

End RoundTrip.

Lemma persisted_fields_round_trip_witness :
  exists e,
    history (reopen_after_add (fun h => h) (@Some _) plain_db sample_results
               sample_metadata (u "20240101_120000") (u "2024-01-01T12:00:00"))
      = history plain_db ++ [e]
    /\ id e = snd (add_entry (fun h => h) plain_db sample_results
                     sample_metadata (u "20240101_120000")
                     (u "2024-01-01T12:00:00"))
    /\ (forall k, In k persisted_keys -> reproduced sample_results e k)
    /\ (forall k, In k persisted_keys ->
          get k (analysis_items (analysis e))
          = get k (results_items sample_results))
    /\ (forall k, ~ In k persisted_keys ->
          get k (analysis_items (analysis e)) = None).
Proof.
  apply (@persisted_fields_round_trip (list Entry) (fun h => h) (@Some _)).
  intros h. reflexivity.
Defined.

(** C4, as stated, fails: the results hold dynamic_range = 12, and the
    reloaded entry has no such key. *)
Lemma dynamic_range_not_reproduced :
  exists e,
    history (reopen_after_add (fun h => h) (@Some _) plain_db sample_results
               sample_metadata (u "20240101_120000") (u "2024-01-01T12:00:00"))
      = [e]
    /\ get (u "dynamic_range") (results_items sample_results) = Some (VNum 12)
    /\ ~ reproduced sample_results e (u "dynamic_range").
Proof.
  eexists. split; [reflexivity|]. split; [reflexivity|].
  intros H. destruct (H (VNum 12) eq_refl) as [v' [Hv' _]].
  vm_compute in Hv'. discriminate.
Qed.

End HistoryFacts.

(** ** Frequency bands of the mix *)

Module FrequencyFacts.
Import PyStr PyNum V2Analyzer.

Lemma select_is_filter (low high : Q) (freqs : list Q) :
  forall a, List.length a = List.length freqs ->
  select a (band_mask low high freqs) = spec_bins_in_band a freqs low high.
Proof.
  unfold spec_bins_in_band, band_mask.
  induction freqs as [|f freqs IH]; intros [|x a] Hlen; try discriminate;
    [reflexivity|].
  cbn [map select combine filter fst].
  injection Hlen as Hlen. rewrite (IH a Hlen).
  destruct (Qle_bool low f && Qltb f high); reflexivity.
Qed.

Lemma any_is_nonempty (low high : Q) (freqs : list Q) :
  forall a, List.length a = List.length freqs ->
  np_any (band_mask low high freqs) =
  match spec_bins_in_band a freqs low high with [] => false | _ => true end.
Proof.
  unfold spec_bins_in_band, band_mask, np_any.
  induction freqs as [|f freqs IH]; intros [|x a] Hlen; try discriminate;
    [reflexivity|].
  cbn [map existsb combine filter fst].
  injection Hlen as Hlen.
  destruct (Qle_bool low f && Qltb f high); [reflexivity|].
  cbn [orb]. now apply IH.
Qed.

Lemma band_energy_is_spec (avg_spectrum freqs : list Q) (band : Q * Q * pystr) :
  List.length avg_spectrum = List.length freqs ->
  band_energy avg_spectrum freqs band =
  spec_band_value avg_spectrum freqs (fst (fst band)) (snd (fst band)).
Proof.
  intros Hlen. destruct band as [[low high] label]. cbn [fst snd].
  unfold band_energy, spec_band_value.
  rewrite (any_is_nonempty low high freqs avg_spectrum Hlen).
  rewrite (select_is_filter low high freqs avg_spectrum Hlen).
  destruct (spec_bins_in_band avg_spectrum freqs low high); reflexivity.
Qed.

Example band_energies_sample :
  map Qred (band_energies Samples.sample_spectrum Samples.sample_freqs)
  = [-20; -24; -30; -28; -35; -40; -51].
Proof. vm_compute. reflexivity. Qed.

(** A band above every bin gives -100. *)
Example band_energies_no_bins :
  band_energies [-10; -20] [0; 100]
  = [-100; -20; -100; -100; -100; -100; -100].
Proof. vm_compute. reflexivity. Qed.

(** The mean is the sum of the values divided by their number. *)
Lemma np_mean_is_sum_over_count (l : list Q) :
  l <> [] ->
  np_mean l * inject_Z (Z.of_nat (List.length l)) == fold_right Qplus 0 l.
Proof.
  intros Hl. unfold np_mean, Qsum.
  assert (Hn : ~ inject_Z (Z.of_nat (List.length l)) == 0).
  { destruct l as [|x l]; [congruence|].
    unfold Qeq. cbn [List.length inject_Z Qnum Qden]. lia. }
  field. exact Hn.
Qed.

Lemma strictly_below (x y : Q) : Qltb x y = true <-> x < y.
Proof.
  unfold Qltb. rewrite negb_true_iff.
  destruct (Qle_bool y x) eqn:E.
  - apply Qle_bool_iff in E. split; [discriminate|].
    intros H. exfalso. now apply (Qlt_not_le x y).
  - split; [|reflexivity]. intros _. apply Qnot_le_lt.
    intros H. apply Qle_bool_iff in H. congruence.
Qed.

(** The bins of a band are the spectrum values at the frequencies from
    [low] up to, not including, [high]. *)
Lemma bins_in_band (avg_spectrum freqs : list Q) (low high x : Q) :
  In x (spec_bins_in_band avg_spectrum freqs low high) <->
  exists f, In (f, x) (combine freqs avg_spectrum) /\ low <= f /\ f < high.
Proof.
  unfold spec_bins_in_band. rewrite in_map_iff. split.
  - intros [[f y] [Hy Hin]]. cbn [snd] in Hy. subst y.
    apply filter_In in Hin. destruct Hin as [Hin Hc]. cbn [fst] in Hc.
    apply andb_true_iff in Hc. destruct Hc as [H1 H2].
    exists f. split; [exact Hin|]. split.
    + now apply Qle_bool_iff.
    + now apply strictly_below.
  - intros [f [Hin [H1 H2]]]. exists (f, x). split; [reflexivity|].
    apply filter_In. split; [exact Hin|]. cbn [fst].
    apply andb_true_iff. split.
    + now apply Qle_bool_iff.
    + now apply strictly_below.
Qed.

Lemma Forall2_map_self {A B : Type} (P : B -> A -> Prop) (f : A -> B)
  (l : list A) :
  (forall a, In a l -> P (f a) a) -> Forall2 P (map f l) l.
Proof.
  induction l as [|a l IH]; intros H; cbn [map]; constructor.
  - apply H. now left.
  - apply IH. intros b Hb. apply H. now right.
Qed.

(** C8. For a spectrum with one value per frequency bin, [band_energies] has
    exactly 7 values, one per band of the fixed list 20-80, 80-250, 250-500,
    500-2000, 2000-4000, 4000-8000, 8000-16000 Hz; each value is the mean of
    the spectrum values of the bins inside the band, that is their sum
    divided by their number, the bins of a band being those at a frequency
    from its lower limit up to, not including, its upper limit; and the
    value is -100 for a band without bins. *)
Theorem band_energies_seven_bands (avg_spectrum freqs : list Q) :
  List.length avg_spectrum = List.length freqs ->
  List.length (band_energies avg_spectrum freqs) = 7%nat
  /\ map fst bands =
     [ (20, 80); (80, 250); (250, 500); (500, 2000); (2000, 4000);
       (4000, 8000); (8000, 16000) ]%Q
  /\ band_energies avg_spectrum freqs =
     map (fun band =>
            spec_band_value avg_spectrum freqs (fst (fst band)) (snd (fst band)))
         bands
  /\ (forall low high,
        spec_bins_in_band avg_spectrum freqs low high = [] ->
        spec_band_value avg_spectrum freqs low high = (-100)%Q)
  /\ (forall low high,
        spec_bins_in_band avg_spectrum freqs low high <> [] ->
        spec_band_value avg_spectrum freqs low high =
        np_mean (spec_bins_in_band avg_spectrum freqs low high))
  /\ Forall2
       (fun value band =>
          let low := fst (fst band) in
          let high := snd (fst band) in
          let bins :=
            map snd
              (filter
                 (fun bin =>
                    Qle_bool low (fst bin) && negb (Qle_bool high (fst bin)))
                 (combine freqs avg_spectrum)) in
          (bins = [] -> value = (-100)%Q)
          /\ (bins <> [] ->
              value * inject_Z (Z.of_nat (List.length bins))
              == fold_right Qplus 0 bins)
          /\ (forall x,
                In x bins <->
                exists f, In (f, x) (combine freqs avg_spectrum)
                          /\ low <= f /\ f < high))
       (band_energies avg_spectrum freqs) bands.
Proof.
  intros Hlen.
  split; [reflexivity|].
  split; [reflexivity|].
  split.
  { unfold band_energies. apply map_ext. intros band.
    now apply band_energy_is_spec. }
  split.
  { intros low high H; unfold spec_band_value. now rewrite H. }
  split.
  { intros low high H; unfold spec_band_value.
    destruct (spec_bins_in_band avg_spectrum freqs low high);
      [contradiction | reflexivity]. }
  unfold band_energies. apply Forall2_map_self. intros band _. cbv zeta.
  rewrite (band_energy_is_spec avg_spectrum freqs band Hlen).
  change (map snd
            (filter
               (fun bin =>
                  Qle_bool (fst (fst band)) (fst bin)
                  && negb (Qle_bool (snd (fst band)) (fst bin)))
               (combine freqs avg_spectrum)))
    with (spec_bins_in_band avg_spectrum freqs (fst (fst band))
            (snd (fst band))).
  unfold spec_band_value.
  split; [|split].
  - intros H. now rewrite H.
  - intros H.
    destruct (spec_bins_in_band avg_spectrum freqs (fst (fst band))
                (snd (fst band))) as [|x bins] eqn:E; [contradiction|].
    now apply np_mean_is_sum_over_count.
  - intros x. apply bins_in_band.
Qed.

Lemma band_energies_seven_bands_witness :
  let avg_spectrum := Samples.sample_spectrum in
  let freqs := Samples.sample_freqs in
  List.length (band_energies avg_spectrum freqs) = 7%nat
  /\ map fst bands =
     [ (20, 80); (80, 250); (250, 500); (500, 2000); (2000, 4000);
       (4000, 8000); (8000, 16000) ]%Q
  /\ band_energies avg_spectrum freqs =
     map (fun band =>
            spec_band_value avg_spectrum freqs (fst (fst band)) (snd (fst band)))
         bands
  /\ (forall low high,
        spec_bins_in_band avg_spectrum freqs low high = [] ->
        spec_band_value avg_spectrum freqs low high = (-100)%Q)
  /\ (forall low high,
        spec_bins_in_band avg_spectrum freqs low high <> [] ->
        spec_band_value avg_spectrum freqs low high =
        np_mean (spec_bins_in_band avg_spectrum freqs low high))
  /\ Forall2
       (fun value band =>
          let low := fst (fst band) in
          let high := snd (fst band) in
          let bins :=
            map snd
              (filter
                 (fun bin =>
                    Qle_bool low (fst bin) && negb (Qle_bool high (fst bin)))
                 (combine freqs avg_spectrum)) in
          (bins = [] -> value = (-100)%Q)
          /\ (bins <> [] ->
              value * inject_Z (Z.of_nat (List.length bins))
              == fold_right Qplus 0 bins)
          /\ (forall x,
                In x bins <->
                exists f, In (f, x) (combine freqs avg_spectrum)
                          /\ low <= f /\ f < high))
       (band_energies avg_spectrum freqs) bands.
Proof.
  cbv zeta.
  apply (band_energies_seven_bands Samples.sample_spectrum
           Samples.sample_freqs).
  reflexivity.
Defined.

End FrequencyFacts.

(** ** Dynamic range of a stem *)

Module DynamicsFacts.
Import Dynamics.
Local Open Scope R_scope.

Lemma Rleb_true (x y : R) : x <= y -> Rleb x y = true.
Proof. intros H. unfold Rleb. destruct (Rle_dec x y); [reflexivity | contradiction]. Qed.

(** The percentiles of two frames in ascending order. *)
Lemma percentile_pair (x y : R) (q : nat) :
  x <= y -> (q < 100)%nat ->
  percentile [x; y] q = x + INR q / 100 * (y - x).
Proof.
  intros Hxy Hq. unfold percentile.
  cbn [PySort.sort fold_right PySort.insert].
  rewrite (Rleb_true Hxy). cbn [List.length Nat.sub].
  rewrite Nat.mul_1_r, (Nat.div_small q 100 Hq), (Nat.mod_small q 100 Hq).
  reflexivity.
Qed.

Lemma ln_10_pos : 0 < ln 10.
Proof. rewrite <- ln_1. apply ln_increasing; lra. Qed.

(** A silent frame sits at -200 dB. *)
Lemma silent_frame_db : 20 * log10 (0 + / 10 ^ 10) = -200.
Proof.
  unfold log10. rewrite Rplus_0_l.
  rewrite ln_Rinv by (apply pow_lt; lra).
  rewrite ln_pow by lra.
  pose proof ln_10_pos as H.
  replace (INR 10) with 10 by (simpl; lra).
  field. lra.
Qed.

(** A frame at full scale sits above 0 dB. *)
Lemma full_scale_frame_db : 0 <= 20 * log10 (1 + / 10 ^ 10).
Proof.
  unfold log10. pose proof ln_10_pos as H.
  assert (Hpos : 0 < / 10 ^ 10) by (apply Rinv_0_lt_compat, pow_lt; lra).
  assert (0 < ln (1 + / 10 ^ 10)).
  { rewrite <- ln_1. apply ln_increasing; lra. }
  apply Rmult_le_pos; [lra|].
  apply Rlt_le, Rdiv_lt_0_compat; assumption.
Qed.

(** C2, on the code. The percentile difference of a stem is taken on the
    frame RMS values as they are; the whole-mix metric is the same difference
    taken after the conversion to dB.  For the frames 0 and 1 the stem value
    is 0.9 and the dB value is at least 180. *)
Theorem stem_dynamic_range_not_in_db :
  (forall rms_frames,
     mix_dynamic_range rms_frames = stem_dynamic_range (frames_db rms_frames))
  /\ stem_dynamic_range [0; 1] = 9 / 10
  /\ 180 <= mix_dynamic_range [0; 1]
  /\ stem_dynamic_range [0; 1] <> mix_dynamic_range [0; 1].
Proof.
  assert (Hs : stem_dynamic_range [0; 1] = 9 / 10).
  { unfold stem_dynamic_range.
    rewrite !percentile_pair by (lra || lia).
    replace (INR 95) with 95 by (simpl; lra).
    replace (INR 5) with 5 by (simpl; lra).
    lra. }
  assert (Hm : 180 <= mix_dynamic_range [0; 1]).
  { unfold mix_dynamic_range, frames_db. cbn [map].
    rewrite silent_frame_db. pose proof full_scale_frame_db as Hb.
    rewrite !percentile_pair by (lra || lia).
    replace (INR 95) with 95 by (simpl; lra).
    replace (INR 5) with 5 by (simpl; lra).
    lra. }
  split; [reflexivity|].
  split; [exact Hs|].
  split; [exact Hm|].
  rewrite Hs. intros E. rewrite <- E in Hm. lra.
Qed.

End DynamicsFacts.

(** ** Comparisons on rationals *)

Module PyNumFacts.
Import PyNum.

Lemma Qltb_lt (x y : Q) : Qltb x y = true <-> x < y.
Proof.
  unfold Qltb. rewrite negb_true_iff.
  destruct (Qle_bool y x) eqn:E.
  - apply Qle_bool_iff in E. split; [discriminate|].
    intros H. exfalso. now apply (Qlt_not_le x y).
  - split; [|reflexivity]. intros _. apply Qnot_le_lt.
    intros H. apply Qle_bool_iff in H. congruence.
Qed.

Lemma Qltb_ge (x y : Q) : Qltb x y = false <-> y <= x.
Proof.
  unfold Qltb. rewrite negb_false_iff. apply Qle_bool_iff.
Qed.

End PyNumFacts.

(** ** Vocal problems *)

Module VocalProblemFacts.
Import PyStr PyStrFacts PyNum PyNumFacts InstrumentAnalyzer.

Lemma In_if_singleton {A : Type} (b : bool) (x p : A) :
  In p (if b then [x] else []) <-> b = true /\ p = x.
Proof.
  destruct b; cbn; intuition congruence.
Qed.

Lemma In_if_elif {A : Type} (b1 b2 : bool) (x y p : A) :
  In p (if b1 then [x] else if b2 then [y] else []) <->
  (b1 = true /\ p = x) \/ (b1 = false /\ b2 = true /\ p = y).
Proof.
  destruct b1, b2; cbn; intuition congruence.
Qed.

(** The problems discovered, rule by rule. *)
Lemma discover_In (clarity body sibilance crest level : Q) (p : Problem) :
  In p (discover_vocal_problems clarity body sibilance crest level) <->
  (Qltb clarity (-30) = true /\
   p = mkProblem (if Qltb clarity (-35) then critical else important)
         cat_balance problem_clarity (Qabs (clarity + 25)))
  \/ (Qltb (clarity + 8) body = true /\
      p = mkProblem important cat_balance problem_boxiness (body - clarity))
  \/ (Qltb (clarity + 5) sibilance = true /\
      p = mkProblem important cat_balance problem_sibilance
            (sibilance - clarity))
  \/ ((Qltb crest 6 = true /\
       p = mkProblem critical cat_dynamics problem_overcompressed
             (Qabs (crest - 9)))
      \/ (Qltb crest 6 = false /\ Qltb 15 crest = true /\
          p = mkProblem important cat_dynamics problem_too_dynamic
                (crest - 12)))
  \/ ((Qltb level (-8) = true /\
       p = mkProblem important cat_level problem_buried (Qabs (level + 4)))
      \/ (Qltb level (-8) = false /\ Qltb (-1) level = true /\
          p = mkProblem important cat_level problem_too_loud
                (Qabs (level + 4)))).
Proof.
  unfold discover_vocal_problems.
  rewrite !in_app_iff, !In_if_singleton, !In_if_elif. reflexivity.
Qed.

(** The band dict of a vocal stem has the four keys the detection reads. *)
Lemma detect_on_vocal_bands (audio : Stem) (base : Analysis) (vc : Z)
  (sv : pystr) :
  _detect_vocal_problems (band_levels audio vocal_bands) base vc sv =
  Ok (PySort.sort score_before
        (discover_vocal_problems (band_db audio 2000 4000)
           (band_db audio 400 1000) (band_db audio 6000 8000)
           (crest_factor base) (level_vs_mix base))).
Proof. reflexivity. Qed.

Lemma score_before_total (a b : Problem) :
  score_before a b = true \/ score_before b a = true.
Proof.
  unfold score_before. rewrite !Qle_bool_iff.
  destruct (Qlt_le_dec (score a) (score b)) as [H|H]; [right|left];
    [now apply Qlt_le_weak | assumption].
Qed.

Lemma score_before_trans (a b c : Problem) :
  score_before a b = true -> score_before b c = true ->
  score_before a c = true.
Proof.
  unfold score_before. rewrite !Qle_bool_iff. intros H1 H2.
  now apply Qle_trans with (score b).
Qed.

(** C5. On every vocal stem the detection returns a list in which: a clarity
    issue stands exactly when the 2-4 kHz level is below -30, critical below
    -35 and important otherwise; an over-compression issue stands exactly
    when the crest factor is below 6, and it is critical; a boxiness issue
    stands exactly when the body level exceeds the clarity level by more than
    8.  The list is in descending order of score, and the issues of one score
    keep the order in which the rules found them. *)
Theorem vocal_issue_detection (audio : Stem) (base : Analysis) (vc : Z)
  (sv : pystr) :
  let clarity := band_db audio 2000 4000 in
  let body := band_db audio 400 1000 in
  let sibilance := band_db audio 6000 8000 in
  let crest := crest_factor base in
  let found :=
    discover_vocal_problems clarity body sibilance crest (level_vs_mix base) in
  exists problems,
    _detect_vocal_problems (band_levels audio vocal_bands) base vc sv
      = Ok problems
    /\ ((exists p, In p problems /\ problem p = problem_clarity)
        <-> clarity < -30)
    /\ (forall p, In p problems -> problem p = problem_clarity ->
          (clarity < -35 -> p_severity p = critical) /\
          (-35 <= clarity -> p_severity p = important) /\
          score p = Qabs (clarity + 25))
    /\ ((exists p, In p problems /\ problem p = problem_overcompressed)
        <-> crest < 6)
    /\ (forall p, In p problems -> problem p = problem_overcompressed ->
          p_severity p = critical /\ score p = Qabs (crest - 9))
    /\ ((exists p, In p problems /\ problem p = problem_boxiness)
        <-> clarity + 8 < body)
    /\ (forall p, In p problems -> problem p = problem_boxiness ->
          score p = body - clarity)
    /\ StronglySorted (fun a b => score b <= score a) problems
    /\ Permutation found problems
    /\ (forall s,
          filter (fun p => Qeq_bool (score p) s) problems =
          filter (fun p => Qeq_bool (score p) s) found).
Proof.
  cbv zeta. eexists. split; [apply detect_on_vocal_bands|].
  set (clarity := band_db audio 2000 4000).
  set (body := band_db audio 400 1000).
  set (sibilance := band_db audio 6000 8000).
  set (crest := crest_factor base).
  set (level := level_vs_mix base).
  assert (HIn : forall p,
    In p (PySort.sort score_before
            (discover_vocal_problems clarity body sibilance crest level)) <->
    In p (discover_vocal_problems clarity body sibilance crest level)).
  { intros p. apply PySortFacts.sort_In. }
  assert (Hcases : forall p (P : Prop),
    In p (PySort.sort score_before
            (discover_vocal_problems clarity body sibilance crest level)) ->
    (Qltb clarity (-30) = true ->
     p = mkProblem (if Qltb clarity (-35) then critical else important)
           cat_balance problem_clarity (Qabs (clarity + 25)) -> P) ->
    (Qltb (clarity + 8) body = true ->
     p = mkProblem important cat_balance problem_boxiness (body - clarity) ->
     P) ->
    (Qltb crest 6 = true ->
     p = mkProblem critical cat_dynamics problem_overcompressed
           (Qabs (crest - 9)) -> P) ->
    (problem p <> problem_clarity -> problem p <> problem_boxiness ->
     problem p <> problem_overcompressed -> P) -> P).
  { intros p P Hp H1 H2 H3 H4. apply HIn, discover_In in Hp.
    destruct Hp as [[H ->] | [[H ->] | [[H ->] | [[[H ->] | [H [H' ->]]]
                   | [[H ->] | [H [H' ->]]]]]]]; auto;
      apply H4; cbn [problem]; intros E; vm_compute in E; discriminate. }
  split.
  { split.
    - intros [p [Hp Hn]]. apply (Hcases p); auto.
      + intros H _. now apply Qltb_lt.
      + intros _ ->. cbn [problem] in Hn. vm_compute in Hn. discriminate.
      + intros _ ->. cbn [problem] in Hn. vm_compute in Hn. discriminate.
      + intros H _ _. contradiction.
    - intros H.
      exists (mkProblem (if Qltb clarity (-35) then critical else important)
                cat_balance problem_clarity (Qabs (clarity + 25))).
      split; [|reflexivity]. apply HIn, discover_In. left.
      split; [now apply Qltb_lt | reflexivity]. }
  split.
  { intros p Hp Hn. apply (Hcases p); auto.
    - intros _ ->. cbn [p_severity score]. repeat split.
      + intros Hc. apply Qltb_lt in Hc. now rewrite Hc.
      + intros Hc. apply Qltb_ge in Hc. now rewrite Hc.
    - intros _ ->. cbn [problem] in Hn. vm_compute in Hn. discriminate.
    - intros _ ->. cbn [problem] in Hn. vm_compute in Hn. discriminate.
    - intros H _ _. contradiction. }
  split.
  { split.
    - intros [p [Hp Hn]]. apply (Hcases p); auto.
      + intros _ ->. cbn [problem] in Hn. vm_compute in Hn. discriminate.
      + intros _ ->. cbn [problem] in Hn. vm_compute in Hn. discriminate.
      + intros H _. now apply Qltb_lt.
      + intros _ _ H. contradiction.
    - intros H.
      exists (mkProblem critical cat_dynamics problem_overcompressed
                (Qabs (crest - 9))).
      split; [|reflexivity]. apply HIn, discover_In. do 3 right. left. left.
      split; [now apply Qltb_lt | reflexivity]. }
  split.
  { intros p Hp Hn. apply (Hcases p); auto.
    - intros _ ->. cbn [problem] in Hn. vm_compute in Hn. discriminate.
    - intros _ ->. cbn [problem] in Hn. vm_compute in Hn. discriminate.
    - intros _ ->. split; reflexivity.
    - intros _ _ H. contradiction. }
  split.
  { split.
    - intros [p [Hp Hn]]. apply (Hcases p); auto.
      + intros _ ->. cbn [problem] in Hn. vm_compute in Hn. discriminate.
      + intros H _. now apply Qltb_lt.
      + intros _ ->. cbn [problem] in Hn. vm_compute in Hn. discriminate.
      + intros _ H _. contradiction.
    - intros H.
      exists (mkProblem important cat_balance problem_boxiness
                (body - clarity)).
      split; [|reflexivity]. apply HIn, discover_In. right. left.
      split; [now apply Qltb_lt | reflexivity]. }
  split.
  { intros p Hp Hn. apply (Hcases p); auto.
    - intros _ ->. cbn [problem] in Hn. vm_compute in Hn. discriminate.
    - intros _ ->. reflexivity.
    - intros _ ->. cbn [problem] in Hn. vm_compute in Hn. discriminate.
    - intros _ H _. contradiction. }
  split.
  { pose proof (PySortFacts.sort_sorted score_before score_before_total
                  score_before_trans
                  (discover_vocal_problems clarity body sibilance crest level))
      as Hs.
    eapply PySortFacts.StronglySorted_impl; [|exact Hs].
    intros a b Hb. unfold score_before in Hb. now apply Qle_bool_iff. }
  split.
  { apply PySortFacts.sort_perm. }
  intros s. apply PySortFacts.sort_stable.
  intros a b Ha Hb. unfold score_before. apply Qle_bool_iff.
  apply Qeq_bool_iff in Ha, Hb. rewrite Ha, Hb. apply Qle_refl.
Qed.

End VocalProblemFacts.

(** ** Vocal recommendations *)

Module RecommendationFacts.
Import PyStr PyStrFacts PyNum PyNumFacts InstrumentAnalyzer.

Section Generation.
Variable self : Engine.
Variable freq_bands : list (pystr * Q).
Variable trend : option Trend.
Variable venue_capacity : Z.
Variable stage_volume : pystr.

Let step :=
  recommend_step self freq_bands trend venue_capacity stage_volume.
Let rec_for :=
  recommendation_for self freq_bands trend venue_capacity stage_volume.

(** A recommendation in the result was in the list before, or is the one of
    a problem of the loop that the trend test did not skip. *)
Lemma fold_step_origin (ps : list Problem) :
  forall st r,
    In r (fst (fold_left step ps st)) ->
    In r (fst st) \/
    exists p, In p ps /\ skipped_on_trend trend (category p) = false /\
              rec_for p = Some r.
Proof.
  induction ps as [|p ps IH]; intros [recs addr] r H; [now left|].
  cbn [fold_left] in H. apply IH in H. destruct H as [H | [q [Hq [Hs Hr]]]].
  - unfold step, recommend_step in H.
    destruct (skipped_on_trend trend (category p)) eqn:Sk; [now left|].
    destruct (mem (category p) addr); [now left|].
    fold rec_for in H.
    destruct (rec_for p) as [r'|] eqn:R; [|now left].
    cbn [fst] in H. apply in_app_or in H. destruct H as [H | [<- | []]].
    + now left.
    + right. exists p. repeat split; [now left | assumption | assumption].
  - right. exists q. repeat split; [now right | assumption | assumption].
Qed.

Lemma generate_origin (problems : list Problem) (r : Recommendation) :
  In r (_generate_vocal_recommendations self problems freq_bands trend
          venue_capacity stage_volume) ->
  exists p, In p (firstn 3 problems) /\
            skipped_on_trend trend (category p) = false /\
            rec_for p = Some r.
Proof.
  intros H. apply fold_step_origin in H. destruct H as [[] | H]. exact H.
Qed.

(** The list only grows along the loop. *)
Lemma fold_step_keeps (ps : list Problem) :
  forall st, exists more, fst (fold_left step ps st) = fst st ++ more.
Proof.
  induction ps as [|p ps IH]; intros [recs addr]; cbn [fold_left].
  - exists []. now rewrite app_nil_r.
  - destruct (IH (step (recs, addr) p)) as [more Hm]. rewrite Hm.
    unfold step at 1, recommend_step.
    destruct (skipped_on_trend trend (category p)); [now exists more|].
    destruct (mem (category p) addr); [now exists more|].
    destruct (recommendation_for _ _ _ _ _ p) as [r'|]; [|now exists more].
    cbn [fst]. exists ([r'] ++ more). now rewrite app_assoc.
Qed.

(** The first problem of the list gets its recommendation unless the trend
    test skips it. *)
Lemma generate_head (p : Problem) (rest : list Problem) (r : Recommendation) :
  skipped_on_trend trend (category p) = false ->
  rec_for p = Some r ->
  exists more,
    _generate_vocal_recommendations self (p :: rest) freq_bands trend
      venue_capacity stage_volume = r :: more.
Proof.
  intros Hs Hr. unfold _generate_vocal_recommendations.
  change (firstn 3 (p :: rest)) with (p :: firstn 2 rest).
  cbn [fold_left].
  change (recommend_step self freq_bands trend venue_capacity stage_volume)
    with step.
  destruct (fold_step_keeps (firstn 2 rest) (step ([], []) p)) as [more Hm].
  rewrite Hm. unfold step at 1, recommend_step. rewrite Hs.
  cbn [mem existsb]. fold rec_for. rewrite Hr. cbn. now exists more.
Qed.

End Generation.

(** The trend test reads [clarity_change] and the category, nothing else. *)
Lemma skipped_on_trend_iff (trend : option Trend) (cat : pystr) :
  skipped_on_trend trend cat = true <->
  exists t c, trend = Some t /\ cat = cat_balance /\
              clarity_change t = Some c /\ 2 < c.
Proof.
  unfold skipped_on_trend. destruct trend as [t|].
  - rewrite andb_true_iff, eqb_eq, Qltb_lt. split.
    + intros [Hc Hlt]. destruct (clarity_change t) as [c|] eqn:E.
      * exists t, c. repeat split; assumption.
      * exfalso. revert Hlt. apply Qle_not_lt. discriminate.
    + intros [t' [c [[= <-] [Hc [E Hlt]]]]]. rewrite E. now split.
  - split; [discriminate|]. intros [t [c [H _]]]. discriminate.
Qed.

(** C9. With a console profile whose [has_de_esser] is false, every
    recommendation of the vocal generation titled for sibilance offers
    exactly the manual EQ cut and the microphone technique, and none of its
    methods or steps mentions a de-esser. *)
Theorem no_de_esser_without_capability (self : Engine) (specs : MixerSpecs)
  (problems : list Problem) (freq_bands : list (pystr * Q))
  (trend : option Trend) (venue_capacity : Z) (stage_volume : pystr)
  (r : Recommendation) :
  mixer_specs self = Some specs ->
  has_de_esser specs = Some false ->
  In r (_generate_vocal_recommendations self problems freq_bands trend
          venue_capacity stage_volume) ->
  title r = title_sibilance ->
  map method (approaches r) = [method_manual_eq; method_microphone]
  /\ ~ In method_de_esser (map method (approaches r))
  /\ Forall (fun a =>
               contains (u "De-Esser") (method a) = false /\
               Forall (fun s => contains (u "De-Esser") s = false) (steps a))
            (approaches r).
Proof.
  intros Hm Hd Hr Ht. apply generate_origin in Hr.
  destruct Hr as [p [_ [_ Hp]]]. unfold recommendation_for in Hp.
  destruct (contains (u "明瞭度") (problem p)).
  { injection Hp as <-. cbn [title] in Ht. vm_compute in Ht. discriminate. }
  destruct (contains (u "こもり") (problem p)).
  { injection Hp as <-. cbn [title] in Ht. vm_compute in Ht. discriminate. }
  destruct (contains (u "歯擦音") (problem p)).
  - injection Hp as <-. cbn [approaches]. unfold sibilance_approaches.
    rewrite Hm, Hd. cbn [truthy app map method].
    split; [reflexivity|]. split.
    + intros [H | [H | []]]; vm_compute in H; discriminate.
    + repeat constructor.
  - destruct (contains (u "ダイナミクス") (category p)); [|discriminate].
    injection Hp as <-. cbn [title] in Ht. vm_compute in Ht. discriminate.
Qed.

Lemma no_de_esser_without_capability_witness :
  let recs :=
    _generate_vocal_recommendations Samples.sibilant_session
      [mkProblem important cat_balance problem_sibilance 8]
      (band_levels Samples.sibilant_vocal vocal_bands) None 150
      (u "medium") in
  let r :=
    mkRec important title_sibilance
      (sibilance_approaches Samples.sibilant_session) [] None None in
  recs = [r]
  /\ map method (approaches r) = [method_manual_eq; method_microphone]
  /\ ~ In method_de_esser (map method (approaches r))
  /\ Forall (fun a =>
               contains (u "De-Esser") (method a) = false /\
               Forall (fun s => contains (u "De-Esser") s = false) (steps a))
            (approaches r).
Proof.
  cbv zeta. split; [reflexivity|].
  apply (@no_de_esser_without_capability Samples.sibilant_session Samples.x32
           [mkProblem important cat_balance problem_sibilance 8]
           (band_levels Samples.sibilant_vocal vocal_bands) None 150%Z
           (u "medium")).
  - reflexivity.
  - reflexivity.
  - left. reflexivity.
  - reflexivity.
Defined.

End RecommendationFacts.

(** ** Trend *)

Module TrendFacts.
Import PyStr PyStrFacts PyNum PyNumFacts InstrumentAnalyzer.
Import RecommendationFacts DiagnosisSpec.

Lemma status_of_change (current : Analysis) (past : AudioDatabase.PastDiagnosis) :
  let t := _calculate_trend current past in
  (status t = improving <-> 2 < rms_change t)
  /\ (status t = degrading <-> rms_change t < -2)
  /\ (status t = stable <-> Qabs (rms_change t) <= 2).
Proof.
  cbv zeta. unfold _calculate_trend. cbn [status rms_change].
  set (c := rms_db current - _).
  assert (Habs : (Qabs c <= 2 <-> -2 <= c /\ c <= 2) /\
                 (2 < Qabs c <-> c < -2 \/ 2 < c)).
  { apply Qabs_case; intros; Lqa.lra. }
  destruct Habs as [Hin Hout].
  destruct (Qltb 2 (Qabs c)) eqn:E1.
  - apply Qltb_lt in E1. apply Hout in E1.
    destruct (Qltb 0 c) eqn:E2.
    + apply Qltb_lt in E2.
      split; [|split]; split; intros H; try apply Hin in H;
        first [ discriminate | reflexivity | Lqa.lra ].
    + apply Qltb_ge in E2.
      split; [|split]; split; intros H; try apply Hin in H;
        first [ discriminate | reflexivity | Lqa.lra ].
  - apply Qltb_ge in E1. pose proof E1 as E1'. apply Hin in E1'.
    split; [|split]; split; intros H;
      first [ discriminate | reflexivity | assumption | Lqa.lra ].
Qed.

(** The rules as the code has them. The trend status follows the RMS change
    against the stored diagnosis: improving above +2 dB, degrading below -2 dB, stable
    otherwise (also when the stored diagnosis has no RMS).  The generation
    skips a problem exactly on the trend test, which holds when the trend
    record carries a clarity change above 2 and the category is the
    frequency balance: every recommendation generated belongs to a problem
    among the first three that the test lets pass, and the first problem is
    answered whenever the test lets it pass, whatever the status. *)
Theorem trend_status_and_skip_rule :
  (forall current past r,
     AudioDatabase.p_rms_db past = Some r ->
     let t := _calculate_trend current past in
     rms_change t = rms_db current - r
     /\ (status t = improving <-> 2 < rms_db current - r)
     /\ (status t = degrading <-> rms_db current - r < -2)
     /\ (status t = stable <-> Qabs (rms_db current - r) <= 2))
  /\ (forall current past,
        AudioDatabase.p_rms_db past = None ->
        status (_calculate_trend current past) = stable)
  /\ (forall trend cat,
        skipped_on_trend trend cat = true <->
        exists t c, trend = Some t /\ cat = cat_balance /\
                    clarity_change t = Some c /\ 2 < c)
  /\ (forall self problems freq_bands trend venue_capacity stage_volume r,
        In r (_generate_vocal_recommendations self problems freq_bands trend
                venue_capacity stage_volume) ->
        exists p, In p (firstn 3 problems) /\
                  skipped_on_trend trend (category p) = false /\
                  recommendation_for self freq_bands trend venue_capacity
                    stage_volume p = Some r)
  /\ (forall self p rest freq_bands trend venue_capacity stage_volume r,
        skipped_on_trend trend (category p) = false ->
        recommendation_for self freq_bands trend venue_capacity stage_volume p
          = Some r ->
        exists more,
          _generate_vocal_recommendations self (p :: rest) freq_bands trend
            venue_capacity stage_volume = r :: more).
Proof.
  split.
  { intros current past r Hr. cbv zeta.
    pose proof (status_of_change current past) as H. cbv zeta in H.
    assert (E : rms_change (_calculate_trend current past) = rms_db current - r).
    { unfold _calculate_trend. cbn [rms_change]. now rewrite Hr. }
    rewrite E in H. split; [exact E | exact H]. }
  split.
  { intros current past Hr.
    apply (status_of_change current past).
    unfold _calculate_trend. cbn [rms_change]. rewrite Hr.
    setoid_replace (rms_db current - rms_db current) with 0 by ring.
    discriminate. }
  split; [apply skipped_on_trend_iff|].
  split.
  - intros self problems freq_bands trend vc sv r. apply generate_origin.
  - intros self p rest freq_bands trend vc sv r. apply generate_head.
Qed.

(** The status alone skips nothing: the vocal stem is 4 dB louder than in
    the stored diagnosis, so its trend status is improving, and the
    recommendation for its weak 2-4 kHz band is generated all the same. *)
Lemma improving_trend_still_recommends :
  exists a,
    analyze_instrument Samples.vocal_session (u "vocal") Samples.weak_vocal
      150 (u "medium") = Ok a
    /\ option_map status (trend a) = Some improving
    /\ map title (recommendations a) = [title_clarity]
    /\ ~ improving_skips_generation a.
Proof.
  eexists. split; [lazy; reflexivity|].
  split; [reflexivity|]. split; [reflexivity|].
  intros H. specialize (H _ eq_refl eq_refl). discriminate.
Qed.

End TrendFacts.

(** ** The dispatch of the per-stem analysis *)

Module DispatchFacts.
Import PyStr PyStrFacts PyNum PyNumFacts InstrumentAnalyzer.

(** The dispatch keeps the trend of the analysis it is given. *)
Lemma dispatch_keeps_trend (self : Engine) (name : pystr) (audio : Stem)
  (vc : Z) (sv : pystr) (a a' : Analysis) :
  dispatch self name audio vc sv a = Ok a' -> trend a' = trend a.
Proof.
  unfold dispatch.
  repeat match goal with
         | |- context [if ?b then _ else _] => destruct b
         end;
    try (intros [= <-]; reflexivity);
    match goal with
    | |- (d <- ?c ;; _) = _ -> _ =>
        destruct c as [d|e]; cbn [bind]; [|discriminate];
        intros [= <-]; reflexivity
    end.
Qed.

(** The trend of a diagnosis never carries a clarity change: when
    [_calculate_trend] runs, the analysis has no [freq_bands] yet. *)
Lemma diagnosis_trend_has_no_clarity_change (self : Engine) (name : pystr)
  (audio : Stem) (vc : Z) (sv : pystr) (a : Analysis) (t : Trend) :
  analyze_instrument self name audio vc sv = Ok a ->
  trend a = Some t -> clarity_change t = None.
Proof.
  unfold analyze_instrument. intros H Ht.
  apply dispatch_keeps_trend in H. rewrite H in Ht.
  destruct (_find_past_analysis (past_analyses self) name) as [past|];
    cbn [set_trend trend] in Ht; [|discriminate].
  injection Ht as <-. unfold _calculate_trend. cbn [freq_bands clarity_change].
  now destruct (AudioDatabase.p_freq_bands past).
Qed.

Example vocal_and_kick_are_diagnosed :
  exists vocal kick,
    analyze_all Samples.vocal_kick_session 150 (u "medium")
      = Ok [(u "vocal", vocal); (u "kick", kick)]
    /\ map title (recommendations vocal) = [title_clarity]
    /\ map fst (match freq_bands kick with Some b => b | None => [] end)
       = [u "subsonic"; u "fundamental"; u "attack"; u "body"; u "boxiness";
          u "click"].
Proof.
  do 2 eexists. split; [vm_compute; reflexivity|].
  split; reflexivity.
Qed.

(** C1, on the code. For the tags snare, bass, hihat, tom, e_guitar,
    a_guitar, keyboard and synth the per-stem analysis raises [TypeError]:
    the call passes one argument more than the method takes.  So does
    [analyze_all] on a session with a snare stem.  The vocal analysis
    returns; the kick analysis returns unless no PA profile is known and the
    20-40 Hz level is above -45 dB, where it raises [AttributeError]. *)
Theorem dispatch_raises_on_extra_argument :
  (forall self name audio venue_capacity stage_volume,
     In name [u "snare"; u "bass"; u "hihat"; u "tom"; u "e_guitar";
              u "a_guitar"; u "keyboard"; u "synth"] ->
     analyze_instrument self name audio venue_capacity stage_volume
       = Raise TypeError)
  /\ analyze_all Samples.snare_session 150 (u "medium") = Raise TypeError
  /\ (forall self audio venue_capacity stage_volume,
        exists a,
          analyze_instrument self (u "vocal") audio venue_capacity
            stage_volume = Ok a)
  /\ (forall self audio venue_capacity stage_volume,
        pa_specs self = None -> -45 < band_db audio 20 40 ->
        analyze_instrument self (u "kick") audio venue_capacity stage_volume
          = Raise AttributeError)
  /\ (forall self audio venue_capacity stage_volume,
        pa_specs self <> None \/ band_db audio 20 40 <= -45 ->
        exists a,
          analyze_instrument self (u "kick") audio venue_capacity
            stage_volume = Ok a).
Proof.
  split.
  { intros self name audio vc sv H. cbn [In] in H.
    repeat (destruct H as [<- | H]; [vm_compute; reflexivity|]).
    destruct H. }
  split; [vm_compute; reflexivity|].
  split.
  { intros self audio vc sv. unfold analyze_instrument.
    change (dispatch self (u "vocal") audio vc sv ?a)
      with (d <- call sig_analyze_vocal
                   ["audio"; "spectrum"; "freqs"; "venue_capacity";
                    "stage_volume"; "analysis"]
                   (_analyze_vocal self audio vc sv a) ;; Ok (update a d)).
    unfold call. cbn [List.length Nat.eqb sig_analyze_vocal].
    unfold _analyze_vocal.
    rewrite VocalProblemFacts.detect_on_vocal_bands.
    cbn [bind]. eexists. reflexivity. }
  split.
  - intros self audio vc sv Hpa Hsub. apply Qltb_lt in Hsub.
    unfold analyze_instrument.
    change (dispatch self (u "kick") audio vc sv ?a)
      with (d <- call sig_analyze_kick
                   ["audio"; "spectrum"; "freqs"; "analysis"]
                   (_analyze_kick self audio a) ;; Ok (update a d)).
    unfold call. cbn [List.length Nat.eqb sig_analyze_kick].
    unfold _analyze_kick. rewrite Hsub. unfold kick_hpf_recommendation.
    rewrite Hpa. reflexivity.
  - intros self audio vc sv H.
    unfold analyze_instrument.
    change (dispatch self (u "kick") audio vc sv ?a)
      with (d <- call sig_analyze_kick
                   ["audio"; "spectrum"; "freqs"; "analysis"]
                   (_analyze_kick self audio a) ;; Ok (update a d)).
    unfold call. cbn [List.length Nat.eqb sig_analyze_kick].
    unfold _analyze_kick, kick_hpf_recommendation.
    destruct (Qltb (-45) (band_db audio 20 40)) eqn:E.
    + destruct H as [H | H].
      * destruct (pa_specs self); [|contradiction]. eexists. reflexivity.
      * apply Qltb_lt in E. exfalso. now apply (Qlt_not_le _ _ E).
    + eexists. reflexivity.
Qed.

End DispatchFacts.

(** ** The skip of improving trends *)

Module TrendSkipFacts.
Import PyStr PyStrFacts PyNum PyNumFacts InstrumentAnalyzer.
Import DiagnosisSpec.

(** C3, on the code. The trend status follows the RMS change as stated:
    improving above +2 dB, degrading below -2 dB, stable otherwise.  The
    skip of improving trends, which the generation announces and tests on
    the clarity change of the trend, never happens in a diagnosis:
    [_calculate_trend] runs before the band levels are put into the
    analysis, so the trend of a diagnosis has no clarity change and the
    test fails for every category.  For the vocal that is 4 dB louder and
    9 dB clearer in the 2-4 kHz band than in the stored diagnosis, the
    status is improving and the clarity recommendation is generated all the
    same. *)
Theorem improving_trend_is_never_skipped :
  (forall current past r,
     AudioDatabase.p_rms_db past = Some r ->
     (status (_calculate_trend current past) = improving
      <-> 2 < rms_db current - r)
     /\ (status (_calculate_trend current past) = degrading
         <-> rms_db current - r < -2)
     /\ (status (_calculate_trend current past) = stable
         <-> Qabs (rms_db current - r) <= 2))
  /\ (forall self name audio venue_capacity stage_volume a t,
        analyze_instrument self name audio venue_capacity stage_volume
          = Ok a ->
        trend a = Some t ->
        clarity_change t = None
        /\ forall cat, skipped_on_trend (trend a) cat = false)
  /\ (exists a t past now before,
        analyze_instrument TrendSamples.clearer_vocal_session (u "vocal")
          Samples.weak_vocal 150 (u "medium") = Ok a
        /\ _find_past_analysis
             (past_analyses TrendSamples.clearer_vocal_session) (u "vocal")
           = Some past
        /\ trend a = Some t
        /\ status t = improving
        /\ option_map (get_default (u "clarity") 0) (freq_bands a)
           = Some now
        /\ option_map (get_default (u "clarity") 0)
             (AudioDatabase.p_freq_bands past)
           = Some before
        /\ 2 < now - before
        /\ map title (recommendations a) = [title_clarity]
        /\ ~ improving_skips_generation a).
Proof.
  split.
  { intros current past r Hr.
    pose proof (TrendFacts.status_of_change current past) as H.
    cbv zeta in H.
    assert (E : rms_change (_calculate_trend current past)
                = rms_db current - r).
    { unfold _calculate_trend. cbn [rms_change]. now rewrite Hr. }
    rewrite E in H. exact H. }
  split.
  { intros self name audio vc sv a t Ha Ht.
    pose proof (DispatchFacts.diagnosis_trend_has_no_clarity_change
                  _ _ _ _ _ Ha Ht) as Hc.
    split; [exact Hc|]. intros cat. rewrite Ht.
    unfold skipped_on_trend. rewrite Hc.
    assert (E : Qltb 2 0 = false) by reflexivity.
    rewrite E. apply andb_false_r. }
  destruct (analyze_instrument TrendSamples.clearer_vocal_session (u "vocal")
              Samples.weak_vocal 150 (u "medium")) as [a|e] eqn:Ha;
    [|vm_compute in Ha; discriminate].
  vm_compute in Ha. injection Ha as <-.
  do 5 eexists.
  split; [reflexivity|].
  split; [reflexivity|].
  split; [reflexivity|].
  split; [reflexivity|].
  split; [reflexivity|].
  split; [reflexivity|].
  split; [reflexivity|].
  split; [reflexivity|].
  intros H. specialize (H _ eq_refl eq_refl). discriminate.
Qed.

End TrendSkipFacts.

(** ** From the line-up text to the diagnoses *)

Module PipelineFacts.
Import PyStr PyStrFacts PyNum PyNumFacts InstrumentSeparator.
Import InstrumentAnalyzer Separation.

Lemma get_none_iff {V : Type} (k : pystr) (d : list (pystr * V)) :
  AudioDatabase.get k d = None <-> ~ In k (map fst d).
Proof.
  induction d as [|[k' v] d IH]; cbn; [tauto|].
  destruct (eqb k k') eqn:E.
  - apply eqb_eq in E. subst. split; [discriminate | tauto].
  - rewrite IH. split.
    + intros H [H' | H']; [|tauto]. subst. now rewrite eqb_refl in E.
    + tauto.
Qed.

Lemma setitem_fresh_keys {V : Type} (k : pystr) (v : V) (d : list (pystr * V)) :
  ~ In k (map fst d) -> map fst (setitem k v d) = map fst d ++ [k].
Proof.
  induction d as [|[k' v'] d IH]; cbn; [reflexivity|].
  intros H. destruct (eqb k k') eqn:E.
  - apply eqb_eq in E. subst. tauto.
  - cbn. rewrite IH; tauto.
Qed.

Lemma setitem_same_keys {V : Type} (k : pystr) (v : V) (d : list (pystr * V)) :
  In k (map fst d) -> map fst (setitem k v d) = map fst d.
Proof.
  induction d as [|[k' v'] d IH]; cbn; [tauto|].
  intros H. destruct (eqb k k') eqn:E; [reflexivity|].
  cbn. rewrite IH; [reflexivity|].
  destruct H as [H | H]; [|assumption]. subst. now rewrite eqb_refl in E.
Qed.

Lemma setitem_get {V : Type} (k : pystr) (v : V) (d : list (pystr * V)) :
  AudioDatabase.get k (setitem k v d) = Some v.
Proof.
  induction d as [|[k' v'] d IH]; cbn.
  - now rewrite eqb_refl.
  - destruct (eqb k k') eqn:E; cbn; rewrite E; [reflexivity | exact IH].
Qed.

Section Stems.
Variable A : Type.
Variable x_vocal x_kick x_snare x_hihat x_tom x_bass : A.
Variable x_e_guitar x_a_guitar x_keyboard x_synth : A.

Let step :=
  separate_step x_vocal x_kick x_snare x_hihat x_tom x_bass x_e_guitar
    x_a_guitar x_keyboard x_synth.

(** On a tag of the vocabulary one iteration stores a stem under the tag. *)
Lemma separate_step_canonical (stems : list (pystr * A)) (tag : pystr) :
  In tag canonical_tags -> exists v, step stems tag = setitem tag v stems.
Proof.
  intros H. cbn [canonical_tags In] in H.
  repeat (destruct H as [<- | H]; [eexists; reflexivity|]).
  destruct H.
Qed.

Lemma separate_fold_keys (instruments : list pystr) :
  forall stems,
    NoDup (map fst stems ++ instruments) ->
    incl instruments canonical_tags ->
    map fst (fold_left step instruments stems) = map fst stems ++ instruments.
Proof.
  induction instruments as [|tag rest IH]; intros stems Hnd Hin; cbn.
  - now rewrite app_nil_r.
  - destruct (@separate_step_canonical stems tag) as [v Hv].
    { apply Hin. now left. }
    rewrite Hv.
    assert (Hfresh : ~ In tag (map fst stems)).
    { apply NoDup_remove_2 in Hnd. intros H. apply Hnd.
      apply in_or_app. now left. }
    rewrite IH.
    + rewrite setitem_fresh_keys by assumption.
      now rewrite <- app_assoc.
    + rewrite setitem_fresh_keys by assumption.
      rewrite <- app_assoc. exact Hnd.
    + intros x Hx. apply Hin. now right.
Qed.

(** X1. The stems that [separate] returns for a parsed line-up are keyed by
    the parsed tags, one stem per tag, in the order of the tags. *)
Theorem separate_keys_are_parsed_tags (text : pystr) :
  map fst
    (separate x_vocal x_kick x_snare x_hihat x_tom x_bass x_e_guitar
       x_a_guitar x_keyboard x_synth (_parse_lineup text))
  = _parse_lineup text.
Proof.
  unfold separate. fold step.
  apply (@separate_fold_keys (_parse_lineup text) []).
  - cbn. apply InstrumentSeparatorFacts.fold_parse_NoDup. constructor.
  - apply InstrumentSeparatorFacts.fold_parse_incl.
    + apply InstrumentSeparatorFacts.mapping_values_canonical.
    + intros x [].
Qed.

End Stems.

(** The eight tags whose call passes one argument too many. *)
Lemma unsupported_tag_raises (self : Engine) (name : pystr) (audio : Stem)
  (vc : Z) (sv : pystr) :
  In name unsupported_tags ->
  analyze_instrument self name audio vc sv = Raise TypeError.
Proof.
  intros H. cbn [unsupported_tags In] in H.
  repeat (destruct H as [<- | H]; [vm_compute; reflexivity|]).
  destruct H.
Qed.

Lemma analyze_stems_raises (self : Engine) (vc : Z) (sv : pystr)
  (todo : list (pystr * Stem)) :
  forall analyses,
    (exists name audio,
        In (name, audio) todo /\ In name unsupported_tags /\
        (0 < samples audio)%nat) ->
    exists e, analyze_stems self todo vc sv analyses = Raise e.
Proof.
  induction todo as [|[n a] todo IH]; intros analyses [name [audio [Hin [Hu Hs]]]].
  - destruct Hin.
  - cbn [analyze_stems]. destruct Hin as [[= -> ->] | Hin].
    + apply Nat.ltb_lt in Hs. rewrite Hs.
      rewrite (@unsupported_tag_raises self name audio vc sv Hu).
      now exists TypeError.
    + destruct (0 <? samples a)%nat.
      * destruct (analyze_instrument self n a vc sv) as [x|e]; cbn [bind].
        -- apply IH. now exists name, audio.
        -- now exists e.
      * apply IH. now exists name, audio.
Qed.

(** X2. When the line-up text names an instrument other than vocal and kick
    and no stem is empty, [analyze_all] on the separated stems raises: no
    diagnosis is returned for any instrument of the session. *)
Theorem lineup_beyond_vocal_and_kick_fails (self : Engine) (text : pystr)
  (x_vocal x_kick x_snare x_hihat x_tom x_bass : Stem)
  (x_e_guitar x_a_guitar x_keyboard x_synth : Stem)
  (vc : Z) (sv : pystr) (tag : pystr) :
  stems self =
    separate x_vocal x_kick x_snare x_hihat x_tom x_bass x_e_guitar
      x_a_guitar x_keyboard x_synth (_parse_lineup text) ->
  (forall name audio, In (name, audio) (stems self) ->
     (0 < samples audio)%nat) ->
  In tag (_parse_lineup text) ->
  In tag unsupported_tags ->
  exists e, analyze_all self vc sv = Raise e.
Proof.
  intros Hstems Hfull Htag Hu. unfold analyze_all.
  assert (Hkey : In tag (map fst (stems self))).
  { rewrite Hstems, separate_keys_are_parsed_tags. exact Htag. }
  apply in_map_iff in Hkey. destruct Hkey as [[n a] [Hn Hin]].
  cbn [fst] in Hn. subst n.
  destruct (@analyze_stems_raises self vc sv (stems self) []) as [e He].
  { exists tag, a. repeat split; [assumption | assumption |].
    now apply (Hfull tag). }
  rewrite He. now exists e.
Qed.

Lemma lineup_beyond_vocal_and_kick_fails_witness :
  exists e,
    analyze_all PipelineSamples.vocal_snare_session 150 (u "medium") = Raise e.
Proof.
  apply (@lineup_beyond_vocal_and_kick_fails
           PipelineSamples.vocal_snare_session (u "ボーカル、スネア")
           Samples.weak_vocal Samples.drum_hit Samples.drum_hit
           Samples.drum_hit Samples.drum_hit Samples.drum_hit
           Samples.drum_hit Samples.drum_hit Samples.drum_hit
           Samples.drum_hit 150%Z (u "medium") (u "snare")).
  - reflexivity.
  - intros name audio H. vm_compute in H.
    destruct H as [[= <- <-] | [[= <- <-] | []]]; vm_compute; lia.
  - vm_compute. right. left. reflexivity.
  - left. reflexivity.
Defined.

End PipelineFacts.

(** ** What a run of the diagnostic engine returns *)

Module EngineFacts.
Import PyStr PyStrFacts PyNum PyNumFacts InstrumentAnalyzer Separation.
Import PipelineFacts.

(** The dispatch returns the analysis it was given, updated with the detail
    of the instrument or untouched. *)
Lemma dispatch_result (self : Engine) (name : pystr) (audio : Stem)
  (vc : Z) (sv : pystr) (a a' : Analysis) :
  dispatch self name audio vc sv a = Ok a' ->
  a' = a \/ exists d, a' = update a d.
Proof.
  unfold dispatch.
  repeat match goal with
         | |- context [if ?b then _ else _] => destruct b
         end;
    try (intros [= <-]; now left);
    match goal with
    | |- (d <- ?c ;; _) = _ -> _ =>
        destruct c as [d|e]; cbn [bind]; [|discriminate];
        intros [= <-]; right; now exists d
    end.
Qed.

Lemma analyze_instrument_base (self : Engine) (n : pystr) (audio : Stem)
  (vc : Z) (sv : pystr) (a : Analysis) :
  analyze_instrument self n audio vc sv = Ok a ->
  name a = n /\ rms_db a = stem_rms_db audio /\
  peak_db a = stem_peak_db audio /\
  crest_factor a = stem_peak_db audio - stem_rms_db audio /\
  level_vs_mix a = stem_rms_db audio - overall_rms self.
Proof.
  unfold analyze_instrument. intros H. apply dispatch_result in H.
  destruct (_find_past_analysis (past_analyses self) n);
    destruct H as [-> | [d ->]]; cbn; repeat split.
Qed.

Lemma supported_if_analyzed (self : Engine) (n : pystr) (audio : Stem)
  (vc : Z) (sv : pystr) (a : Analysis) :
  analyze_instrument self n audio vc sv = Ok a -> ~ In n unsupported_tags.
Proof.
  intros H Hu. rewrite (@unsupported_tag_raises self n audio vc sv Hu) in H.
  discriminate.
Qed.

Lemma setitem_fresh {V : Type} (k : pystr) (v : V) (d : list (pystr * V)) :
  ~ In k (map fst d) -> setitem k v d = d ++ [(k, v)].
Proof.
  induction d as [|[k' v'] d IH]; cbn; [reflexivity|].
  intros H. destruct (eqb k k') eqn:E.
  - apply eqb_eq in E. subst. tauto.
  - rewrite IH; tauto.
Qed.

(** The loop over the stems, for a dict of stems (no key twice): it adds one
    entry per non-empty stem, in order, each the analysis of that stem. *)
Lemma analyze_stems_entries (self : Engine) (vc : Z) (sv : pystr)
  (todo : list (pystr * Stem)) :
  forall acc res,
    NoDup (map fst acc ++ map fst todo) ->
    analyze_stems self todo vc sv acc = Ok res ->
    exists added,
      res = acc ++ added /\
      map fst added =
        map fst (filter (fun s => (0 <? samples (snd s))%nat) todo) /\
      forall k a, In (k, a) added ->
        exists audio, In (k, audio) todo /\
                      analyze_instrument self k audio vc sv = Ok a.
Proof.
  induction todo as [|[n audio] todo IH]; intros acc res Hnd H.
  - cbn in H. injection H as <-. exists []. rewrite app_nil_r.
    repeat split. intros k a [].
  - cbn [analyze_stems] in H. cbn [filter snd].
    assert (Hfresh : ~ In n (map fst acc)).
    { cbn in Hnd. apply NoDup_remove_2 in Hnd. intros Hin. apply Hnd.
      apply in_or_app. now left. }
    destruct (0 <? samples audio)%nat.
    + destruct (analyze_instrument self n audio vc sv) as [a|e] eqn:Ea;
        cbn [bind] in H; [|discriminate].
      rewrite (@setitem_fresh _ n a acc Hfresh) in H.
      apply IH in H.
      * destruct H as [added [-> [Hk Ha]]].
        exists ((n, a) :: added). rewrite <- app_assoc. cbn.
        repeat split; [now rewrite Hk|].
        intros k a' [[= <- <-] | Hin].
        -- exists audio. split; [now left | assumption].
        -- destruct (Ha k a' Hin) as [au [Hau He]].
           exists au. split; [now right | assumption].
      * rewrite map_app. cbn. rewrite <- app_assoc. exact Hnd.
    + apply IH in H.
      * destruct H as [added [-> [Hk Ha]]]. exists added.
        repeat split; [assumption|].
        intros k a' Hin. destruct (Ha k a' Hin) as [au [Hau He]].
        exists au. split; [now right | assumption].
      * cbn in Hnd. apply NoDup_remove_1 in Hnd. exact Hnd.
Qed.

(** Whatever the loop returns holds no key of a tag that raises. *)
Lemma analyze_stems_supported (self : Engine) (vc : Z) (sv : pystr)
  (todo : list (pystr * Stem)) :
  forall acc res,
    analyze_stems self todo vc sv acc = Ok res ->
    forall k, In k (map fst res) ->
              In k (map fst acc) \/ ~ In k unsupported_tags.
Proof.
  induction todo as [|[n audio] todo IH]; intros acc res H k Hk.
  - cbn in H. injection H as <-. now left.
  - cbn [analyze_stems] in H. destruct (0 <? samples audio)%nat.
    + destruct (analyze_instrument self n audio vc sv) as [a|e] eqn:Ea;
        cbn [bind] in H; [|discriminate].
      destruct (IH _ _ H k Hk) as [Hin | Hs]; [|now right].
      destruct (in_dec (list_eq_dec N.eq_dec) n (map fst acc)) as [Hold|Hnew].
      * rewrite (@setitem_same_keys _ n a acc Hold) in Hin. now left.
      * rewrite (@setitem_fresh_keys _ n a acc Hnew) in Hin.
        apply in_app_or in Hin. destruct Hin as [Hin | [<- | []]];
          [now left|].
        right. eapply supported_if_analyzed. exact Ea.
    + eapply IH; eassumption.
Qed.

Lemma relationships_idle (analyses : list (pystr * Analysis)) :
  AudioDatabase.get (u "bass") analyses = None ->
  AudioDatabase.get (u "e_guitar") analyses = None ->
  _analyze_relationships analyses = analyses.
Proof.
  intros Hb Hg. unfold _analyze_relationships. rewrite Hb.
  destruct (AudioDatabase.get (u "kick") analyses); rewrite Hg;
    destruct (AudioDatabase.get (u "vocal") analyses); reflexivity.
Qed.

(** X3. A run of [analyze_all] that returns has applied no rule between
    instruments: the kick-bass and the vocal-guitar rules need a bass or an
    electric guitar diagnosis, and those analyses raise.  The result is what
    the loop over the stems built. *)
Theorem cross_instrument_rules_never_apply (self : Engine) (vc : Z)
  (sv : pystr) (res : list (pystr * Analysis)) :
  analyze_all self vc sv = Ok res ->
  analyze_stems self (stems self) vc sv [] = Ok res
  /\ AudioDatabase.get (u "bass") res = None
  /\ AudioDatabase.get (u "e_guitar") res = None.
Proof.
  unfold analyze_all. intros H.
  destruct (analyze_stems self (stems self) vc sv []) as [analyses|e] eqn:E;
    cbn [bind] in H; [|discriminate].
  assert (Hb : AudioDatabase.get (u "bass") analyses = None).
  { apply get_none_iff. intros Hin.
    destruct (@analyze_stems_supported self vc sv (stems self) [] analyses E _ Hin)
      as [[] | Hs].
    apply Hs. vm_compute. tauto. }
  assert (Hg : AudioDatabase.get (u "e_guitar") analyses = None).
  { apply get_none_iff. intros Hin.
    destruct (@analyze_stems_supported self vc sv (stems self) [] analyses E _ Hin)
      as [[] | Hs].
    apply Hs. vm_compute. tauto. }
  rewrite (@relationships_idle analyses Hb Hg) in H. injection H as <-.
  repeat split; assumption.
Qed.

Lemma cross_instrument_rules_never_apply_witness :
  exists res,
    analyze_all Samples.vocal_kick_session 150 (u "medium") = Ok res
    /\ analyze_stems Samples.vocal_kick_session
         (stems Samples.vocal_kick_session) 150 (u "medium") [] = Ok res
    /\ AudioDatabase.get (u "bass") res = None
    /\ AudioDatabase.get (u "e_guitar") res = None.
Proof.
  destruct (analyze_all Samples.vocal_kick_session 150 (u "medium"))
    as [res|e] eqn:E; [|vm_compute in E; discriminate].
  exists res. split; [reflexivity|].
  exact (@cross_instrument_rules_never_apply Samples.vocal_kick_session
           150%Z (u "medium") res E).
Defined.

(** X4. For a dict of stems, a run of [analyze_all] that returns gives one
    diagnosis per non-empty stem, under the key of the stem and in the order
    of the stems; each diagnosis carries its key as name, the levels of its
    stem, the crest factor peak - RMS and the level against the mix
    RMS - overall RMS. *)
Theorem analyze_all_entries (self : Engine) (vc : Z) (sv : pystr)
  (res : list (pystr * Analysis)) :
  NoDup (map fst (stems self)) ->
  analyze_all self vc sv = Ok res ->
  map fst res =
    map fst (filter (fun s => (0 <? samples (snd s))%nat) (stems self))
  /\ forall k a, In (k, a) res ->
       name a = k /\
       exists audio,
         In (k, audio) (stems self) /\
         rms_db a = stem_rms_db audio /\
         peak_db a = stem_peak_db audio /\
         crest_factor a = stem_peak_db audio - stem_rms_db audio /\
         level_vs_mix a = stem_rms_db audio - overall_rms self.
Proof.
  intros Hnd H. apply cross_instrument_rules_never_apply in H.
  destruct H as [H _].
  apply analyze_stems_entries in H; [|exact Hnd].
  destruct H as [added [-> [Hk Ha]]]. cbn [app].
  split; [exact Hk|].
  intros k a Hin. destruct (Ha k a Hin) as [audio [Hau He]].
  apply analyze_instrument_base in He.
  destruct He as [Hn [Hr [Hp [Hc Hl]]]].
  split; [exact Hn|]. exists audio. repeat split; assumption.
Qed.

Lemma analyze_all_entries_witness :
  exists res,
    analyze_all Samples.vocal_kick_session 150 (u "medium") = Ok res
    /\ map fst res =
         map fst (filter (fun s => (0 <? samples (snd s))%nat)
                    (stems Samples.vocal_kick_session))
    /\ forall k a, In (k, a) res ->
         name a = k /\
         exists audio,
           In (k, audio) (stems Samples.vocal_kick_session) /\
           rms_db a = stem_rms_db audio /\
           peak_db a = stem_peak_db audio /\
           crest_factor a = stem_peak_db audio - stem_rms_db audio /\
           level_vs_mix a =
             stem_rms_db audio - overall_rms Samples.vocal_kick_session.
Proof.
  destruct (analyze_all Samples.vocal_kick_session 150 (u "medium"))
    as [res|e] eqn:E; [|vm_compute in E; discriminate].
  exists res. split; [reflexivity|].
  apply (@analyze_all_entries Samples.vocal_kick_session 150%Z (u "medium")
           res).
  - change (map fst (stems Samples.vocal_kick_session))
      with [u "vocal"; u "kick"].
    apply NoDup_cons; [|apply NoDup_cons; [intros [] | apply NoDup_nil]].
    intros [H | []]. vm_compute in H. discriminate.
  - exact E.
Defined.

End EngineFacts.

(** ** The vocal diagnosis *)

Module VocalDiagnosisFacts.
Import PyStr PyStrFacts PyNum PyNumFacts InstrumentAnalyzer.
Import VocalProblemFacts RecommendationFacts VocalReading.

(** The vocal branch always returns, with these four parts. *)
Lemma vocal_diagnosis (self : Engine) (audio : Stem) (vc : Z) (sv : pystr) :
  exists a,
    analyze_instrument self (u "vocal") audio vc sv = Ok a /\
    freq_bands a = Some (vocal_levels audio) /\
    issues a = map VocalProblem (vocal_problems self audio) /\
    recommendations a =
      _generate_vocal_recommendations self (vocal_problems self audio)
        (vocal_levels audio) (trend a) vc sv /\
    good_points a = _detect_vocal_strengths (vocal_levels audio) a /\
    crest_factor a = stem_peak_db audio - stem_rms_db audio.
Proof.
  unfold analyze_instrument.
  change (dispatch self (u "vocal") audio vc sv ?a)
    with (d <- call sig_analyze_vocal
                 ["audio"; "spectrum"; "freqs"; "venue_capacity";
                  "stage_volume"; "analysis"]
                 (_analyze_vocal self audio vc sv a) ;; Ok (update a d)).
  unfold call. cbn [List.length Nat.eqb sig_analyze_vocal].
  unfold _analyze_vocal. rewrite detect_on_vocal_bands. cbn [bind].
  eexists. split; [reflexivity|].
  destruct (_find_past_analysis (past_analyses self) (u "vocal"));
    repeat split.
Qed.

(** The three families of problems that the detection can find. *)
Lemma vocal_problem_kinds (self : Engine) (audio : Stem) (p : Problem) :
  In p (vocal_problems self audio) ->
  (category p = cat_balance /\
   In (problem p) [problem_clarity; problem_boxiness; problem_sibilance])
  \/ (category p = cat_dynamics /\
      In (problem p) [problem_overcompressed; problem_too_dynamic])
  \/ (category p = cat_level /\
      In (problem p) [problem_buried; problem_too_loud]).
Proof.
  intros H. apply PySortFacts.sort_In, discover_In in H.
  destruct H as [[_ ->] | [[_ ->] | [[_ ->] | [[[_ ->] | [_ [_ ->]]]
                | [[_ ->] | [_ [_ ->]]]]]]]; cbn; tauto.
Qed.

Ltac eval_contains :=
  repeat match goal with
         | |- context [contains ?a ?b] =>
             let v := eval vm_compute in (contains a b) in
             change (contains a b) with v
         end.

(** The recommendation of a problem, family by family. *)
Lemma recommendation_of_kind (self : Engine) (fb : list (pystr * Q))
  (trend : option Trend) (vc : Z) (sv : pystr) (p : Problem) :
  ((category p = cat_balance /\
    In (problem p) [problem_clarity; problem_boxiness; problem_sibilance]) ->
   exists r, recommendation_for self fb trend vc sv p = Some r /\
             is_balance r = true /\ is_dynamics r = false)
  /\ ((category p = cat_dynamics /\
       In (problem p) [problem_overcompressed; problem_too_dynamic]) ->
      recommendation_for self fb trend vc sv p =
        Some (mkRec (p_severity p) title_dynamics
                (dynamics_approaches self fb) [] None None))
  /\ ((category p = cat_level /\
       In (problem p) [problem_buried; problem_too_loud]) ->
      recommendation_for self fb trend vc sv p = None).
Proof.
  unfold recommendation_for. repeat split.
  - intros [Hc [H | [H | [H | []]]]]; rewrite <- H, Hc; eval_contains;
      cbv iota; eexists; (split; [reflexivity|]); split; reflexivity.
  - intros [Hc [H | [H | []]]]; rewrite <- H, Hc; eval_contains;
      reflexivity.
  - intros [Hc [H | [H | []]]]; rewrite <- H, Hc; eval_contains;
      reflexivity.
Qed.

Section Counting.
Variable self : Engine.
Variable audio : Stem.
Variable trend : option Trend.
Variable vc : Z.
Variable sv : pystr.

Let step := recommend_step self (vocal_levels audio) trend vc sv.

Lemma step_counted (st : list Recommendation * list pystr) (p : Problem) :
  In p (vocal_problems self audio) -> counted st -> counted (step st p).
Proof.
  intros Hp Hc. destruct st as [recs addr].
  unfold step, recommend_step.
  destruct (skipped_on_trend trend (category p)); [assumption|].
  destruct (mem (category p) addr) eqn:M; [assumption|].
  apply mem_false in M.
  destruct Hc as [H1 [H2 [H3 [H4 H5]]]]. cbn [fst snd] in *.
  pose proof (recommendation_of_kind self (vocal_levels audio) trend vc sv p)
    as [Kb [Kd Kl]].
  destruct (vocal_problem_kinds self audio p Hp) as [K | [K | K]].
  - destruct (Kb K) as [r [-> [Hb Hd]]]. destruct K as [Hcat _].
    rewrite Hcat in *. unfold counted. cbn [fst snd].
    rewrite !filter_app. cbn [filter]. rewrite Hb, Hd, app_nil_r.
    destruct H2 as [H2 | H2]; [contradiction|]. rewrite H2.
    repeat split.
    + destruct H1 as [H1 | H1]; [left; apply in_or_app; now left | now right].
    + left. apply in_or_app. right. now left.
    + assumption.
    + cbn. lia.
    + apply Forall_app. split; [assumption|]. constructor; [|constructor].
      now rewrite Hb, orb_true_r.
  - rewrite (Kd K). destruct K as [Hcat _]. rewrite Hcat in *.
    unfold counted. cbn [fst snd].
    rewrite !filter_app. cbn [filter].
    change (is_dynamics (mkRec (p_severity p) title_dynamics
                           (dynamics_approaches self (vocal_levels audio))
                           [] None None)) with true.
    change (is_balance (mkRec (p_severity p) title_dynamics
                          (dynamics_approaches self (vocal_levels audio))
                          [] None None)) with false.
    rewrite app_nil_r.
    destruct H1 as [H1 | H1]; [contradiction|]. rewrite H1.
    repeat split.
    + left. apply in_or_app. right. now left.
    + destruct H2 as [H2 | H2]; [left; apply in_or_app; now left | now right].
    + cbn. lia.
    + assumption.
    + apply Forall_app. split; [assumption|]. now repeat constructor.
  - rewrite (Kl K). unfold counted. cbn [fst snd]. repeat split;
      try assumption.
    + destruct H1 as [H1 | H1]; [left; apply in_or_app; now left | now right].
    + destruct H2 as [H2 | H2]; [left; apply in_or_app; now left | now right].
Qed.

Lemma fold_counted (ps : list Problem) :
  (forall p, In p ps -> In p (vocal_problems self audio)) ->
  forall st, counted st -> counted (fold_left step ps st).
Proof.
  induction ps as [|p ps IH]; intros Hps st Hc; [assumption|].
  cbn [fold_left]. apply IH.
  - intros q Hq. apply Hps. now right.
  - apply step_counted; [|assumption]. apply Hps. now left.
Qed.

Lemma generate_counted :
  counted
    (fold_left step (firstn 3 (vocal_problems self audio)) ([], [])).
Proof.
  apply fold_counted.
  - intros p Hp. rewrite <- (firstn_skipn 3 (vocal_problems self audio)).
    apply in_or_app. now left.
  - unfold counted. cbn. repeat split; try (now right); try lia; constructor.
Qed.

End Counting.

Lemma filter_split_length {A : Type} (f g : A -> bool) (l : list A) :
  Forall (fun x => f x || g x = true) l ->
  (List.length l <= List.length (filter f l) + List.length (filter g l))%nat.
Proof.
  induction 1 as [|x l Hx Hl IH]; cbn; [lia|].
  destruct (f x), (g x); cbn in *; try discriminate; lia.
Qed.

(** X5. The diagnosis of a vocal stem carries at most two recommendations:
    at most one for the frequency balance (clarity, boxiness or sibilance,
    whichever ranks first) and at most one for the dynamics; a problem of
    the level balance never gets one. *)
Theorem vocal_recommendations_at_most_two (self : Engine) (audio : Stem)
  (vc : Z) (sv : pystr) :
  exists a,
    analyze_instrument self (u "vocal") audio vc sv = Ok a
    /\ (List.length (recommendations a) <= 2)%nat
    /\ (List.length (filter is_balance (recommendations a)) <= 1)%nat
    /\ (List.length (filter is_dynamics (recommendations a)) <= 1)%nat
    /\ Forall (fun r =>
                 In (title r) [title_clarity; title_boxiness; title_sibilance;
                               title_dynamics])
              (recommendations a).
Proof.
  destruct (vocal_diagnosis self audio vc sv) as [a [Ha [_ [_ [Hr _]]]]].
  exists a. split; [exact Ha|]. rewrite Hr.
  pose proof (generate_counted self audio (trend a) vc sv)
    as [_ [_ [Hd [Hb Hall]]]].
  unfold _generate_vocal_recommendations.
  set (recs := fst (fold_left _ _ _)) in *.
  repeat split; try assumption.
  - pose proof (filter_split_length is_dynamics is_balance Hall). lia.
  - eapply Forall_impl; [|exact Hall].
    intros r Hr'. unfold is_dynamics, is_balance in Hr'.
    apply orb_true_iff in Hr'. destruct Hr' as [Hr' | Hr'].
    + apply eqb_eq in Hr'. rewrite Hr'. cbn. tauto.
    + apply mem_In in Hr'. cbn in Hr' |- *. tauto.
Qed.

(** X6. The dynamics recommendation of a vocal diagnosis always offers the
    approach "コンプレッサー適切設定" (set up a compressor), also for the
    over-compressed vocal: the crest factor is looked up in the band dict,
    which has no such key, so the test for the relaxing approach reads the
    default 10. *)
Theorem vocal_dynamics_approach_is_fixed (self : Engine) (audio : Stem)
  (vc : Z) (sv : pystr) :
  exists a,
    analyze_instrument self (u "vocal") audio vc sv = Ok a
    /\ forall r, In r (recommendations a) -> title r = title_dynamics ->
         approaches r =
           [mkApproach (u "コンプレッサー適切設定")
              (_get_vocal_compressor_settings (mixer_specs self))].
Proof.
  destruct (vocal_diagnosis self audio vc sv) as [a [Ha [_ [_ [Hr _]]]]].
  exists a. split; [exact Ha|]. rewrite Hr. intros r Hin Ht.
  apply generate_origin in Hin. destruct Hin as [p [_ [_ Hp]]].
  unfold recommendation_for in Hp.
  repeat match type of Hp with
         | (if ?b then _ else _) = _ =>
             destruct b; [injection Hp as <-; try reflexivity;
                          cbn [title] in Ht; vm_compute in Ht; discriminate|]
         end.
  discriminate.
Qed.

(** X7. A vocal diagnosis never praises and blames the same measure: a good
    point for the clarity goes with no clarity problem, and a good point for
    the dynamics with no dynamics problem. *)
Theorem vocal_praise_excludes_blame (self : Engine) (audio : Stem)
  (vc : Z) (sv : pystr) :
  exists a,
    analyze_instrument self (u "vocal") audio vc sv = Ok a
    /\ (In (u "明瞭度が優秀") (good_points a) \/
        In (u "明瞭度が良好") (good_points a) ->
        forall p, In (VocalProblem p) (issues a) ->
                  problem p <> problem_clarity)
    /\ (In (u "ダイナミクスが理想的") (good_points a) ->
        forall p, In (VocalProblem p) (issues a) ->
                  category p <> cat_dynamics).
Proof.
  destruct (vocal_diagnosis self audio vc sv)
    as [a [Ha [_ [Hi [_ [Hg Hc]]]]]].
  exists a. split; [exact Ha|]. rewrite Hg, Hi.
  unfold _detect_vocal_strengths.
  change (get_default (u "clarity") (-40) (vocal_levels audio))
    with (band_db audio 2000 4000).
  change (get_default (u "air") (-45) (vocal_levels audio))
    with (band_db audio 8000 12000).
  rewrite Hc.
  set (clarity := band_db audio 2000 4000).
  set (crest := stem_peak_db audio - stem_rms_db audio).
  split.
  - intros Hgood p Hp Hn.
    assert (Hhigh : -28 < clarity).
    { destruct (Qltb (-25) clarity) eqn:E1.
      - apply Qltb_lt in E1. Lqa.lra.
      - destruct (Qltb (-28) clarity) eqn:E2; [now apply Qltb_lt|].
        exfalso. cbn [app] in Hgood.
        destruct Hgood as [Hgood | Hgood];
          repeat (apply in_app_or in Hgood; destruct Hgood as [Hgood|Hgood]);
          repeat match goal with
                 | H : In _ (if ?b then _ else _) |- _ => destruct b
                 end;
          cbn in Hgood; repeat destruct Hgood as [Hgood|Hgood];
          try contradiction; vm_compute in Hgood; discriminate. }
    apply in_map_iff in Hp. destruct Hp as [q [[= ->] Hq]].
    apply PySortFacts.sort_In, discover_In in Hq.
    destruct Hq as [[H ->] | [[_ ->] | [[_ ->] | [[[_ ->] | [_ [_ ->]]]
                   | [[_ ->] | [_ [_ ->]]]]]]];
      cbn [problem] in Hn; try (vm_compute in Hn; discriminate).
    apply Qltb_lt in H. fold clarity in H. Lqa.lra.
  - intros Hgood p Hp Hn.
    assert (Hmid : 8 <= crest /\ crest <= 12).
    { destruct (Qle_bool 8 crest && Qle_bool crest 12) eqn:E.
      - apply andb_true_iff in E. now rewrite !Qle_bool_iff in E.
      - exfalso. rewrite app_nil_r in Hgood.
        apply in_app_or in Hgood. destruct Hgood as [Hgood|Hgood];
          repeat match goal with
                 | H : In _ (if ?b then _ else _) |- _ => destruct b
                 end;
          cbn in Hgood; repeat destruct Hgood as [Hgood|Hgood];
          try contradiction; vm_compute in Hgood; discriminate. }
    apply in_map_iff in Hp. destruct Hp as [q [[= ->] Hq]].
    apply PySortFacts.sort_In, discover_In in Hq.
    destruct Hq as [[_ ->] | [[_ ->] | [[_ ->] | [[[H ->] | [_ [H ->]]]
                   | [[_ ->] | [_ [_ ->]]]]]]];
      cbn [category] in Hn; try (vm_compute in Hn; now apply Hn);
      try (exfalso; revert Hn; vm_compute; congruence).
    + apply Qltb_lt in H. fold crest in H. Lqa.lra.
    + apply Qltb_lt in H. fold crest in H. Lqa.lra.
Qed.

End VocalDiagnosisFacts.

(** ** The history store, further *)

Module HistoryQueryFacts.
Import PyStr PyStrFacts AudioDatabase HistoryQueries.

Lemma str_leb_total (a b : pystr) : str_leb a b = true \/ str_leb b a = true.
Proof.
  revert b. induction a as [|x a IH]; intros [|y b]; cbn; auto.
  destruct (x <? y)%N eqn:E1; [now left|].
  destruct (y <? x)%N eqn:E2; [now right|].
  apply IH.
Qed.

Lemma str_leb_trans (a b c : pystr) :
  str_leb a b = true -> str_leb b c = true -> str_leb a c = true.
Proof.
  revert b c. induction a as [|x a IH]; intros [|y b] [|z c]; cbn;
    try congruence.
  destruct (x <? y)%N eqn:E1, (y <? x)%N eqn:E2,
           (y <? z)%N eqn:E3, (z <? y)%N eqn:E4,
           (x <? z)%N eqn:E5, (z <? x)%N eqn:E6;
    try congruence;
    rewrite ?N.ltb_lt, ?N.ltb_ge in *; try lia.
  apply IH.
Qed.

Lemma StronglySorted_firstn {A : Type} (R : A -> A -> Prop) (l : list A) :
  StronglySorted R l -> forall n, StronglySorted R (firstn n l).
Proof.
  induction 1 as [|x l Hs IH Hall]; intros [|n]; cbn; try constructor.
  - apply IH.
  - rewrite Forall_forall in *. intros y Hy. apply Hall.
    rewrite <- (firstn_skipn n l). apply in_or_app. now left.
Qed.

Lemma StronglySorted_filter {A : Type} (R : A -> A -> Prop) (f : A -> bool)
  (l : list A) :
  StronglySorted R l -> StronglySorted R (filter f l).
Proof.
  induction 1 as [|x l Hs IH Hall]; cbn; [constructor|].
  destruct (f x); [|assumption]. constructor; [assumption|].
  rewrite Forall_forall in *. intros y Hy. apply Hall.
  apply filter_In in Hy. tauto.
Qed.

Lemma filter_of_map {A B : Type} (f : B -> bool) (g : A -> B) (l : list A) :
  filter f (map g l) = map g (filter (fun x => f (g x)) l).
Proof.
  induction l as [|x l IH]; cbn; [reflexivity|].
  destruct (f (g x)); cbn; now rewrite IH.
Qed.

Lemma filter_twice {A : Type} (f g : A -> bool) (l : list A) :
  filter f (filter g l) = filter (fun x => g x && f x) l.
Proof.
  induction l as [|x l IH]; cbn; [reflexivity|].
  destruct (g x); cbn; [destruct (f x)|]; now rewrite IH.
Qed.

Lemma filter_none {A : Type} (f : A -> bool) (l : list A) :
  (forall y, In y l -> f y = false) -> filter f l = [].
Proof.
  induction l as [|x l IH]; intros H; cbn; [reflexivity|].
  rewrite (H x (or_introl eq_refl)). apply IH.
  intros y Hy. apply H. now right.
Qed.

(** In a list sorted by a measure, keeping the elements above a bound and
    cutting to a length can be done in either order. *)
Lemma filter_firstn_sorted {A : Type} (R : A -> A -> Prop) (f : A -> bool)
  (l : list A) :
  (forall x y, R x y -> f y = true -> f x = true) ->
  StronglySorted R l ->
  forall n, filter f (firstn n l) = firstn n (filter f l).
Proof.
  intros Hup. induction 1 as [|x l Hs IH Hall]; intros [|n]; cbn;
    try reflexivity.
  destruct (f x) eqn:Fx; cbn; [now rewrite IH|].
  assert (Hnone : forall k, filter f (firstn k l) = []).
  { intros k. apply filter_none. intros y Hy.
    destruct (f y) eqn:Fy; [|reflexivity]. exfalso.
    assert (Hx : f x = true).
    { apply (Hup x y); [|exact Fy]. rewrite Forall_forall in Hall.
      apply Hall. rewrite <- (firstn_skipn k l). apply in_or_app. now left. }
    congruence. }
  rewrite Hnone. specialize (Hnone (List.length l)).
  rewrite firstn_all in Hnone. rewrite Hnone. now destruct n.
Qed.

(** X8. [get_recent(n)] returns the first [n] of the history ordered by
    timestamp, newest first (all of it when it has at most [n] entries):
    the result has min(n, len) entries of the history, in descending order
    of timestamp, and entries with one timestamp keep their order. *)
Theorem get_recent_newest_first (history : list Entry) (n : nat) :
  List.length (get_recent history n) = Nat.min n (List.length history)
  /\ incl (get_recent history n) history
  /\ StronglySorted
       (fun x y => str_leb (timestamp y) (timestamp x) = true)
       (get_recent history n)
  /\ get_recent history n
     = firstn n (get_recent history (List.length history))
  /\ Permutation history (get_recent history (List.length history))
  /\ (forall t,
        filter (fun e => eqb (timestamp e) t)
          (get_recent history (List.length history))
        = filter (fun e => eqb (timestamp e) t) history).
Proof.
  assert (Hlen : List.length (PySort.sort newer_first history)
                 = List.length history).
  { symmetry. apply Permutation_length, PySortFacts.sort_perm. }
  assert (Hall : get_recent history (List.length history)
                 = PySort.sort newer_first history).
  { unfold get_recent. rewrite <- Hlen. apply firstn_all. }
  split.
  { unfold get_recent. rewrite length_firstn, Hlen. reflexivity. }
  split.
  { intros e He. unfold get_recent in He.
    apply (PySortFacts.sort_In newer_first).
    rewrite <- (firstn_skipn n). apply in_or_app. now left. }
  split.
  { unfold get_recent. apply StronglySorted_firstn.
    apply (PySortFacts.sort_sorted newer_first).
    - intros a b. apply str_leb_total.
    - intros a b c Hab Hbc. unfold newer_first in *.
      eapply str_leb_trans; eassumption. }
  split; [now rewrite Hall|].
  split; [rewrite Hall; apply PySortFacts.sort_perm|].
  intros t. rewrite Hall. apply PySortFacts.sort_stable.
  intros a b Ha Hb. apply eqb_eq in Ha, Hb. unfold newer_first.
  rewrite Ha, Hb. destruct (str_leb_total t t); assumption.
Qed.

Lemma scored_pairs (md : Metadata) (history : list Entry) :
  Forall (fun s => snd s = score md (fst s))
    (PySort.sort score_geb (map (fun e => (e, score md e)) history)).
Proof.
  rewrite Forall_forall. intros [e s] H.
  apply (proj1 (PySortFacts.sort_In score_geb _ _)) in H.
  apply in_map_iff in H. destruct H as [e' [[= <- <-] _]]. reflexivity.
Qed.

Lemma sorted_pairs (md : Metadata) (history : list Entry) :
  StronglySorted (fun a b : Entry * Z => (snd b <= snd a)%Z)
    (PySort.sort score_geb (map (fun e => (e, score md e)) history)).
Proof.
  eapply PySortFacts.StronglySorted_impl;
    [|apply (PySortFacts.sort_sorted score_geb)].
  - intros a b H. unfold score_geb in H. now apply Z.leb_le.
  - intros a b. unfold score_geb. rewrite !Z.leb_le. lia.
  - intros a b c. unfold score_geb. rewrite !Z.leb_le. lia.
Qed.

Lemma sorted_by_score (md : Metadata) (l : list (Entry * Z)) :
  Forall (fun s => snd s = score md (fst s)) l ->
  StronglySorted (fun a b : Entry * Z => (snd b <= snd a)%Z) l ->
  StronglySorted (fun x y => (score md y <= score md x)%Z) (map fst l).
Proof.
  intros Hf Hs. induction Hs as [|a l Hs IH Hall]; cbn; [constructor|].
  inversion Hf as [|? ? Ha Hl]; subst. constructor; [now apply IH|].
  rewrite Forall_forall in *. intros y Hy.
  apply in_map_iff in Hy. destruct Hy as [b [<- Hb]].
  rewrite <- Ha, <- (Hl b Hb). now apply Hall.
Qed.

(** X9. [find_similar] returns the first [limit] of the entries that score
    above 20, best score first and entries of one score in history order:
    cutting the ranking before the test on the score loses no qualifying
    entry.  Every entry of the history that scores above 20 is in that
    ranking. *)
Theorem find_similar_is_top_of_ranking (history : list Entry) (md : Metadata)
  (limit : nat) :
  find_similar history md limit = firstn limit (ranked_similar history md)
  /\ (List.length (find_similar history md limit) <= limit)%nat
  /\ StronglySorted (fun x y => (score md y <= score md x)%Z)
       (ranked_similar history md)
  /\ (forall e, In e (ranked_similar history md) <->
                In e history /\ (20 < score md e)%Z)
  /\ (forall s,
        filter (fun e => (score md e =? s)%Z) (ranked_similar history md)
        = filter (fun e => (score md e =? s)%Z)
            (filter (fun e => (20 <? score md e)%Z) history)).
Proof.
  assert (Heq : find_similar history md limit
                = firstn limit (ranked_similar history md)).
  { unfold find_similar, ranked_similar. rewrite firstn_map. f_equal.
    apply (filter_firstn_sorted
             (R := fun a b : Entry * Z => (snd b <= snd a)%Z)).
    - intros x y Hxy Hy. apply Z.ltb_lt in Hy. apply Z.ltb_lt. lia.
    - apply sorted_pairs. }
  split; [exact Heq|].
  split; [rewrite Heq, length_firstn; lia|].
  split.
  { unfold ranked_similar. apply sorted_by_score.
    - pose proof (scored_pairs md history) as H.
      rewrite Forall_forall in *. intros s Hs. apply H.
      apply filter_In in Hs. tauto.
    - apply StronglySorted_filter, sorted_pairs. }
  split.
  { intros e. unfold ranked_similar. rewrite in_map_iff. split.
    - intros [[e' s] [<- H]]. apply filter_In in H. destruct H as [H Hs].
      apply (proj1 (PySortFacts.sort_In score_geb _ _)) in H.
      apply in_map_iff in H. destruct H as [e0 [[= <- <-] Hin]].
      cbn in *. split; [assumption | now apply Z.ltb_lt].
    - intros [Hin Hs]. exists (e, score md e). split; [reflexivity|].
      apply filter_In. split; [|now apply Z.ltb_lt].
      apply (proj2 (PySortFacts.sort_In score_geb _ _)).
      apply in_map_iff. now exists e. }
  intros s. unfold ranked_similar.
  set (pairs := map (fun e => (e, score md e)) history).
  set (h := fun p : Entry * Z => (20 <? snd p)%Z && (snd p =? s)%Z).
  rewrite (filter_of_map (fun e => (score md e =? s)%Z) fst).
  rewrite filter_twice.
  rewrite (filter_ext_in
             (fun p : Entry * Z => (20 <? snd p)%Z && (score md (fst p) =? s)%Z)
             h).
  2: { intros p Hp. unfold h.
       pose proof (scored_pairs md history) as Hsp.
       rewrite Forall_forall in Hsp. now rewrite <- (Hsp p Hp). }
  rewrite (PySortFacts.sort_stable score_geb h).
  - unfold pairs. rewrite (filter_of_map h (fun e => (e, score md e))).
    rewrite map_map. cbn [fst]. rewrite map_id. rewrite filter_twice.
    reflexivity.
  - intros a b Ha Hb. unfold h in Ha, Hb. apply andb_true_iff in Ha, Hb.
    destruct Ha as [_ Ha], Hb as [_ Hb]. apply Z.eqb_eq in Ha, Hb.
    unfold score_geb. apply Z.leb_le. lia.
Qed.

Section Persistence.
Variable file_text : Type.
Variable json_dump : list Entry -> file_text.
Variable json_load : file_text -> option (list Entry).
Hypothesis load_dump : forall h, json_load (json_dump h) = Some h.

Lemma add_all_history (calls : list AddCall) :
  forall db : DB file_text,
    history (add_all json_dump db calls) = history db ++ map entry_of calls.
Proof.
  induction calls as [|c calls IH]; intros db; cbn.
  - now rewrite app_nil_r.
  - unfold add_all in IH. rewrite IH. cbn. now rewrite <- app_assoc.
Qed.

Lemma add_all_file (calls : list AddCall) :
  forall db : DB file_text,
    calls <> [] ->
    db_file (add_all json_dump db calls)
    = Some (json_dump (history (add_all json_dump db calls))).
Proof.
  induction calls as [|c calls IH]; intros db Hne; [contradiction|].
  destruct calls as [|c' calls]; [reflexivity|].
  change (add_all json_dump db (c :: c' :: calls))
    with (add_all json_dump
            (fst (add_entry json_dump db (call_results c) (call_metadata c)
                    (call_id c) (call_time c))) (c' :: calls)).
  apply IH. discriminate.
Qed.

(** X10. After any run of [add_entry] calls on a store, a new
    [AudioDatabase] on the same file holds the former history followed by
    one entry per call, in the order of the calls. *)
Theorem history_survives_reopen (db : DB file_text) (calls : list AddCall) :
  calls <> [] ->
  history (init json_load (db_file (add_all json_dump db calls)))
  = history db ++ map entry_of calls.
Proof.
  intros Hne. unfold init, load. cbn [db_file].
  rewrite (add_all_file db Hne), load_dump. cbn [history].
  apply add_all_history.
Qed.

(** X11. A history file that cannot be read is replaced without notice: the
    store opens with an empty history, and after the next [add_entry] the
    file holds that one entry. *)
Theorem unreadable_file_is_replaced (t : file_text) (c : AddCall) :
  json_load t = None ->
  history (init json_load (Some t)) = []
  /\ db_file (init json_load (Some t)) = Some t
  /\ history
       (init json_load
          (db_file (add_all json_dump (init json_load (Some t)) [c])))
     = [entry_of c].
Proof.
  intros Hbad.
  assert (H0 : history (init json_load (Some t)) = []).
  { unfold init, load. cbn. now rewrite Hbad. }
  split; [exact H0|]. split.
  { unfold init, load. cbn. now rewrite Hbad. }
  rewrite history_survives_reopen by discriminate. now rewrite H0.
Qed.

End Persistence.

Lemma history_survives_reopen_witness :
  history
    (init (@Some _)
       (db_file (add_all (fun h => h) Samples.plain_db
                   [HistorySamples.first_call; HistorySamples.second_call])))
  = history Samples.plain_db
    ++ map entry_of [HistorySamples.first_call; HistorySamples.second_call].
Proof.
  apply (@history_survives_reopen (list Entry) (fun h => h) (@Some _)).
  - intros h. reflexivity.
  - discriminate.
Defined.

Lemma unreadable_file_is_replaced_witness :
  history (init (fun t : option (list Entry) => t) (Some None)) = []
  /\ db_file (init (fun t : option (list Entry) => t) (Some None))
     = Some None
  /\ history
       (init (fun t : option (list Entry) => t)
          (db_file (add_all (@Some _)
                      (init (fun t : option (list Entry) => t) (Some None))
                      [HistorySamples.first_call])))
     = [entry_of HistorySamples.first_call].
Proof.
  apply (@unreadable_file_is_replaced (option (list Entry)) (@Some _)
           (fun t => t)).
  - intros h. reflexivity.
  - reflexivity.
Defined.

End HistoryQueryFacts.

(** ** Trend against the stored history *)

Module StoredTrendFacts.
Import PyStr PyStrFacts AudioDatabase HistoryQueries InstrumentAnalyzer.

(** What [add_entry] writes under 'instruments'. *)
Lemma no_past_without_instruments (past : list Entry) (n : pystr) :
  Forall (fun e => instruments (analysis e) = []) past ->
  _find_past_analysis past n = None.
Proof.
  induction 1 as [|e past He Hp IH]; cbn; [reflexivity|].
  now rewrite He.
Qed.

Section Stored.
Variable file_text : Type.
Variable json_dump : list Entry -> file_text.

(** X12. When every entry of the store was written by [add_entry], no
    diagnosis has a trend: [add_entry] stores an empty 'instruments' dict,
    so the search for a past diagnosis among the similar sessions finds
    none, for any instrument. *)
Theorem stored_history_gives_no_trend (db : DB file_text)
  (calls : list AddCall) (md : Metadata) (limit : nat) (self : Engine)
  (n : pystr) (audio : Stem) (vc : Z) (sv : pystr) (a : Analysis) :
  history db = [] ->
  past_analyses self
    = find_similar (history (add_all json_dump db calls)) md limit ->
  analyze_instrument self n audio vc sv = Ok a ->
  trend a = None.
Proof.
  intros Hempty Hpast Ha.
  assert (Hnone : _find_past_analysis (past_analyses self) n = None).
  { apply no_past_without_instruments. rewrite Hpast, Forall_forall.
    intros e He. apply MatchFacts.find_similar_sound in He.
    destruct He as [He _].
    assert (Hh : forall cs (d : DB file_text),
               history (add_all json_dump d cs)
               = history d ++ map entry_of cs).
    { induction cs as [|c cs IH]; intros d; cbn.
      - now rewrite app_nil_r.
      - unfold add_all in IH. rewrite IH. cbn. now rewrite <- app_assoc. }
    rewrite Hh, Hempty in He. cbn in He.
    apply in_map_iff in He. destruct He as [c [<- _]]. reflexivity. }
  unfold analyze_instrument in Ha. rewrite Hnone in Ha.
  apply EngineFacts.dispatch_result in Ha.
  destruct Ha as [-> | [d ->]]; reflexivity.
Qed.

End Stored.

Lemma stored_history_gives_no_trend_witness :
  exists a,
    analyze_instrument StoredSamples.session_after_two_calls (u "vocal")
      Samples.weak_vocal 150 (u "medium") = Ok a
    /\ trend a = None.
Proof.
  destruct (analyze_instrument StoredSamples.session_after_two_calls
              (u "vocal") Samples.weak_vocal 150 (u "medium"))
    as [a|e] eqn:E; [|vm_compute in E; discriminate].
  exists a. split; [reflexivity|].
  apply (@stored_history_gives_no_trend (list Entry) (fun h => h)
           Samples.plain_db
           [HistorySamples.first_call; HistorySamples.second_call]
           Samples.sample_metadata 5
           StoredSamples.session_after_two_calls (u "vocal")
           Samples.weak_vocal 150%Z (u "medium") a).
  - reflexivity.
  - reflexivity.
  - exact E.
Defined.

End StoredTrendFacts.

(** ** The comparison with the past entries *)

Module ComparisonFacts.
Import PyStr PyStrFacts AudioDatabase ComparisonAnalyzer PyNum PyNumFacts.
Import Comparison ComparisonReading HistoryQueries.

Lemma eqb_sym (a b : pystr) : eqb a b = eqb b a.
Proof.
  destruct (eqb a b) eqn:E1, (eqb b a) eqn:E2; try reflexivity.
  - apply eqb_eq in E1. subst. rewrite eqb_refl in E2. discriminate.
  - apply eqb_eq in E2. subst. rewrite eqb_refl in E1. discriminate.
Qed.

Lemma opt_str_eqb_refl (a : option pystr) : opt_str_eqb a a = true.
Proof. destruct a; cbn; [apply eqb_refl | reflexivity]. Qed.

Ltac split_contains :=
  repeat match goal with
         | |- context [contains ?k ?s] => destruct (contains k s)
         end.

(** X13. The level correction between two consoles is antisymmetric:
    comparing the other way round gives the opposite value; and it is at
    most 1 dB either way. *)
Theorem mixer_correction_is_antisymmetric_and_small (a b : option pystr) :
  _get_mixer_correction a b == - _get_mixer_correction b a /\
  Qabs (_get_mixer_correction a b) <= 1.
Proof.
  assert (Hz : 0 == - 0 /\ Qabs 0 <= 1)
    by (split; [reflexivity | discriminate]).
  destruct a as [c|], b as [p|]; try exact Hz.
  unfold _get_mixer_correction.
  destruct c as [|x c], p as [|y p]; try exact Hz.
  cbn [is_empty orb]. rewrite (eqb_sym (y :: p) (x :: c)).
  destruct (eqb (x :: c) (y :: p)); [exact Hz|].
  generalize (lower (x :: c)) (lower (y :: p)). intros lc lp.
  unfold mixer_tiers. cbn [fold_left]. unfold tier_step. cbn [fst snd].
  split_contains; cbn [fst snd];
    (split; [Lqa.lra | apply Qabs_case; intros; Lqa.lra]).
Qed.

Lemma same_mixer_no_correction (a b : option pystr) :
  opt_str_eqb a b = true -> _get_mixer_correction a b = 0.
Proof.
  destruct a as [c|], b as [p|]; cbn [opt_str_eqb]; try discriminate;
    [|reflexivity].
  intros H. unfold _get_mixer_correction. rewrite H.
  now destruct (is_empty (Some c) || is_empty (Some p)).
Qed.

Lemma same_pa_no_correction (a b : option pystr) :
  opt_str_eqb a b = true -> _get_pa_corrections a b = repeat 0 7.
Proof.
  destruct a as [c|], b as [p|]; cbn [opt_str_eqb]; try discriminate;
    [|reflexivity].
  intros H. unfold _get_pa_corrections. rewrite H.
  now rewrite orb_true_r.
Qed.

Lemma contains_in_blank (k : pystr) : k <> [] -> contains k (lower []) = false.
Proof. destruct k; [congruence|reflexivity]. Qed.

(** X14. The loudspeaker corrections are always seven values of which the
    first five are zero; a correction is applied exactly when both system
    names are given and one of them, not both, names JBL; and the correction
    of the top band is then 4/3 of that of the presence band. *)
Theorem pa_corrections_touch_two_bands (a b : option pystr) :
  List.length (_get_pa_corrections a b) = 7%nat /\
  firstn 5 (_get_pa_corrections a b) = repeat 0 5 /\
  nth 6 (_get_pa_corrections a b) 0 * 3
    == nth 5 (_get_pa_corrections a b) 0 * 4 /\
  (existsb (fun c => negb (Qeq_bool c 0)) (_get_pa_corrections a b) = true
   <-> exists x y,
         a = Some x /\ b = Some y /\ x <> [] /\ y <> [] /\
         contains (u "jbl") (lower x) <> contains (u "jbl") (lower y)).
Proof.
  assert (Hz : List.length (repeat 0 7) = 7%nat /\
               firstn 5 (repeat 0 7) = repeat 0 5 /\
               nth 6 (repeat 0 7) 0 * 3 == nth 5 (repeat 0 7) 0 * 4 /\
               existsb (fun c => negb (Qeq_bool c 0)) (repeat 0 7) = false).
  { repeat split. }
  destruct Hz as [Hz1 [Hz2 [Hz3 Hz4]]].
  assert (Hzero : forall P : Prop, ~ P ->
            List.length (repeat 0 7) = 7%nat /\
            firstn 5 (repeat 0 7) = repeat 0 5 /\
            nth 6 (repeat 0 7) 0 * 3 == nth 5 (repeat 0 7) 0 * 4 /\
            (existsb (fun c => negb (Qeq_bool c 0)) (repeat 0 7) = true
             <-> P)).
  { intros P HP. repeat (split; [assumption|]). rewrite Hz4.
    split; [discriminate|]. intros H. now destruct HP. }
  destruct a as [c|], b as [p|];
    try (apply Hzero; intros [x [y [Ha [Hb _]]]]; discriminate).
  unfold _get_pa_corrections.
  destruct c as [|x c].
  { apply Hzero. intros [x' [y' [Ha [_ [Hx _]]]]]. injection Ha as <-.
    now apply Hx. }
  destruct p as [|y p].
  { apply Hzero. intros [x' [y' [_ [Hb [_ [Hy _]]]]]]. injection Hb as <-.
    now apply Hy. }
  cbn [is_empty orb].
  destruct (eqb (x :: c) (y :: p)) eqn:E.
  { apply Hzero. intros [x' [y' [Ha [Hb [_ [_ Hne]]]]]].
    injection Ha as <-. injection Hb as <-. apply eqb_eq in E.
    rewrite E in Hne. now apply Hne. }
  destruct (contains (u "jbl") (lower (x :: c))) eqn:Ec,
           (contains (u "jbl") (lower (y :: p))) eqn:Ep.
  - repeat (split; [reflexivity|]). split; [discriminate|].
    intros [x' [y' [Ha [Hb [_ [_ Hne]]]]]].
    injection Ha as <-. injection Hb as <-. rewrite Ec, Ep in Hne.
    now destruct Hne.
  - repeat (split; [reflexivity|]). split; [intros _|reflexivity].
    exists (x :: c), (y :: p). rewrite Ec, Ep.
    repeat (split; [reflexivity || discriminate|]). discriminate.
  - repeat (split; [reflexivity|]). split; [intros _|reflexivity].
    exists (x :: c), (y :: p). rewrite Ec, Ep.
    repeat (split; [reflexivity || discriminate|]). discriminate.
  - repeat (split; [reflexivity|]). split; [discriminate|].
    intros [x' [y' [Ha [Hb [_ [_ Hne]]]]]].
    injection Ha as <-. injection Hb as <-. rewrite Ec, Ep in Hne.
    now destruct Hne.
Qed.

Lemma exact_match_all_same (cur pm : Metadata) (pe : Equipment) :
  _get_match_type cur pm pe = exact_match ->
  (Z.abs (capacity cur - capacity pm) <? 50)%Z = true /\
  opt_str_eqb (mixer cur) (e_mixer pe) = true /\
  opt_str_eqb (pa_system cur) (e_pa_system pe) = true.
Proof.
  unfold _get_match_type, classify, match_score.
  destruct (Z.abs _ <? 50)%Z, (opt_str_eqb (mixer cur) _),
           (opt_str_eqb (pa_system cur) _); cbn; intros H;
    first [discriminate | repeat split].
Qed.

Lemma band_diffs_zero_corrections (cs cur past : list Q) :
  Forall (fun c => c = 0) cs ->
  Forall2 (fun d cp => d == fst cp - snd cp)
    (band_diffs_from cs cur past) (combine cur past).
Proof.
  revert cs past. induction cur as [|x cur IH]; intros cs past Hcs;
    [constructor|].
  destruct past as [|y past]; [constructor|].
  cbn [band_diffs_from combine]. constructor.
  - cbn [fst snd]. destruct Hcs as [|c cs Hc _]; [|rewrite Hc]; Lqa.lra.
  - apply IH. destruct Hcs; [constructor|assumption].
Qed.

Lemma repeat_zero (n : nat) : Forall (fun c : Q => c = 0) (repeat 0 n).
Proof. induction n; constructor; auto. Qed.

Lemma compare_with_entry_inv (current : V2Results) (md : Metadata)
  (entry : Entry) (c : Comparison) :
  _compare_with_entry current md entry = Some c ->
  c_match_type c = _get_match_type md (metadata entry) (equipment entry) /\
  past_id c = id entry /\
  rms (metrics c) =
    (let k := _get_mixer_correction (mixer md) (e_mixer (equipment entry)) in
     mkRmsMetric (r_rms_db current) (rms_db (analysis entry))
       (rms_db (analysis entry) + k)
       (r_rms_db current - (rms_db (analysis entry) + k)) k) /\
  m_stereo_width (metrics c) =
    mkWidthMetric (r_stereo_width current) (stereo_width (analysis entry))
      (r_stereo_width current - stereo_width (analysis entry)) /\
  frequency_balance (metrics c) =
    (if Nat.eqb (List.length (r_band_energies current))
                (List.length (band_energies (analysis entry)))
        && Nat.ltb 0 (List.length (r_band_energies current))
     then
       Some (mkFrequencyBalance
               (band_diffs_from
                  (_get_pa_corrections (pa_system md)
                     (e_pa_system (equipment entry)))
                  (r_band_energies current)
                  (band_energies (analysis entry)))
               (existsb (fun c => negb (Qeq_bool c 0))
                  (_get_pa_corrections (pa_system md)
                     (e_pa_system (equipment entry)))))
     else None) /\
  _generate_insights (c_match_type c) (metrics c) = Some (insights c).
Proof.
  unfold _compare_with_entry. cbv zeta.
  destruct (_generate_insights _ _) as [ins|] eqn:E; [|discriminate].
  cbn [option_map]. intros H. injection H as <-.
  cbn [c_match_type past_id metrics insights rms m_stereo_width
       frequency_balance].
  repeat split. exact E.
Qed.

(** X15. A comparison that is classified as an exact match is made without
    any system correction: the level difference is the plain difference of
    the two RMS values and the band differences are the plain differences
    of the band energies. *)
Theorem exact_match_is_compared_uncorrected (current : V2Results)
  (md : Metadata) (entry : Entry) (c : Comparison) :
  _compare_with_entry current md entry = Some c ->
  c_match_type c = exact_match ->
  correction_applied (rms (metrics c)) = 0 /\
  difference (rms (metrics c))
    == r_rms_db current - rms_db (analysis entry) /\
  (forall fb, frequency_balance (metrics c) = Some fb ->
     pa_correction_applied fb = false /\
     Forall2 (fun d cp => d == fst cp - snd cp) (differences fb)
       (combine (r_band_energies current) (band_energies (analysis entry)))).
Proof.
  intros Hc Ht. apply compare_with_entry_inv in Hc.
  destruct Hc as [Hty [_ [Hrms [_ [Hfb _]]]]].
  rewrite Hty in Ht. apply exact_match_all_same in Ht.
  destruct Ht as [_ [Hmix Hpa]].
  rewrite Hrms, Hfb. cbv zeta.
  rewrite (same_mixer_no_correction _ _ Hmix).
  rewrite (same_pa_no_correction _ _ Hpa).
  cbn [correction_applied difference].
  split; [reflexivity|]. split; [Lqa.lra|].
  intros fb. destruct (_ && _); [|discriminate].
  intros H. injection H as <-. cbn [pa_correction_applied differences].
  split; [reflexivity|].
  apply band_diffs_zero_corrections. exact (repeat_zero 7).
Qed.

Lemma exact_match_is_compared_uncorrected_witness :
  exists c,
    _compare_with_entry Samples.sample_results Samples.sample_metadata
      Samples.earlier_session = Some c
    /\ c_match_type c = exact_match
    /\ correction_applied (rms (metrics c)) = 0.
Proof.
  destruct (_compare_with_entry Samples.sample_results
              Samples.sample_metadata Samples.earlier_session)
    as [c|] eqn:E; [|vm_compute in E; discriminate].
  exists c. split; [reflexivity|].
  assert (Hm : c_match_type c = exact_match).
  { apply compare_with_entry_inv in E. destruct E as [-> _]. reflexivity. }
  split; [exact Hm|].
  exact (proj1 (@exact_match_is_compared_uncorrected Samples.sample_results
                  Samples.sample_metadata Samples.earlier_session c E Hm)).
Defined.

Lemma band_insights_no_verdict (ds : list Q) :
  forall i l, band_insights i ds = Some l -> filter is_verdict l = [].
Proof.
  induction ds as [|d ds IH]; intros i l; cbn [band_insights].
  - intros H. now injection H as <-.
  - destruct (Qltb 6 (Qabs d)); [|apply IH].
    destruct (nth_error band_names i); [|discriminate].
    destruct (band_insights (S i) ds) as [l'|] eqn:E; [|discriminate].
    cbn [option_map]. intros H. injection H as <-.
    cbn. now apply (IH (S i)).
Qed.

Lemma width_insights_no_verdict (m : WidthMetric) :
  filter is_verdict (width_insights m) = [].
Proof. unfold width_insights. now destruct (Qltb 10 _). Qed.

Lemma insights_verdicts (t : match_type) (m : Metrics) (l : list Insight) :
  _generate_insights t m = Some l ->
  filter is_verdict l = filter is_verdict (level_insights t (rms m)).
Proof.
  unfold _generate_insights.
  assert (Hfront : filter is_verdict
                     (level_insights t (rms m)
                      ++ width_insights (m_stereo_width m))
                   = filter is_verdict (level_insights t (rms m))).
  { now rewrite filter_app, width_insights_no_verdict, app_nil_r. }
  destruct (frequency_balance m) as [fb|].
  - destruct (band_insights 0 (differences fb)) as [l'|] eqn:E;
      [|discriminate].
    cbn [option_map]. intros H. injection H as <-.
    rewrite filter_app, Hfront, (band_insights_no_verdict _ _ E).
    apply app_nil_r.
  - intros H. injection H as <-. exact Hfront.
Qed.

(** X16. A comparison carries a verdict on the level (better, worse or the
    same) exactly when it is an exact match, and then exactly one, which is
    its first insight; for the other match types the level is at most
    mentioned with the correction that was applied. *)
Theorem level_verdict_only_for_exact_match (current : V2Results)
  (md : Metadata) (entry : Entry) (c : Comparison) :
  _compare_with_entry current md entry = Some c ->
  (c_match_type c = exact_match ->
     exists i rest,
       insights c = i :: rest /\ is_verdict i = true /\
       filter is_verdict rest = []) /\
  (c_match_type c <> exact_match -> filter is_verdict (insights c) = []).
Proof.
  intros Hc. apply compare_with_entry_inv in Hc.
  destruct Hc as [_ [_ [_ [_ [_ Hins]]]]].
  pose proof (insights_verdicts _ _ Hins) as Hv.
  split.
  - intros Ht. rewrite Ht in *. revert Hins Hv.
    unfold _generate_insights.
    assert (Hl : exists i, level_insights exact_match (rms (metrics c)) = [i]
                           /\ is_verdict i = true).
    { unfold level_insights.
      destruct (Qltb 2 _); [eexists; split; reflexivity|].
      destruct (Qltb _ (-2)); eexists; split; reflexivity. }
    destruct Hl as [i [Hl Hi]]. rewrite Hl. cbn [app].
    destruct (frequency_balance (metrics c)) as [fb|].
    + destruct (band_insights 0 (differences fb)) as [l'|]; [|discriminate].
      cbn [option_map]. intros H Hv. injection H as H. rewrite <- H in *.
      exists i. eexists. split; [reflexivity|]. split; [exact Hi|].
      cbn [filter] in Hv. rewrite Hi in Hv. now injection Hv.
    + intros H Hv. injection H as H. rewrite <- H in *.
      exists i. eexists. split; [reflexivity|]. split; [exact Hi|].
      cbn [filter] in Hv. rewrite Hi in Hv. now injection Hv.
  - intros Ht. rewrite Hv. unfold level_insights.
    destruct (c_match_type c); [congruence| |];
      now destruct (negb _).
Qed.

Lemma level_verdict_only_for_exact_match_witness :
  exists c,
    _compare_with_entry Samples.sample_results Samples.sample_metadata
      Samples.earlier_session = Some c
    /\ c_match_type c = exact_match
    /\ exists i rest,
         insights c = i :: rest /\ is_verdict i = true /\
         filter is_verdict rest = [].
Proof.
  destruct (_compare_with_entry Samples.sample_results
              Samples.sample_metadata Samples.earlier_session)
    as [c|] eqn:E; [|vm_compute in E; discriminate].
  exists c. split; [reflexivity|].
  assert (Hm : c_match_type c = exact_match).
  { apply compare_with_entry_inv in E. destruct E as [-> _]. reflexivity. }
  split; [exact Hm|].
  exact (proj1 (@level_verdict_only_for_exact_match Samples.sample_results
                  Samples.sample_metadata Samples.earlier_session c E) Hm).
Defined.

Lemma band_insights_quiet (ds : list Q) :
  Forall (fun d => d == 0) ds -> forall i, band_insights i ds = Some [].
Proof.
  induction 1 as [|d ds Hd _ IH]; intros i; [reflexivity|].
  cbn [band_insights].
  assert (E : Qltb 6 (Qabs d) = false).
  { apply Qltb_ge. rewrite Hd. discriminate. }
  rewrite E. apply IH.
Qed.

Lemma band_diffs_same (cs l : list Q) :
  Forall (fun c => c = 0) cs ->
  Forall (fun d => d == 0) (band_diffs_from cs l l).
Proof.
  revert cs. induction l as [|x l IH]; intros cs Hcs; [constructor|].
  cbn [band_diffs_from]. constructor.
  - destruct Hcs as [|c cs Hc _]; [|rewrite Hc]; Lqa.lra.
  - apply IH. destruct Hcs; [constructor|assumption].
Qed.

(** X17. A session that is stored with [add_entry] and then compared with
    the same results and the same form is an exact match with a level
    difference of zero, and the only insight is that the level is the
    same. *)
Theorem saved_session_compares_as_unchanged (call : AddCall) :
  exists c,
    _compare_with_entry (call_results call) (call_metadata call)
      (entry_of call) = Some c
    /\ c_match_type c = exact_match
    /\ difference (rms (metrics c)) == 0
    /\ map i_type (insights c) = [stable].
Proof.
  destruct call as [r md cid ctime].
  unfold _compare_with_entry, entry_of. cbv zeta.
  cbn [call_results call_metadata call_id call_time analysis metadata
       equipment AudioDatabase.rms_db AudioDatabase.stereo_width
       AudioDatabase.band_energies e_mixer e_pa_system id timestamp].
  assert (Ht : _get_match_type md md (mkEquipment (mixer md) (pa_system md))
               = exact_match).
  { unfold _get_match_type, classify, match_score.
    cbn [e_mixer e_pa_system]. rewrite !opt_str_eqb_refl.
    rewrite Z.sub_diag. reflexivity. }
  rewrite Ht.
  rewrite (same_mixer_no_correction _ _ (opt_str_eqb_refl (mixer md))).
  rewrite (same_pa_no_correction _ _ (opt_str_eqb_refl (pa_system md))).
  rewrite Nat.eqb_refl. cbn [andb].
  assert (Hlevel : forall x : Q,
            level_insights exact_match
              (mkRmsMetric x x (x + 0) (x - (x + 0)) 0)
            = [mkInsight stable (level_same (x - (x + 0))) note]).
  { intros x. unfold level_insights. cbn [difference].
    assert (E1 : Qltb 2 (x - (x + 0)) = false) by (apply Qltb_ge; Lqa.lra).
    assert (E2 : Qltb (x - (x + 0)) (-2) = false)
      by (apply Qltb_ge; Lqa.lra).
    now rewrite E1, E2. }
  assert (Hwidth : forall x : Q,
            width_insights (mkWidthMetric x x (x - x)) = []).
  { intros x. unfold width_insights. cbn [w_difference].
    assert (E : Qltb 10 (Qabs (x - x)) = false).
    { apply Qltb_ge. apply Qabs_case; intros; Lqa.lra. }
    now rewrite E. }
  unfold _generate_insights.
  cbn [rms m_stereo_width frequency_balance].
  rewrite Hlevel, Hwidth.
  destruct (Nat.ltb 0 (List.length (r_band_energies r))).
  - cbn [differences].
    rewrite (band_insights_quiet
               (band_diffs_same (r_band_energies r) (repeat_zero 7))).
    cbn [option_map app]. eexists. split; [reflexivity|].
    cbn [c_match_type metrics rms difference insights map i_type].
    repeat split. Lqa.lra.
  - cbn [option_map app]. eexists. split; [reflexivity|].
    cbn [c_match_type metrics rms difference insights map i_type].
    repeat split. Lqa.lra.
Qed.

Lemma band_insights_total (ds : list Q) :
  forall i, (i + List.length ds <= 7)%nat ->
  exists l, band_insights i ds = Some l.
Proof.
  induction ds as [|d ds IH]; intros i Hi; [now exists []|].
  cbn [band_insights]. cbn [List.length] in Hi.
  destruct (IH (S i)) as [l Hl]; [lia|]. rewrite Hl.
  destruct (Qltb 6 (Qabs d)); [|now exists l].
  destruct (nth_error band_names i) as [name|] eqn:E.
  - eexists. reflexivity.
  - apply nth_error_None in E.
    change (List.length band_names) with 7%nat in E. lia.
Qed.

Lemma band_diffs_length (cs cur past : list Q) :
  (List.length (band_diffs_from cs cur past) <= List.length cur)%nat.
Proof.
  revert cs past. induction cur as [|x cur IH]; intros cs past; [cbn; lia|].
  destruct past as [|y past]; [cbn; lia|].
  cbn [band_diffs_from List.length].
  specialize (IH (tl cs) past). lia.
Qed.

Lemma compare_with_entry_total (current : V2Results) (md : Metadata)
  (entry : Entry) :
  (List.length (r_band_energies current) <= 7)%nat ->
  exists c, _compare_with_entry current md entry = Some c.
Proof.
  intros Hlen. unfold _compare_with_entry. cbv zeta.
  unfold _generate_insights at 1. cbn [frequency_balance].
  destruct (_ && _).
  - cbn [differences].
    destruct (band_insights_total
                (band_diffs_from
                   (_get_pa_corrections (pa_system md)
                      (e_pa_system (equipment entry)))
                   (r_band_energies current)
                   (band_energies (analysis entry))) 0) as [l Hl].
    { pose proof (band_diffs_length
                    (_get_pa_corrections (pa_system md)
                       (e_pa_system (equipment entry)))
                    (r_band_energies current)
                    (band_energies (analysis entry))). lia. }
    rewrite Hl. cbn [option_map]. eexists. reflexivity.
  - cbn [option_map]. eexists. reflexivity.
Qed.

(** X18. When the current analysis has at most seven band energies (the
    frequency analysis always gives seven), [compare_all] raises nothing
    and returns one comparison per past entry, in the order of the entries,
    each with the match type of its entry. *)
Theorem compare_all_one_per_entry (current : V2Results) (md : Metadata)
  (entries : list Entry) :
  (List.length (r_band_energies current) <= 7)%nat ->
  exists cs,
    compare_all current md entries = Some cs
    /\ map past_id cs = map id entries
    /\ map c_match_type cs
       = map (fun e => _get_match_type md (metadata e) (equipment e))
           entries.
Proof.
  intros Hlen. induction entries as [|e entries IH].
  - exists []. repeat split.
  - destruct IH as [cs [Hcs [Hid Hty]]].
    destruct (@compare_with_entry_total current md e Hlen) as [c Hc].
    exists (c :: cs). cbn [compare_all]. rewrite Hc, Hcs.
    apply compare_with_entry_inv in Hc. destruct Hc as [Ht [Hi _]].
    cbn [option_map map]. rewrite Hid, Hty, Ht, Hi. repeat split.
Qed.

Lemma compare_all_one_per_entry_witness :
  (List.length (r_band_energies Samples.sample_results) <= 7)%nat /\
  exists cs,
    compare_all Samples.sample_results Samples.sample_metadata
      [Samples.earlier_session; Samples.other_console_session] = Some cs
    /\ map past_id cs
       = map id [Samples.earlier_session; Samples.other_console_session]
    /\ map c_match_type cs
       = map (fun e =>
                _get_match_type Samples.sample_metadata (metadata e)
                  (equipment e))
           [Samples.earlier_session; Samples.other_console_session].
Proof.
  assert (H : (List.length (r_band_energies Samples.sample_results) <= 7)%nat)
    by (cbn; lia).
  split; [exact H|].
  exact (@compare_all_one_per_entry Samples.sample_results
           Samples.sample_metadata
           [Samples.earlier_session; Samples.other_console_session] H).
Defined.

(** With eight bands on both sides and a change of more than 6 dB in the
    eighth, the name of the band is missing and the comparison raises. *)
Example eighth_band_has_no_name :
  band_insights 0 [0; 0; 0; 0; 0; 0; 0; 7] = None.
Proof. reflexivity. Qed.

End ComparisonFacts.

(** ** The advice on the whole mix *)

Module MixAdviceFacts.
Import PyStr PyNum PyNumFacts AudioDatabase.
Import InstrumentAnalyzer MixAdvice MixAdviceReading.

Lemma In_one {A : Type} (b : bool) (x y : A) :
  In y (if b then [x] else []) -> b = true /\ y = x.
Proof. destruct b; cbn; intuition congruence. Qed.

Lemma In_one_of_two {A : Type} (b c : bool) (x z y : A) :
  In y (if b then [x] else if c then [z] else []) ->
  (b = true /\ y = x) \/ (b = false /\ c = true /\ y = z).
Proof. destruct b, c; cbn; intuition congruence. Qed.

Ltac split_ifs :=
  repeat match goal with
         | |- context [if ?c then _ else _] => destruct c
         end.

Ltac split_contains :=
  repeat match goal with
         | |- context [contains ?k ?s] => destruct (contains k s)
         end.

Lemma length_one {A : Type} (b : bool) (x : A) :
  (List.length (if b then [x] else []) <= 1)%nat.
Proof. destruct b; cbn; lia. Qed.

Lemma length_one_of_two {A : Type} (b c : bool) (x z : A) :
  (List.length (if b then [x] else if c then [z] else []) <= 1)%nat.
Proof. destruct b, c; cbn; lia. Qed.

(** What holds of the results when a good point is given. *)
Lemma good_point_cases (results : V2Results) (vc : Z) (g : GoodPoint) :
  In g (good_points_of results vc) ->
  match g_point g with
  | correlation_excellent _ | correlation_fine _ =>
      85 # 100 < r_correlation results
  | crest_ideal _ | crest_fine _ => 8 <= r_crest_factor results
  | transients_fine _ => 2 < r_avg_onset results
  | width_fits_small _ _ =>
      (vc < 200)%Z /\ 15 <= r_stereo_width results
      /\ r_stereo_width results <= 25
  | width_fits_large _ _ =>
      (200 <= vc)%Z /\ 30 <= r_stereo_width results
      /\ r_stereo_width results <= 50
  | mid_energy_fine _ =>
      (7 <= List.length (r_band_energies results))%nat
  end.
Proof.
  unfold good_points_of. cbv zeta. rewrite !in_app_iff.
  intros [H | [H | [H | [H | H]]]].
  - apply In_one_of_two in H. destruct H as [[E ->] | [_ [E ->]]];
      cbn [g_point]; apply Qltb_lt in E; Lqa.lra.
  - apply In_one_of_two in H. destruct H as [[E ->] | [_ [E ->]]];
      cbn [g_point]; apply andb_true_iff in E; destruct E as [E _];
      apply Qle_bool_iff in E; Lqa.lra.
  - apply In_one in H. destruct H as [E ->]. cbn [g_point].
    now apply Qltb_lt.
  - apply In_one_of_two in H. destruct H as [[E ->] | [_ [E ->]]];
      cbn [g_point]; apply andb_true_iff in E; destruct E as [E1 E2];
      apply andb_true_iff in E2; destruct E2 as [E2 E3];
      apply Qle_bool_iff in E2; apply Qle_bool_iff in E3.
    + apply Z.ltb_lt in E1. auto.
    + apply Z.leb_le in E1. auto.
  - destruct (7 <=? List.length (r_band_energies results))%nat eqn:E;
      [|destruct H].
    apply In_one in H. destruct H as [_ ->]. cbn [g_point].
    now apply Nat.leb_le.
Qed.

(** What holds of the results when an item is given. *)
Lemma advice_cases (results : V2Results) (vc : Z)
  (ms : option MixerSpecs) (pa : option PASpecs) (a : Advice) :
  In a (critical_of results vc ms pa ++ important_of results vc) ->
  match a_issue a with
  | correlation_low _ => r_correlation results < 7 # 10
  | width_too_wide _ _ => (vc < 200)%Z /\ 35 < r_stereo_width results
  | width_too_narrow _ _ => (500 <= vc)%Z /\ r_stereo_width results < 25
  | over_compressed _ => r_crest_factor results < 6
  | level_low _ c =>
      r_rms_db results < -20 /\ c = comp_suggestion_for ms
  | subsonic_found f reason =>
      1 # 1000 < r_very_low_rms results /\ (f, reason) = master_hpf pa
  | sub_bass_excess _ _ | clarity_band_low _ _ =>
      (7 <= List.length (r_band_energies results))%nat
  end.
Proof.
  unfold critical_of, important_of. cbv zeta. rewrite !in_app_iff.
  intros [[H | [H | [H | [H | H]]]] | [H | H]].
  - apply In_one in H. destruct H as [E ->]. cbn [a_issue].
    now apply Qltb_lt.
  - apply In_one in H. destruct H as [E ->]. cbn [a_issue].
    apply andb_true_iff in E. destruct E as [E1 E2].
    apply Z.ltb_lt in E1. apply Qltb_lt in E2. auto.
  - apply In_one in H. destruct H as [E ->]. cbn [a_issue].
    apply Qltb_lt in E. auto.
  - destruct (Qltb (1 # 1000) (r_very_low_rms results)) eqn:E;
      [|destruct H].
    destruct (master_hpf pa) as [f reason].
    destruct H as [<- | []]. cbn [a_issue].
    apply Qltb_lt in E. auto.
  - apply In_one in H. destruct H as [E ->]. cbn [a_issue].
    now apply Qltb_lt.
  - destruct ((vc <? 200)%Z && Qltb 35 (r_stereo_width results));
      [destruct H|].
    apply In_one in H. destruct H as [E ->]. cbn [a_issue].
    apply andb_true_iff in E. destruct E as [E1 E2].
    apply Z.leb_le in E1. apply Qltb_lt in E2. auto.
  - destruct (7 <=? List.length (r_band_energies results))%nat eqn:E;
      [|destruct H].
    apply Nat.leb_le in E. apply in_app_or in H.
    destruct H as [H | H]; apply In_one in H; destruct H as [_ ->];
      exact E.
Qed.

(** X19. The advice on the mix never fills the 'optional' list; every
    critical item has five stars and every important item has fewer; there
    are at most five good points, five critical and three important items,
    and at most seven items in all. *)
Theorem mix_advice_shape (results : V2Results) (vc : Z)
  (ms : option MixerSpecs) (pa : option PASpecs) :
  r_optional (snd (generate_v2_recommendations results vc ms pa)) = []
  /\ Forall (fun a => a_impact a = 5%nat)
       (r_critical (snd (generate_v2_recommendations results vc ms pa)))
  /\ Forall (fun a => (a_impact a < 5)%nat)
       (r_important (snd (generate_v2_recommendations results vc ms pa)))
  /\ (List.length (fst (generate_v2_recommendations results vc ms pa))
      <= 5)%nat
  /\ (List.length
        (r_critical (snd (generate_v2_recommendations results vc ms pa)))
      <= 5)%nat
  /\ (List.length
        (r_important (snd (generate_v2_recommendations results vc ms pa)))
      <= 3)%nat
  /\ (List.length
        (r_critical (snd (generate_v2_recommendations results vc ms pa)))
      + List.length
          (r_important (snd (generate_v2_recommendations results vc ms pa)))
      <= 7)%nat.
Proof.
  cbn [generate_v2_recommendations fst snd r_optional r_critical
       r_important].
  split; [reflexivity|].
  split.
  { apply Forall_forall. intros a Ha.
    unfold critical_of in Ha. cbv zeta in Ha. rewrite !in_app_iff in Ha.
    destruct Ha as [H | [H | [H | [H | H]]]];
      try (apply In_one in H; destruct H as [_ ->]; reflexivity).
    destruct (Qltb (1 # 1000) (r_very_low_rms results)); [|destruct H].
    destruct (master_hpf pa). destruct H as [<- | []]. reflexivity. }
  split.
  { apply Forall_forall. intros a Ha.
    unfold important_of in Ha. cbv zeta in Ha. rewrite !in_app_iff in Ha.
    destruct Ha as [H | H].
    - destruct (_ && _); [destruct H|].
      apply In_one in H. destruct H as [_ ->]. cbn. lia.
    - destruct (7 <=? _)%nat; [|destruct H].
      apply in_app_or in H.
      destruct H as [H | H]; apply In_one in H; destruct H as [_ ->];
        cbn; lia. }
  split.
  { unfold good_points_of. cbv zeta. rewrite !length_app.
    split_ifs; cbn [List.length app]; lia. }
  assert (Hc : (List.length (critical_of results vc ms pa) <= 5)%nat).
  { unfold critical_of. cbv zeta. rewrite !length_app.
    destruct (master_hpf pa). split_ifs; cbn [List.length app]; lia. }
  split; [exact Hc|].
  assert (Hi : (List.length (important_of results vc) <= 3)%nat).
  { unfold important_of. cbv zeta. rewrite !length_app.
    split_ifs; cbn [List.length app]; lia. }
  split; [exact Hi|].
  unfold critical_of, important_of. cbv zeta. rewrite !length_app.
  destruct (master_hpf pa).
  destruct ((vc <? 200)%Z && Qltb 35 (r_stereo_width results));
    split_ifs; cbn [List.length app]; lia.
Qed.

(** X20. The advice on the mix praises and blames one measure at once only
    for the frequency balance: a good point on the phase correlation, the
    crest factor or the stereo width never comes with an item on the same
    measure. *)
Theorem mix_praise_and_blame_only_on_balance (results : V2Results) (vc : Z)
  (ms : option MixerSpecs) (pa : option PASpecs) (g : GoodPoint)
  (a : Advice) :
  In g (fst (generate_v2_recommendations results vc ms pa)) ->
  In a (r_critical (snd (generate_v2_recommendations results vc ms pa))
        ++ r_important (snd (generate_v2_recommendations results vc ms pa)))
  ->
  measure_of_point (g_point g) = measure_of_issue (a_issue a) ->
  measure_of_point (g_point g) = balance.
Proof.
  cbn [generate_v2_recommendations fst snd r_critical r_important].
  intros Hg Ha Hm.
  apply good_point_cases in Hg. apply advice_cases in Ha.
  destruct (g_point g), (a_issue a); cbn in Hm; try discriminate;
    try reflexivity; exfalso;
    repeat match goal with H : _ /\ _ |- _ => destruct H end;
    first [Lqa.lra | lia].
Qed.

Lemma mix_praise_and_blame_only_on_balance_witness :
  In MixAdviceSamples.praised_balance
    (fst (generate_v2_recommendations MixAdviceSamples.boomy_results 150
            None None))
  /\ In MixAdviceSamples.blamed_balance
       (r_critical
          (snd (generate_v2_recommendations MixAdviceSamples.boomy_results
                  150 None None))
        ++ r_important
             (snd (generate_v2_recommendations
                     MixAdviceSamples.boomy_results 150 None None)))
  /\ measure_of_point (g_point MixAdviceSamples.praised_balance) = balance.
Proof.
  assert (Hg : In MixAdviceSamples.praised_balance
                 (fst (generate_v2_recommendations
                         MixAdviceSamples.boomy_results 150 None None))).
  { vm_compute. tauto. }
  assert (Ha : In MixAdviceSamples.blamed_balance
                 (r_critical
                    (snd (generate_v2_recommendations
                            MixAdviceSamples.boomy_results 150 None None))
                  ++ r_important
                       (snd (generate_v2_recommendations
                               MixAdviceSamples.boomy_results 150 None
                               None)))).
  { vm_compute. tauto. }
  split; [exact Hg|]. split; [exact Ha|].
  exact (@mix_praise_and_blame_only_on_balance
           MixAdviceSamples.boomy_results 150%Z None None
           MixAdviceSamples.praised_balance MixAdviceSamples.blamed_balance
           Hg Ha eq_refl).
Defined.

(** X21. The master high-pass frequency that the advice on the mix gives
    for a subsonic finding is 35, 40 or 50 Hz, it comes with a reason
    exactly when a loudspeaker profile is given, and it is never below the
    high-pass frequency that the kick diagnosis uses for the same
    profile. *)
Theorem master_hpf_not_below_kick_hpf (self : Engine)
  (results : V2Results) (vc : Z) (ms : option MixerSpecs) (a : Advice)
  (f : Z) (reason : option (pystr * Z)) :
  In a (r_critical
          (snd (generate_v2_recommendations results vc ms (pa_specs self))))
  ->
  a_issue a = subsonic_found f reason ->
  In f [35; 40; 50]%Z
  /\ (Z.of_nat (_get_kick_hpf_freq self) <= f)%Z
  /\ (reason = None <-> pa_specs self = None).
Proof.
  cbn [generate_v2_recommendations snd r_critical].
  intros Ha Hi.
  assert (Ha' : In a (critical_of results vc ms (pa_specs self)
                      ++ important_of results vc))
    by (apply in_or_app; now left).
  apply advice_cases in Ha'. rewrite Hi in Ha'. destruct Ha' as [_ Hf].
  unfold _get_kick_hpf_freq. revert Hf. unfold master_hpf.
  destruct (pa_specs self) as [specs|].
  - destruct (low_extension specs) as [e|].
    + destruct (e <=? 45)%Z eqn:E1.
      * intros Hf. injection Hf as -> ->. rewrite orb_true_r.
        cbn. intuition discriminate.
      * destruct (e <=? 50)%Z eqn:E2; intros Hf; injection Hf as -> ->;
          split_contains; cbn; intuition (discriminate || lia).
    + cbn [Z.leb Z.compare Pos.compare Pos.compare_cont].
      intros Hf. injection Hf as -> ->.
      split_contains; cbn; intuition (discriminate || lia).
  - intros Hf. injection Hf as -> ->. cbn. intuition lia.
Qed.

Lemma master_hpf_not_below_kick_hpf_witness :
  exists a,
    In a (r_critical
            (snd (generate_v2_recommendations MixAdviceSamples.boomy_results
                    150 None (pa_specs Samples.vocal_kick_session))))
    /\ a_issue a = subsonic_found 35 (Some (u "d&b Audiotechnik", 45%Z))
    /\ (Z.of_nat (_get_kick_hpf_freq Samples.vocal_kick_session) <= 35)%Z.
Proof.
  exists (mkAdvice cat_subsonic
            (subsonic_found 35 (Some (u "d&b Audiotechnik", 45%Z))) 5).
  assert (Ha : In (mkAdvice cat_subsonic
                     (subsonic_found 35 (Some (u "d&b Audiotechnik", 45%Z)))
                     5)
                 (r_critical
                    (snd (generate_v2_recommendations
                            MixAdviceSamples.boomy_results 150 None
                            (pa_specs Samples.vocal_kick_session))))).
  { vm_compute. tauto. }
  split; [exact Ha|]. split; [reflexivity|].
  exact (proj1 (proj2
    (@master_hpf_not_below_kick_hpf Samples.vocal_kick_session
       MixAdviceSamples.boomy_results 150%Z None _ 35%Z
       (Some (u "d&b Audiotechnik", 45%Z)) Ha eq_refl))).
Defined.

End MixAdviceFacts.

(** ** From the equipment names to the advice *)

Module EquipmentFacts.
Import PyStr PyStrFacts AudioDatabase InstrumentAnalyzer.
Import EquipmentSpecsSearcher Session MixAdvice.

Lemma startswith_upper (k s : pystr) :
  startswith k s = true -> startswith (upper k) (upper s) = true.
Proof.
  revert s. induction k as [|x k IH]; intros s; [reflexivity|].
  destruct s as [|y s]; [discriminate|]. cbn [startswith upper map].
  intros H. apply andb_true_iff in H. destruct H as [Hxy Hk].
  apply N.eqb_eq in Hxy. subst y. rewrite N.eqb_refl.
  exact (IH s Hk).
Qed.

Lemma contains_upper (k s : pystr) :
  contains k s = true -> contains (upper k) (upper s) = true.
Proof.
  induction s as [|y s IH]; cbn [contains upper map]; intros H.
  - apply orb_true_iff in H. destruct H as [H | H]; [|discriminate].
    apply startswith_upper in H. cbn [upper map] in H. now rewrite H.
  - apply orb_true_iff in H. destruct H as [H | H].
    + apply startswith_upper in H. cbn [upper map] in H. now rewrite H.
    + apply IH in H. fold (upper s). rewrite H. apply orb_true_r.
Qed.

Lemma no_x32_in_name (n : pystr) :
  contains (u "X32") (upper n) = false -> contains (u "X32") n = false.
Proof.
  intros H. destruct (contains (u "X32") n) eqn:E; [|reflexivity].
  apply contains_upper in E.
  change (upper (u "X32")) with (u "X32") in E. congruence.
Qed.

(** X22. The compressor settings in the low-level advice, by the console
    name that was entered: general settings only when no name is given;
    the Comp260 settings for a CL5, CL3 or CL1; the Opto settings for an
    X32; and for a recognised QL or SQ console the header without any
    setting, as for every other name that does not contain "Yamaha CL". *)
Theorem compressor_settings_by_console (n : pystr) :
  comp_suggestion_for (mixer_specs_for n) =
    match n with
    | [] => general_settings
    | _ =>
        if contains (u "CL5") (upper n) || contains (u "CL3") (upper n)
           || contains (u "CL1") (upper n) then comp260
        else if contains (u "QL5") (upper n) || contains (u "QL1") (upper n)
        then header_only
        else if contains (u "X32") (upper n) then vintage_opto
        else if contains (u "SQ") (upper n) then header_only
        else if contains (u "Yamaha CL") n then comp260
        else header_only
    end
  /\ (comp_suggestion_for (mixer_specs_for n) = general_settings
      <-> n = []).
Proof.
  destruct n as [|c n].
  { split; [reflexivity|]. split; reflexivity. }
  cbn [mixer_specs_for search_mixer_specs new_cache get].
  unfold _get_known_mixer_specs. cbv zeta.
  destruct (contains (u "CL5") (upper (c :: n))
            || contains (u "CL3") (upper (c :: n))
            || contains (u "CL1") (upper (c :: n))).
  { split; [reflexivity|]. split; discriminate. }
  destruct (contains (u "QL5") (upper (c :: n))
            || contains (u "QL1") (upper (c :: n))).
  { split; [reflexivity|]. split; discriminate. }
  destruct (contains (u "X32") (upper (c :: n))) eqn:Ex.
  { split; [reflexivity|]. split; discriminate. }
  destruct (contains (u "SQ") (upper (c :: n))).
  { split; [reflexivity|]. split; discriminate. }
  cbn [comp_suggestion_for m_name].
  rewrite (no_x32_in_name _ Ex).
  destruct (contains (u "Yamaha CL") (c :: n));
    (split; [reflexivity|]; split; discriminate).
Qed.

Lemma not_d_and_b (name : pystr) :
  any_in keywords_d_and_b name = false -> contains (u "d&b") name = false.
Proof.
  unfold any_in, keywords_d_and_b. cbn [existsb].
  intros H. apply orb_false_iff in H. tauto.
Qed.

(** X23. For the loudspeaker name that was entered, the high-pass
    frequency of the kick diagnosis and the master high-pass frequency of
    the advice on the mix are both 35 Hz when no name is given or the name
    matches a d&b keyword; for every other name the kick frequency is 30 or
    40 Hz and the master frequency is 10 Hz above it. *)
Theorem hpf_by_loudspeaker_name (stems : list (pystr * Stem))
  (overall_rms : Q) (mixer_name pa_system : pystr) (past : list Entry) :
  (pa_system = [] \/ any_in keywords_d_and_b (lower pa_system) = true ->
   _get_kick_hpf_freq
     (engine_for stems overall_rms mixer_name pa_system past) = 35%nat
   /\ fst (master_hpf (pa_specs_for pa_system)) = 35%Z)
  /\ (pa_system <> [] ->
      any_in keywords_d_and_b (lower pa_system) = false ->
      In (_get_kick_hpf_freq
            (engine_for stems overall_rms mixer_name pa_system past))
         [30; 40]%nat
      /\ fst (master_hpf (pa_specs_for pa_system))
         = (Z.of_nat
              (_get_kick_hpf_freq
                 (engine_for stems overall_rms mixer_name pa_system past))
            + 10)%Z).
Proof.
  unfold _get_kick_hpf_freq, engine_for. cbn [pa_specs].
  destruct pa_system as [|c n].
  { split; [intros _; split; reflexivity|]. intros H. now destruct H. }
  cbn [pa_specs_for search_pa_specs new_cache get].
  unfold _get_known_pa_specs. cbv zeta.
  destruct (any_in keywords_d_and_b (lower (c :: n))) eqn:Ed.
  { split; [intros _; split; reflexivity|]. discriminate. }
  split; [intros [H | H]; discriminate|]. intros _ _.
  destruct (any_in keywords_jbl (lower (c :: n))).
  { split; [left|]; reflexivity. }
  destruct (any_in keywords_l_acoustics (lower (c :: n))).
  { split; [left|]; reflexivity. }
  destruct (any_in keywords_meyer (lower (c :: n))).
  { split; [left|]; reflexivity. }
  destruct (any_in keywords_ev (lower (c :: n))).
  { split; [right; left|]; reflexivity. }
  destruct (any_in keywords_qsc (lower (c :: n))).
  { split; [right; left|]; reflexivity. }
  destruct (any_in keywords_nexo (lower (c :: n))).
  { split; [left|]; reflexivity. }
  destruct (any_in keywords_yamaha (lower (c :: n))).
  { split; [right; left|]; reflexivity. }
  cbn [pa_name low_extension master_hpf].
  rewrite (not_d_and_b _ Ed).
  cbn [orb Z.leb Z.compare Pos.compare Pos.compare_cont].
  rewrite orb_true_r. split; [left|]; reflexivity.
Qed.

End EquipmentFacts.

(** ** Levels and stereo image of the mix *)

Module MixLevelFacts.
Import Dynamics DynamicsFacts MixLevels.
Local Open Scope R_scope.

Lemma Rltb_true (x y : R) : x < y -> Rltb x y = true.
Proof.
  intros H. unfold Rltb. destruct (Rlt_dec x y); [reflexivity|contradiction].
Qed.

Lemma Rltb_false (x y : R) : y <= x -> Rltb x y = false.
Proof.
  intros H. unfold Rltb. destruct (Rlt_dec x y); [lra|reflexivity].
Qed.

Lemma fold_max_ge (l : list R) :
  forall x, x <= fold_left Rmax l x
            /\ Forall (fun y => y <= fold_left Rmax l x) l.
Proof.
  induction l as [|a l IH]; intros x; cbn [fold_left].
  - split; [lra|constructor].
  - destruct (IH (Rmax x a)) as [H1 H2].
    pose proof (Rmax_l x a). pose proof (Rmax_r x a).
    split; [lra|]. constructor; [lra|exact H2].
Qed.

Lemma fold_max_in (l : list R) :
  forall x, fold_left Rmax l x = x \/ In (fold_left Rmax l x) l.
Proof.
  induction l as [|a l IH]; intros x; cbn [fold_left]; [now left|].
  destruct (IH (Rmax x a)) as [H | H]; [|right; right; exact H].
  rewrite H. unfold Rmax.
  destruct (Rle_dec x a); [right; left; reflexivity | left; reflexivity].
Qed.

Lemma np_max_ge (a : list R) (x : R) : In x a -> x <= np_max a.
Proof.
  destruct a as [|y a]; [intros []|]. cbn [np_max].
  destruct (fold_max_ge a y) as [H1 H2].
  intros [<- | H]; [exact H1|].
  rewrite Forall_forall in H2. now apply H2.
Qed.

Lemma np_max_in (a : list R) : a <> [] -> In (np_max a) a.
Proof.
  destruct a as [|y a]; [congruence|]. intros _. cbn [np_max].
  destruct (fold_max_in a y) as [H | H]; [left; now rewrite H|now right].
Qed.

Lemma length_pos (A : Type) (l : list A) : l <> [] -> 0 < INR (List.length l).
Proof.
  destruct l; [congruence|]. intros _. apply lt_0_INR. cbn. lia.
Qed.

Lemma Rsum_bounds (l : list R) (M : R) :
  Forall (fun v => 0 <= v <= M) l ->
  0 <= Rsum l <= INR (List.length l) * M.
Proof.
  induction 1 as [|v l Hv _ IH].
  - cbn. lra.
  - change (Rsum (v :: l)) with (v + Rsum l).
    change (List.length (v :: l)) with (S (List.length l)).
    rewrite S_INR. lra.
Qed.

Lemma mean_bounds (l : list R) (M : R) :
  l <> [] -> Forall (fun v => 0 <= v <= M) l -> 0 <= mean l <= M.
Proof.
  intros Hl H. apply Rsum_bounds in H. pose proof (length_pos Hl) as Hn.
  unfold mean. split.
  - apply Rmult_le_pos; [lra|]. apply Rlt_le, Rinv_0_lt_compat, Hn.
  - apply (Rmult_le_reg_r (INR (List.length l))); [exact Hn|].
    unfold Rdiv. rewrite Rmult_assoc, Rinv_l by lra. lra.
Qed.

Lemma Rsum_pos (l : list R) (v : R) :
  Forall (fun w => 0 <= w) l -> In v l -> 0 < v -> 0 < Rsum l.
Proof.
  induction 1 as [|w l Hw Hl IH]; [intros []|].
  change (Rsum (w :: l)) with (w + Rsum l).
  assert (0 <= Rsum l).
  { clear IH. induction Hl as [|z l Hz _ IH]; [cbn; lra|].
    change (Rsum (z :: l)) with (z + Rsum l). lra. }
  intros [<- | Hin] Hv; [lra|]. specialize (IH Hin Hv). lra.
Qed.

Lemma Rsum_zero (l : list R) : Forall (fun w => w = 0) l -> Rsum l = 0.
Proof.
  induction 1 as [|w l Hw _ IH]; [reflexivity|].
  change (Rsum (w :: l)) with (w + Rsum l). lra.
Qed.

Lemma rms_zero (l : list R) :
  Forall (fun w => w = 0) l -> root_mean_square l = 0.
Proof.
  intros H. unfold root_mean_square, mean.
  rewrite Rsum_zero.
  - unfold Rdiv. rewrite Rmult_0_l. apply sqrt_0.
  - apply Forall_forall. intros v Hv. apply in_map_iff in Hv.
    destruct Hv as [w [<- Hw]]. rewrite Forall_forall in H.
    rewrite (H w Hw). lra.
Qed.

(** The peak of a signal bounds its RMS value, and both vanish together. *)
Lemma rms_below_peak (y : list R) :
  y <> [] ->
  0 <= root_mean_square y <= np_max (map Rabs y)
  /\ (0 < np_max (map Rabs y) -> 0 < root_mean_square y).
Proof.
  intros Hy. set (P := np_max (map Rabs y)).
  assert (Hne : map Rabs y <> []) by (destruct y; [congruence|discriminate]).
  assert (HP : In P (map Rabs y)) by (apply np_max_in, Hne).
  assert (HP0 : 0 <= P).
  { apply in_map_iff in HP. destruct HP as [w [<- _]]. apply Rabs_pos. }
  assert (Hsq : Forall (fun v => 0 <= v <= P ^ 2) (map (fun x => x ^ 2) y)).
  { apply Forall_forall. intros v Hv. apply in_map_iff in Hv.
    destruct Hv as [w [<- Hw]]. split; [apply pow2_ge_0|].
    rewrite <- (pow2_abs w). apply pow_incr. split; [apply Rabs_pos|].
    apply np_max_ge. now apply in_map. }
  assert (Hsqne : map (fun x => x ^ 2) y <> [])
    by (destruct y; [congruence|discriminate]).
  pose proof (mean_bounds Hsqne Hsq) as [Hm0 HmP].
  split.
  - unfold root_mean_square. split; [apply sqrt_pos|].
    rewrite <- (sqrt_pow2 P HP0). now apply sqrt_le_1_alt.
  - intros Hpos. unfold root_mean_square. apply sqrt_lt_R0.
    unfold mean. apply Rdiv_lt_0_compat; [|apply length_pos, Hsqne].
    apply in_map_iff in HP. destruct HP as [w [Hw Hin]].
    apply (@Rsum_pos _ (w ^ 2)).
    + apply Forall_forall. intros v Hv. rewrite Forall_forall in Hsq.
      now apply Hsq.
    + now apply in_map with (f := fun x => x ^ 2).
    + rewrite <- (pow2_abs w), Hw. apply pow_lt. exact Hpos.
Qed.

(** X24. Over the reals, the crest factor of a non-empty signal is never
    negative, and a silent signal has the peak level -100, the RMS level
    -100 and the crest factor 0. *)
Theorem crest_factor_is_not_negative (y_mono : list R) :
  y_mono <> [] ->
  0 <= crest_factor y_mono
  /\ (Forall (fun v => v = 0) y_mono ->
      peak_db y_mono = -100 /\ rms_db y_mono = -100
      /\ crest_factor y_mono = 0).
Proof.
  intros Hy. destruct (rms_below_peak Hy) as [[Hr0 HrP] Hpos].
  assert (Hcases : 0 <= crest_factor y_mono).
  { unfold crest_factor, peak_db, rms_db. cbv zeta.
    destruct (Rlt_dec 0 (np_max (map Rabs y_mono))) as [HP | HP].
    - specialize (Hpos HP).
      rewrite (Rltb_true HP), (Rltb_true Hpos).
      assert (Hln : ln (root_mean_square y_mono)
                    <= ln (np_max (map Rabs y_mono))).
      { destruct HrP as [Hlt | Heq]; [|rewrite Heq; lra].
        apply Rlt_le, ln_increasing; assumption. }
      unfold log10. pose proof ln_10_pos as H10.
      assert (0 <= (ln (np_max (map Rabs y_mono))
                    - ln (root_mean_square y_mono)) / ln 10).
      { apply Rmult_le_pos; [lra|]. apply Rlt_le, Rinv_0_lt_compat, H10. }
      unfold Rdiv in *. lra.
    - assert (HP0 : np_max (map Rabs y_mono) <= 0) by lra.
      rewrite (Rltb_false HP0).
      assert (Hr : root_mean_square y_mono <= 0) by lra.
      rewrite (Rltb_false Hr). lra. }
  split; [exact Hcases|].
  intros Hz.
  assert (Hr : root_mean_square y_mono = 0) by (apply rms_zero, Hz).
  assert (HP : np_max (map Rabs y_mono) = 0).
  { assert (Hne : map Rabs y_mono <> [])
      by (destruct y_mono; [congruence|discriminate]).
    pose proof (np_max_in Hne) as Hin. apply in_map_iff in Hin.
    destruct Hin as [w [Hw Hin]]. rewrite Forall_forall in Hz.
    rewrite (Hz w Hin) in Hw. rewrite Rabs_R0 in Hw. now rewrite <- Hw. }
  unfold crest_factor, peak_db, rms_db. cbv zeta. rewrite HP, Hr.
  rewrite (Rltb_false (Rle_refl 0)). repeat split; lra.
Qed.

Lemma crest_factor_is_not_negative_witness :
  0 <= crest_factor [0; 1].
Proof.
  assert (H : [0; 1] <> []) by discriminate.
  exact (proj1 (@crest_factor_is_not_negative [0; 1] H)).
Defined.

Lemma combine_same (A : Type) (l : list A) :
  combine l l = map (fun a => (a, a)) l.
Proof. induction l as [|a l IH]; cbn; [reflexivity|now rewrite IH]. Qed.

Lemma combine_opp (l : list R) :
  combine l (map Ropp l) = map (fun a => (a, - a)) l.
Proof. induction l as [|a l IH]; cbn; [reflexivity|now rewrite IH]. Qed.

(** X25. Over the reals, the stereo width of two identical channels (a
    mono file is loaded as such a pair) is 0; the width is never negative;
    and for a channel against its inverse, where the mid signal vanishes,
    the guard of the division makes it the RMS value times 10^12. *)
Theorem stereo_width_of_equal_and_opposed_channels (y : list R) :
  y <> [] ->
  stereo_width y y = 0
  /\ stereo_width y (map Ropp y) = root_mean_square y * 10 ^ 12
  /\ forall right, 0 <= stereo_width y right.
Proof.
  intros Hy.
  assert (Heps : 0 < / 10 ^ 10) by (apply Rinv_0_lt_compat, pow_lt; lra).
  split; [|split].
  - unfold stereo_width. cbv zeta.
    assert (Hs : root_mean_square (side y y) = 0).
    { apply rms_zero. unfold side. rewrite combine_same, map_map.
      apply Forall_forall. intros v Hv. apply in_map_iff in Hv.
      destruct Hv as [w [<- _]]. cbn. lra. }
    rewrite Hs. unfold Rdiv. now rewrite !Rmult_0_l.
  - unfold stereo_width. cbv zeta.
    assert (Hm : root_mean_square (mid y (map Ropp y)) = 0).
    { apply rms_zero. unfold mid. rewrite combine_opp, map_map.
      apply Forall_forall. intros v Hv. apply in_map_iff in Hv.
      destruct Hv as [w [<- _]]. cbn. lra. }
    assert (Hs : side y (map Ropp y) = y).
    { unfold side. rewrite combine_opp, map_map.
      rewrite <- (map_id y) at 2. apply map_ext. intros a. cbn. lra. }
    rewrite Hm, Hs, Rplus_0_l. unfold Rdiv.
    rewrite Rinv_inv. replace (10 ^ 12) with (10 ^ 10 * 100) by lra.
    ring.
  - intros right. unfold stereo_width. cbv zeta.
    assert (0 <= root_mean_square (side y right))
      by (unfold root_mean_square; apply sqrt_pos).
    assert (0 <= root_mean_square (mid y right))
      by (unfold root_mean_square; apply sqrt_pos).
    apply Rmult_le_pos; [|lra].
    apply Rmult_le_pos; [assumption|].
    apply Rlt_le, Rinv_0_lt_compat. lra.
Qed.

Lemma stereo_width_of_equal_and_opposed_channels_witness :
  stereo_width [1; -1] [1; -1] = 0.
Proof.
  assert (H : [1; -1] <> []) by discriminate.
  exact (proj1 (@stereo_width_of_equal_and_opposed_channels [1; -1] H)).
Defined.

End MixLevelFacts.

(** ** Conversion of NumPy values *)

Module SerializableFacts.
Import PyStr Serializable.

(** Induction on a value with its items. *)
Lemma pyval_induction (P : pyval -> Prop) :
  (forall tolist, P tolist -> P (NdArray tolist)) ->
  (forall q, P (NpFloat q)) ->
  (forall z, P (NpInt z)) ->
  (forall q, P (NpScalar q)) ->
  (forall q, P (PyFloat q)) ->
  (forall z, P (PyInt z)) ->
  (forall b, P (PyBool b)) ->
  (forall s, P (PyText s)) ->
  P PyNone ->
  (forall items,
     Forall (fun kv => P (fst kv) /\ P (snd kv)) items -> P (PyDict items)) ->
  (forall items, Forall P items -> P (PyList items)) ->
  (forall held, Forall P held -> P (PyOther held)) ->
  forall v, P v.
Proof.
  intros Harr Hnf Hni Hns Hf Hi Hb Hs Hn Hd Hl Ho.
  fix IH 1.
  intros [tolist|q|z|q|q|z|b|s| |items|items|held];
    [ | apply Hnf | apply Hni | apply Hns | apply Hf | apply Hi | apply Hb
    | apply Hs | apply Hn | | | ].
  - apply Harr. apply IH.
  - apply Hd. induction items as [|[k v] items IHl]; constructor;
      [split; apply IH | exact IHl].
  - apply Hl. induction items as [|v items IHl]; constructor;
      [apply IH | exact IHl].
  - apply Ho. induction held as [|v held IHl]; constructor;
      [apply IH | exact IHl].
Qed.

(** A value without NumPy values is left as it is. *)
Lemma plain_is_kept (obj : pyval) :
  plain obj = true -> _convert_to_serializable obj = obj.
Proof.
  induction obj as [tolist _|q|z|q|q|z|b|s| |items IH|items IH|held _]
    using pyval_induction; try reflexivity; try discriminate.
  - cbn [_convert_to_serializable plain]. intros H. f_equal.
    induction IH as [|[k v] items [_ Hv] _ IHl]; [reflexivity|].
    cbn [forallb] in H. apply andb_true_iff in H. destruct H as [Hkv Hi].
    apply andb_true_iff in Hkv. destruct Hkv as [_ Hpv].
    cbn [map snd] in *. now rewrite (Hv Hpv), (IHl Hi).
  - cbn [_convert_to_serializable plain]. intros H. f_equal.
    induction IH as [|v items Hv _ IHl]; [reflexivity|].
    cbn [forallb] in H. apply andb_true_iff in H. destruct H as [Hpv Hi].
    cbn [map]. now rewrite (Hv Hpv), (IHl Hi).
Qed.

(** The result is free of NumPy values exactly when they were all within
    reach. *)
Lemma plain_after_conversion (obj : pyval) :
  plain (_convert_to_serializable obj) = within_reach obj.
Proof.
  induction obj as [tolist _|q|z|q|q|z|b|s| |items IH|items IH|held _]
    using pyval_induction; try reflexivity.
  - cbn [_convert_to_serializable plain within_reach].
    induction IH as [|[k v] items [_ Hv] _ IHl]; [reflexivity|].
    cbn [map forallb snd] in *. now rewrite Hv, IHl.
  - cbn [_convert_to_serializable plain within_reach].
    induction IH as [|v items Hv _ IHl]; [reflexivity|].
    cbn [map forallb]. now rewrite Hv, IHl.
Qed.

(** With numeric arrays a second conversion changes nothing. *)
Lemma conversion_settles (obj : pyval) :
  arrays_numeric obj = true ->
  _convert_to_serializable (_convert_to_serializable obj)
  = _convert_to_serializable obj.
Proof.
  induction obj as [tolist _|q|z|q|q|z|b|s| |items IH|items IH|held _]
    using pyval_induction; try reflexivity.
  - cbn [arrays_numeric _convert_to_serializable]. intros H.
    now apply plain_is_kept.
  - cbn [arrays_numeric _convert_to_serializable]. intros H. f_equal.
    induction IH as [|[k v] items [_ Hv] _ IHl]; [reflexivity|].
    cbn [forallb] in H. apply andb_true_iff in H. destruct H as [Hav Hi].
    cbn [map snd] in *. now rewrite (Hv Hav), (IHl Hi).
  - cbn [arrays_numeric _convert_to_serializable]. intros H. f_equal.
    induction IH as [|v items Hv _ IHl]; [reflexivity|].
    cbn [forallb] in H. apply andb_true_iff in H. destruct H as [Hav Hi].
    cbn [map]. now rewrite (Hv Hav), (IHl Hi).
Qed.

(** X26. The conversion leaves a value without NumPy values as it is.  Its
    result is free of NumPy values exactly when every NumPy value was
    within its reach: an array without NumPy objects, or a float32,
    float64, int32 or int64, standing under dicts (as a value) and lists
    only.  A NumPy scalar of another type, such as an int16, is returned
    as it is, also inside a list; so are the keys of a dict and the items
    of a tuple.  With numeric arrays the conversion is idempotent; an array
    of objects that holds a NumPy float is converted only by a second
    pass. *)
Theorem conversion_reaches_dicts_and_lists_only :
  (forall obj, plain obj = true -> _convert_to_serializable obj = obj)
  /\ (forall obj, plain (_convert_to_serializable obj) = within_reach obj)
  /\ (forall obj,
        arrays_numeric obj = true ->
        _convert_to_serializable (_convert_to_serializable obj)
        = _convert_to_serializable obj)
  /\ (forall q,
        _convert_to_serializable (PyList [NpScalar q]) = PyList [NpScalar q]
        /\ _convert_to_serializable (PyOther [NpFloat q])
           = PyOther [NpFloat q]
        /\ _convert_to_serializable (PyDict [(NpInt 1, PyNone)])
           = PyDict [(NpInt 1, PyNone)])
  /\ (forall q,
        _convert_to_serializable (NdArray (PyList [NpFloat q]))
        = PyList [NpFloat q]
        /\ _convert_to_serializable
             (_convert_to_serializable (NdArray (PyList [NpFloat q])))
           = PyList [PyFloat q]).
Proof.
  split; [exact plain_is_kept|].
  split; [exact plain_after_conversion|].
  split; [exact conversion_settles|].
  split; intros q; repeat split.
Qed.

End SerializableFacts.

(** ** Items and tags of a line-up text *)

Module LineupFacts.
Import PyStr PyStrFacts InstrumentSeparator InstrumentSeparatorFacts.

Lemma fold_parse_length (table : list (pystr * pystr)) (items : list pystr) :
  forall acc,
    (List.length (fold_left (parse_item table) items acc)
     <= List.length acc + List.length items)%nat.
Proof.
  induction items as [|raw items IH]; intros acc; cbn [fold_left List.length];
    [lia|].
  specialize (IH (parse_item table acc raw)).
  assert (Hstep : (List.length (parse_item table acc raw)
                   <= List.length acc + 1)%nat).
  { destruct (parse_item_cases table acc raw) as [E | [tag [_ [_ E]]]];
      rewrite E; [|rewrite length_app; cbn [List.length]]; lia. }
  lia.
Qed.

Lemma replace_char_absent (c : N) (new s : pystr) :
  ~ In c s -> replace [c] new s = s.
Proof.
  induction s as [|x s IH]; [reflexivity|]. intros H.
  rewrite replace_char_cons.
  destruct (c =? x)%N eqn:E.
  - apply N.eqb_eq in E. subst. exfalso. apply H. now left.
  - cbn [app]. rewrite IH; [reflexivity|]. intros Hin. apply H. now right.
Qed.

Lemma split_absent (sep : N) (s : pystr) : ~ In sep s -> split sep s = [s].
Proof.
  induction s as [|x s IH]; [reflexivity|]. intros H. cbn [split].
  destruct (x =? sep)%N eqn:E.
  - apply N.eqb_eq in E. subst. exfalso. apply H. now left.
  - rewrite IH; [reflexivity|]. intros Hin. apply H. now right.
Qed.

(** X27. A line-up text gives at most one tag per item, where the items
    are separated by commas (ASCII or Japanese) and line breaks only: a
    text without them gives at most one tag, whatever spaces it has.  No
    text gives more than ten tags, and each tag of the vocabulary is itself
    a token with that tag. *)
Theorem lineup_one_tag_per_item :
  (forall text,
     (List.length (_parse_lineup text) <= List.length (split_items text))%nat)
  /\ (forall text, (List.length (_parse_lineup text) <= 10)%nat)
  /\ (forall text,
        ~ In 44%N text -> ~ In 10%N text -> ~ In 12289%N text ->
        (List.length (_parse_lineup text) <= 1)%nat)
  /\ (forall tag, In tag canonical_tags -> _parse_lineup tag = [tag]).
Proof.
  assert (Hitems : forall text,
            (List.length (_parse_lineup text)
             <= List.length (split_items text))%nat).
  { intros text. unfold _parse_lineup, parse_with.
    pose proof (fold_parse_length mapping (split_items text) []) as H.
    cbn [List.length] in H. lia. }
  split; [exact Hitems|]. split; [|split].
  - intros text.
    change 10%nat with (List.length canonical_tags).
    apply NoDup_incl_length.
    + apply fold_parse_NoDup. constructor.
    + apply fold_parse_incl; [apply mapping_values_canonical|].
      intros x [].
  - intros text Hc Hn Hj. specialize (Hitems text).
    assert (Hs : split_items text = [text]).
    { unfold split_items.
      change (u ",") with [44%N]. change (u "、") with [12289%N].
      rewrite (@replace_char_absent 10%N [44%N] text Hn).
      rewrite (@replace_char_absent 12289%N [44%N] text Hj).
      now apply split_absent. }
    rewrite Hs in Hitems. exact Hitems.
  - intros tag H. unfold canonical_tags in H.
    repeat (destruct H as [<- | H]; [vm_compute; reflexivity|]).
    destruct H.
Qed.

End LineupFacts.

(** ** From the console name to the sibilance advice *)

Module ConsoleFacts.
Import PyStr PyStrFacts AudioDatabase InstrumentAnalyzer.
Import EquipmentSpecsSearcher Session.

(** The consoles of the table that have a de-esser. *)
Lemma de_esser_in_table (n : pystr) :
  n <> [] ->
  match mixer_specs_for n with
  | Some specs => truthy (has_de_esser specs)
  | None => false
  end
  = (contains (u "CL5") (upper n) || contains (u "CL3") (upper n)
     || contains (u "CL1") (upper n)
     || (contains (u "QL5") (upper n) || contains (u "QL1") (upper n))
     || negb (contains (u "X32") (upper n)) && contains (u "SQ") (upper n)).
Proof.
  destruct n as [|c n]; [congruence|]. intros _.
  cbn [mixer_specs_for search_mixer_specs new_cache get].
  unfold _get_known_mixer_specs. cbv zeta.
  destruct (contains (u "CL5") (upper (c :: n))
            || contains (u "CL3") (upper (c :: n))
            || contains (u "CL1") (upper (c :: n))); [reflexivity|].
  destruct (contains (u "QL5") (upper (c :: n))
            || contains (u "QL1") (upper (c :: n))); [reflexivity|].
  destruct (contains (u "X32") (upper (c :: n))); [reflexivity|].
  destruct (contains (u "SQ") (upper (c :: n))); reflexivity.
Qed.

(** X28. By the console name that was entered, the sibilance
    recommendation of a vocal diagnosis offers the de-esser exactly for a
    CL5, CL3 or CL1, a QL5 or QL1, and an SQ console that is not taken for
    an X32; without a console name, and for every other name, it offers
    the manual EQ cut and the microphone technique only. *)
Theorem de_esser_by_console (stems : list (pystr * Stem)) (overall_rms : Q)
  (mixer_name pa_system : pystr) (past : list Entry)
  (problems : list Problem) (freq_bands : list (pystr * Q))
  (trend : option Trend) (venue_capacity : Z) (stage_volume : pystr)
  (r : Recommendation) :
  In r (_generate_vocal_recommendations
          (engine_for stems overall_rms mixer_name pa_system past)
          problems freq_bands trend venue_capacity stage_volume) ->
  title r = title_sibilance ->
  (In method_de_esser (map method (approaches r)) <->
   mixer_name <> [] /\
   (contains (u "CL5") (upper mixer_name)
    || contains (u "CL3") (upper mixer_name)
    || contains (u "CL1") (upper mixer_name)
    || (contains (u "QL5") (upper mixer_name)
        || contains (u "QL1") (upper mixer_name))
    || negb (contains (u "X32") (upper mixer_name))
       && contains (u "SQ") (upper mixer_name)) = true)
  /\ (~ In method_de_esser (map method (approaches r)) ->
      map method (approaches r) = [method_manual_eq; method_microphone]).
Proof.
  intros Hr Ht. apply RecommendationFacts.generate_origin in Hr.
  destruct Hr as [p [_ [_ Hp]]]. unfold recommendation_for in Hp.
  destruct (contains (u "明瞭度") (problem p)).
  { injection Hp as <-. cbn [title] in Ht. vm_compute in Ht. discriminate. }
  destruct (contains (u "こもり") (problem p)).
  { injection Hp as <-. cbn [title] in Ht. vm_compute in Ht. discriminate. }
  destruct (contains (u "歯擦音") (problem p)).
  - injection Hp as <-. cbn [approaches]. unfold sibilance_approaches.
    unfold engine_for. cbn [mixer_specs].
    assert (Hrest : ~ In method_de_esser
                      [method_manual_eq; method_microphone]).
    { intros [H | [H | []]]; vm_compute in H; discriminate. }
    destruct mixer_name as [|c n].
    + cbn [mixer_specs_for app map method]. split.
      * split; [intros H; now destruct Hrest|]. intros [H _]. congruence.
      * reflexivity.
    + assert (Hne : c :: n <> []) by discriminate.
      rewrite <- (de_esser_in_table Hne).
      destruct (mixer_specs_for (c :: n)) as [specs|].
      * destruct (truthy (has_de_esser specs)); cbn [app map method].
        -- split; [|intros H; exfalso; apply H; now left].
           split; [intros _; split; [exact Hne|reflexivity]|].
           intros _. now left.
        -- split; [|reflexivity].
           split; [intros H; now destruct Hrest|]. intros [_ H].
           discriminate.
      * cbn [app map method]. split; [|reflexivity].
        split; [intros H; now destruct Hrest|]. intros [_ H]. discriminate.
  - destruct (contains (u "ダイナミクス") (category p)); [|discriminate].
    injection Hp as <-. cbn [title] in Ht. vm_compute in Ht. discriminate.
Qed.

Lemma de_esser_by_console_witness :
  let self :=
    engine_for [(u "vocal", Samples.sibilant_vocal)] (-18) (u "CL5")
      (u "d&b") [] in
  let recs :=
    _generate_vocal_recommendations self
      [mkProblem important cat_balance problem_sibilance 8]
      (band_levels Samples.sibilant_vocal vocal_bands) None 150
      (u "medium") in
  let r :=
    mkRec important title_sibilance (sibilance_approaches self) [] None
      None in
  recs = [r] /\ In method_de_esser (map method (approaches r)).
Proof.
  cbv zeta. split; [reflexivity|].
  apply (@de_esser_by_console
           [(u "vocal", Samples.sibilant_vocal)] (-18) (u "CL5")
           (u "d&b") []
           [mkProblem important cat_balance problem_sibilance 8]
           (band_levels Samples.sibilant_vocal vocal_bands) None
           150%Z (u "medium")
           (mkRec important title_sibilance
              (sibilance_approaches
                 (engine_for [(u "vocal", Samples.sibilant_vocal)] (-18)
                    (u "CL5") (u "d&b") []))
              [] None None)).
  - left. reflexivity.
  - reflexivity.
  - split; [discriminate|reflexivity].
Defined.

End ConsoleFacts.
